(** * Remote-I/O (RIO) client and server message paths of fdio

    A shallow embedding of the message codec, the transaction engine, the
    chunked read/write loops, [zxrio_ioctl], [zxrio_close] and the two open
    flavours of [remoteio.c], together with the properties its
    specification states about them.

    Conventions.
    - C integers are [Z]; where a conversion or an unsigned operation can
      wrap, the wrap is written out ([to_uint32], [to_int32]).
    - A [zxrio_msg_t*] argument that the C code mutates becomes a message
      value passed in and returned.
    - System calls are the only effects.  Every call is appended to a trace
      of events, and its outcome is read from a [kernel]: a family of
      functions from the history so far and the call's arguments to the
      values the kernel writes back.  Quantifying over kernels quantifies
      over every behaviour of the transport and of the peer behind it. *)

From Stdlib Require Import ZArith List Bool Lia.
From Equations Require Import Equations.
Import ListNotations.
Local Open Scope Z_scope.

Set Implicit Arguments.

(** ** Constants of the headers

    [remoteio.c] takes its sizes, op codes and status codes from headers
    ([fdio/remoteio.h], [zircon/errors.h], [zircon/device/ioctl.h], ...).
    They are parameters of the development; the laws are the few facts about
    them that the code relies on. *)

Class Headers : Type := {
  FDIO_CHUNK_SIZE : Z;
  FDIO_MAX_HANDLES : Z;
  FDIO_IOCTL_MAX_INPUT : Z;
  ZXRIO_HDR_SZ : Z;
  sizeof_zxrio_msg_t : Z;
  sizeof_zxrio_describe_t : Z;
  PATH_MAX : Z;

  ZXRIO_OP : Z -> Z;
  ZXRIO_STATUS : Z;
  ZXRIO_CLOSE : Z;
  ZXRIO_READ : Z;
  ZXRIO_READ_AT : Z;
  ZXRIO_WRITE : Z;
  ZXRIO_WRITE_AT : Z;
  ZXRIO_IOCTL : Z;
  ZXRIO_IOCTL_1H : Z;
  ZXRIO_IOCTL_2H : Z;
  ZXRIO_ON_OPEN : Z;

  IOCTL_KIND : Z -> Z;
  IOCTL_KIND_GET_HANDLE : Z;
  IOCTL_KIND_GET_TWO_HANDLES : Z;
  IOCTL_KIND_GET_THREE_HANDLES : Z;
  IOCTL_KIND_SET_HANDLE : Z;
  IOCTL_KIND_SET_TWO_HANDLES : Z;

  ZX_FS_FLAG_DESCRIBE : Z;
  ZX_HANDLE_INVALID : Z;

  ZX_OK : Z;
  ZX_ERR_INTERNAL : Z;
  ZX_ERR_INVALID_ARGS : Z;
  ZX_ERR_IO : Z;
  ZX_ERR_CALL_FAILED : Z;
  ZX_ERR_BAD_PATH : Z;

  (* laws *)
  ZX_OK_zero : ZX_OK = 0;
  ZX_ERR_IO_neg : ZX_ERR_IO < 0;
  FDIO_CHUNK_SIZE_pos : 0 < FDIO_CHUNK_SIZE;
  FDIO_MAX_HANDLES_nonneg : 0 <= FDIO_MAX_HANDLES;
  ioctl_kinds_distinct :
    NoDup [IOCTL_KIND_GET_HANDLE; IOCTL_KIND_GET_TWO_HANDLES;
           IOCTL_KIND_GET_THREE_HANDLES; IOCTL_KIND_SET_HANDLE;
           IOCTL_KIND_SET_TWO_HANDLES]
}.

(** ** Machine integers *)

Definition to_uint32 (x : Z) : Z := x mod 2 ^ 32.

Definition to_int32 (x : Z) : Z :=
  let u := x mod 2 ^ 32 in if u <? 2 ^ 31 then u else u - 2 ^ 32.

(** A byte is an integer in [0, 256). *)
Definition byte := Z.

(** [zx_handle_t] is a 32-bit unsigned integer; in memory it is four bytes,
    least significant first. *)
Definition sizeof_zx_handle_t : Z := 4.

Definition le32 (x : Z) : list byte :=
  [x mod 256; (x / 256) mod 256; (x / 65536) mod 256; (x / 16777216) mod 256].

Definition load32 (bs : list byte) : Z :=
  nth 0 bs 0 + 256 * nth 1 bs 0 + 65536 * nth 2 bs 0 + 16777216 * nth 3 bs 0.

(** ** Data model *)

(** [zxrio_msg_t].  [m_handle] is the inline handle array, of which the first
    [m_hcount] entries are meaningful; [m_data] is the payload buffer, of
    which the first [m_datalen] bytes are meaningful.  [m_arg2] stands for
    the union [arg2] (offset, mode or ioctl op). *)
Record zxrio_msg_t : Type := mk_msg {
  m_txid : Z;
  m_op : Z;
  m_datalen : Z;
  m_arg : Z;
  m_arg2 : Z;
  m_hcount : Z;
  m_handle : list Z;
  m_data : list byte
}.

(** The connection object [zxrio_t], without the generic [fdio_t] part. *)
Record zxrio_t : Type := mk_rio {
  rio_h : Z;
  rio_h2 : Z;
  rio_txid : Z
}.

(** [zxrio_describe_t], without the [extra] union, which the code modelled
    here never reads. *)
Record zxrio_describe_t : Type := mk_info {
  info_op : Z;
  info_status : Z;
  info_type : Z;
  info_handle : Z
}.

Definition set_txid (v : Z) (m : zxrio_msg_t) : zxrio_msg_t :=
  mk_msg v (m_op m) (m_datalen m) (m_arg m) (m_arg2 m) (m_hcount m) (m_handle m) (m_data m).
Definition set_hcount (v : Z) (m : zxrio_msg_t) : zxrio_msg_t :=
  mk_msg (m_txid m) (m_op m) (m_datalen m) (m_arg m) (m_arg2 m) v (m_handle m) (m_data m).
Definition set_handle (v : list Z) (m : zxrio_msg_t) : zxrio_msg_t :=
  mk_msg (m_txid m) (m_op m) (m_datalen m) (m_arg m) (m_arg2 m) (m_hcount m) v (m_data m).
Definition set_op (v : Z) (m : zxrio_msg_t) : zxrio_msg_t :=
  mk_msg (m_txid m) v (m_datalen m) (m_arg m) (m_arg2 m) (m_hcount m) (m_handle m) (m_data m).
Definition set_datalen (v : Z) (m : zxrio_msg_t) : zxrio_msg_t :=
  mk_msg (m_txid m) (m_op m) v (m_arg m) (m_arg2 m) (m_hcount m) (m_handle m) (m_data m).
Definition set_arg (v : Z) (m : zxrio_msg_t) : zxrio_msg_t :=
  mk_msg (m_txid m) (m_op m) (m_datalen m) v (m_arg2 m) (m_hcount m) (m_handle m) (m_data m).
Definition set_arg2 (v : Z) (m : zxrio_msg_t) : zxrio_msg_t :=
  mk_msg (m_txid m) (m_op m) (m_datalen m) (m_arg m) v (m_hcount m) (m_handle m) (m_data m).
Definition set_data (v : list byte) (m : zxrio_msg_t) : zxrio_msg_t :=
  mk_msg (m_txid m) (m_op m) (m_datalen m) (m_arg m) (m_arg2 m) (m_hcount m) (m_handle m) v.
Definition set_info_handle (v : Z) (i : zxrio_describe_t) : zxrio_describe_t :=
  mk_info (info_op i) (info_status i) (info_type i) v.

(** [memset(&msg, 0, ZXRIO_HDR_SZ)] on a local message: every header field
    and the inline handle array (which lies inside the header) are zero.
    The payload of a local message is indeterminate until it is filled; the
    model starts it empty. *)
Definition msg_zero_header : zxrio_msg_t :=
  mk_msg 0 0 0 0 0 0 [0; 0; 0; 0] [].

(** ** Memory operations on byte buffers *)

(** [memcpy(dst, src, n)]: the first [n] bytes of [dst] are replaced by the
    first [n] bytes of [src].  As in C, both buffers are taken to hold at
    least [n] bytes. *)
Definition memcpy (dst src : list byte) (n : Z) : list byte :=
  firstn (Z.to_nat n) src ++ skipn (Z.to_nat n) dst.

(** [memset(dst, 0, n)]. *)
Definition memset0 (dst : list byte) (n : Z) : list byte :=
  repeat 0 (Nat.min (Z.to_nat n) (length dst)) ++ skipn (Z.to_nat n) dst.

(** [strlen(name)]: the number of bytes before the first NUL. *)
Fixpoint strlen (name : list byte) : Z :=
  match name with
  | [] => 0
  | c :: rest => if c =? 0 then 0 else 1 + strlen rest
  end.

(** The kernel stores [new] handles at the start of a handle array. *)
Definition store_handles (new old : list Z) : list Z :=
  new ++ skipn (length new) old.

(** ** State of the chunked I/O loops *)

(** A value together with the proof that it is the value of [x]: lets a
    loop remember, in the branch taken, what its test evaluated to. *)
Definition inspect {A : Type} (x : A) : {y : A | x = y} := exist _ x eq_refl.

(** How one execution of a loop body ends. *)
Inductive loop_ctl (S : Type) : Type :=
| Break (s : S)
| Continue (s : S).
Arguments Break {S} s.
Arguments Continue {S} s.

Definition state_of {S : Type} (c : loop_ctl S) : S :=
  match c with Break s | Continue s => s end.

(** The variables of [write_common]: [w_data] is the memory from the
    pointer [data] on. *)
Record write_state : Type := mk_write_state {
  w_rio : zxrio_t;
  w_data : list byte;
  w_len : Z;
  w_offset : Z;
  w_count : Z;
  w_r : Z
}.

(** The variables of [read_common]: the caller's buffer is split at the
    pointer [data] into [rd_done] (before it) and [rd_data] (from it on). *)
Record read_state : Type := mk_read_state {
  rd_rio : zxrio_t;
  rd_done : list byte;
  rd_data : list byte;
  rd_len : Z;
  rd_offset : Z;
  rd_count : Z;
  rd_r : Z
}.

(** ** System calls: events, kernel, and the monad of effects *)

Inductive event : Type :=
| ev_handle_close (h : Z)
| ev_channel_write (h : Z) (msg : zxrio_msg_t) (num_bytes : Z) (handles : list Z)
| ev_channel_call (h : Z) (msg : zxrio_msg_t) (wr_num_bytes : Z) (wr_handles : list Z)
                  (rd_num_bytes rd_num_handles : Z)
| ev_channel_read (h : Z) (num_bytes num_handles : Z)
| ev_channel_create
| ev_object_wait_one (h : Z).

Definition trace := list event.

(** What [zx_channel_call] gives back: its return value, the read status it
    stores when the return value is [ZX_ERR_CALL_FAILED], and, for a
    successful call, the reply as it lies in the read buffer, the number of
    bytes and the handles received. *)
Record call_result : Type := mk_call_result {
  cr_status : Z;
  cr_read_status : Z;
  cr_bytes : zxrio_msg_t;
  cr_actual_bytes : Z;
  cr_handles : list Z
}.

(** The message buffer after a successful [zx_channel_call] whose handle
    count output is [&msg->hcount]: the reply bytes, then the received
    handles at the start of the inline array, then the handle count. *)
Definition received (res : call_result) : zxrio_msg_t :=
  let reply := cr_bytes res in
  set_hcount (Z.of_nat (length (cr_handles res)))
    (set_handle (store_handles (cr_handles res) (m_handle reply)) reply).

(** What [zx_channel_read] gives back.  [B] is the type of the record read. *)
Record read_result (B : Type) : Type := mk_read_result {
  rr_status : Z;
  rr_bytes : B;
  rr_actual_bytes : Z;
  rr_handles : list Z
}.

Record create_result : Type := mk_create_result {
  cc_status : Z;
  cc_out0 : Z;
  cc_out1 : Z
}.

(** The kernel and the peers behind the channels.  Each function receives
    the events that happened before the call and the call's arguments. *)
Record kernel : Type := mk_kernel {
  k_channel_call : trace -> Z -> zxrio_msg_t -> Z -> list Z -> call_result;
  k_channel_read_msg : trace -> Z -> read_result zxrio_msg_t;
  k_channel_read_info : trace -> Z -> read_result zxrio_describe_t;
  k_channel_write : trace -> Z -> zxrio_msg_t -> Z -> list Z -> Z;
  k_channel_create : trace -> create_result
}.

(** A computation reads and extends the trace. *)
Definition M (A : Type) : Type := trace -> A * trace.

Definition ret {A} (a : A) : M A := fun t => (a, t).
Definition bind {A B} (c : M A) (f : A -> M B) : M B :=
  fun t => let (a, t') := c t in f a t'.
Definition emit (e : event) : M unit := fun t => (tt, t ++ [e]).
Definition history : M trace := fun t => (t, t).

Declare Scope rio_scope.
Delimit Scope rio_scope with rio.
Notation "x <- c1 ;; c2" := (bind c1 (fun x => c2))
  (at level 61, c1 at next level, right associativity) : rio_scope.
Notation "' pat <- c1 ;; c2" := (bind c1 (fun x => match x with pat => c2 end))
  (at level 61, pat pattern, c1 at next level, right associativity) : rio_scope.
Notation "c1 ;;; c2" := (bind c1 (fun _ => c2))
  (at level 61, right associativity) : rio_scope.
Local Open Scope rio_scope.

Section Remoteio.

Context {hdr : Headers}.
Variable k : kernel.

(** *** The system calls used by the code *)

Definition zx_handle_close (h : Z) : M unit := emit (ev_handle_close h).

Definition zx_object_wait_one (h : Z) : M unit := emit (ev_object_wait_one h).

Definition zx_channel_create : M create_result :=
  t <- history ;;
  emit ev_channel_create ;;;
  ret (k_channel_create k t).

Definition zx_channel_write (h : Z) (msg : zxrio_msg_t) (num_bytes : Z)
    (handles : list Z) : M Z :=
  t <- history ;;
  emit (ev_channel_write h msg num_bytes handles) ;;;
  ret (k_channel_write k t h msg num_bytes handles).

(** [zx_channel_call] with the message as both write and read buffer and
    [&msg->hcount] as the place of the received handle count.  On [ZX_OK]
    the kernel stores the reply bytes over the message, the received handles
    at the start of the inline array, and then the byte and handle counts;
    otherwise the message is left as it was.  Returns the status, the read
    status, the byte count and the message. *)
Definition zx_channel_call (h : Z) (msg : zxrio_msg_t) (wr_num_bytes : Z)
    (wr_handles : list Z) (rd_num_bytes rd_num_handles : Z) (rs : Z)
    : M (Z * Z * Z * zxrio_msg_t) :=
  t <- history ;;
  emit (ev_channel_call h msg wr_num_bytes wr_handles rd_num_bytes rd_num_handles) ;;;
  let res := k_channel_call k t h msg wr_num_bytes wr_handles in
  if cr_status res =? ZX_OK then
    ret (cr_status res, rs, cr_actual_bytes res, received res)
  else if cr_status res =? ZX_ERR_CALL_FAILED then
    ret (cr_status res, cr_read_status res, cr_actual_bytes res, msg)
  else
    ret (cr_status res, rs, cr_actual_bytes res, msg).

(** [zx_channel_read] into a message, the handles into its inline array.
    The handle count is a separate output: the [m_hcount] of the returned
    message is the field as found in the received bytes. *)
Definition zx_channel_read_msg (h : Z) (msg : zxrio_msg_t)
    (num_bytes num_handles : Z) : M (Z * zxrio_msg_t * Z * Z) :=
  t <- history ;;
  emit (ev_channel_read h num_bytes num_handles) ;;;
  let res := k_channel_read_msg k t h in
  if rr_status res =? ZX_OK then
    let bytes := rr_bytes res in
    ret (rr_status res,
         set_handle (store_handles (rr_handles res) (m_handle bytes)) bytes,
         rr_actual_bytes res, Z.of_nat (length (rr_handles res)))
  else
    ret (rr_status res, msg, num_bytes, 0).

(** [zx_channel_read] into a describe record, with [&info->handle] as the
    handle array of length one. *)
Definition zx_channel_read_info (h : Z) (info : zxrio_describe_t)
    (num_bytes num_handles : Z) : M (Z * zxrio_describe_t * Z * Z) :=
  t <- history ;;
  emit (ev_channel_read h num_bytes num_handles) ;;;
  let res := k_channel_read_info k t h in
  if rr_status res =? ZX_OK then
    let bytes := rr_bytes res in
    ret (rr_status res,
         match rr_handles res with
         | [] => bytes
         | h0 :: _ => set_info_handle h0 bytes
         end,
         rr_actual_bytes res, Z.of_nat (length (rr_handles res)))
  else
    ret (rr_status res, info, num_bytes, 0).

(** *** Wire message codec *)

Definition is_message_valid (msg : zxrio_msg_t) : bool :=
  if (m_datalen msg >? FDIO_CHUNK_SIZE) || (m_hcount msg >? FDIO_MAX_HANDLES)
  then false
  else true.

(** The subtraction is only evaluated when [size >= ZXRIO_HDR_SZ], so it
    does not wrap. *)
Definition is_message_reply_valid (msg : zxrio_msg_t) (size : Z) : bool :=
  if (size <? ZXRIO_HDR_SZ) || negb (m_datalen msg =? size - ZXRIO_HDR_SZ)
  then false
  else is_message_valid msg.

(** [is_message_valid] as the call through the pointer that it is in C:
    a computation that returns the verdict together with the message. *)
Definition is_message_valid_call (msg : zxrio_msg_t) : M (bool * zxrio_msg_t) :=
  ret (is_message_valid msg, msg).

Fixpoint discard_handles_from (handles : list Z) (count : nat) {struct count}
    : M unit :=
  match count, handles with
  | O, _ => ret tt
  | S n, [] => ret tt
  | S n, h :: rest => zx_handle_close h ;;; discard_handles_from rest n
  end.

(** [discard_handles(handles, count)]; [count] is [unsigned].  The C loop
    closes [count] values from [handles] on.  The model closes the first
    [count] entries of the array it is given: it is the C loop as long as
    [count] does not exceed the array, and says nothing of the memory
    behind the array, which the C loop would read beyond that. *)
Definition discard_handles (handles : list Z) (count : Z) : M unit :=
  discard_handles_from handles (Z.to_nat count).

(** *** Server read path *)

Definition zxrio_read_msg (h : Z) (msg : zxrio_msg_t) : M (Z * zxrio_msg_t) :=
  '(r, msg, dsz, hcount) <-
     zx_channel_read_msg h msg sizeof_zxrio_msg_t FDIO_MAX_HANDLES ;;
  if negb (r =? ZX_OK) then ret (r, msg)
  else
    let msg := set_hcount hcount msg in
    if negb (is_message_reply_valid msg dsz) then
      discard_handles (m_handle msg) (m_hcount msg) ;;;
      ret (ZX_ERR_INVALID_ARGS, msg)
    else ret (r, msg).

(** *** Transaction engine *)

(** The code after the label [fail_discard_handles]. *)
Definition fail_discard_handles (r : Z) (rio : zxrio_t) (msg : zxrio_msg_t)
    : M (Z * zxrio_t * zxrio_msg_t) :=
  discard_handles (m_handle msg) (m_hcount msg) ;;;
  ret (r, rio, set_hcount 0 msg).

Definition zxrio_txn (rio : zxrio_t) (msg : zxrio_msg_t)
    : M (Z * zxrio_t * zxrio_msg_t) :=
  if negb (is_message_valid msg) then ret (ZX_ERR_INVALID_ARGS, rio, msg)
  else
    (* msg->txid = atomic_fetch_add(&rio->txid, 1) *)
    let msg := set_txid (rio_txid rio) msg in
    let rio := mk_rio (rio_h rio) (rio_h2 rio) (to_uint32 (rio_txid rio + 1)) in
    '(r, rs, dsize, msg) <-
       zx_channel_call (rio_h rio) msg
         (to_uint32 (ZXRIO_HDR_SZ + m_datalen msg))
         (firstn (Z.to_nat (m_hcount msg)) (m_handle msg))
         (ZXRIO_HDR_SZ + FDIO_CHUNK_SIZE) FDIO_MAX_HANDLES ZX_ERR_INTERNAL ;;
    if r <? 0 then
      if r =? ZX_ERR_CALL_FAILED then
        (* read phase failed, true status is in rs *)
        ret (rs, rio, set_hcount 0 msg)
      else
        (* write phase failed, we must discard the handles *)
        fail_discard_handles r rio msg
    else if negb (is_message_reply_valid msg dsize)
            || negb (ZXRIO_OP (m_op msg) =? ZXRIO_STATUS) then
      fail_discard_handles ZX_ERR_IO rio msg
    else if m_arg msg <? 0 then
      fail_discard_handles (m_arg msg) rio msg
    else ret (m_arg msg, rio, msg).

(** The request as [zxrio_txn] hands it to the kernel, and the kernel's
    answer to it after the history [t]. *)
Definition txn_event (rio : zxrio_t) (msg : zxrio_msg_t) : event :=
  ev_channel_call (rio_h rio) (set_txid (rio_txid rio) msg)
    (to_uint32 (ZXRIO_HDR_SZ + m_datalen msg))
    (firstn (Z.to_nat (m_hcount msg)) (m_handle msg))
    (ZXRIO_HDR_SZ + FDIO_CHUNK_SIZE) FDIO_MAX_HANDLES.

Definition txn_answer (rio : zxrio_t) (msg : zxrio_msg_t) (t : trace) : call_result :=
  k_channel_call k t (rio_h rio) (set_txid (rio_txid rio) msg)
    (to_uint32 (ZXRIO_HDR_SZ + m_datalen msg))
    (firstn (Z.to_nat (m_hcount msg)) (m_handle msg)).

(** The connection after a transaction was issued on it. *)
Definition txn_rio (rio : zxrio_t) : zxrio_t :=
  mk_rio (rio_h rio) (rio_h2 rio) (to_uint32 (rio_txid rio + 1)).


(** *** Close *)

Definition zxrio_close (rio : zxrio_t) : M (Z * zxrio_t) :=
  let msg := set_op ZXRIO_CLOSE msg_zero_header in
  '(r, rio, msg) <- zxrio_txn rio msg ;;
  (if r >=? 0 then discard_handles (m_handle msg) (m_hcount msg) else ret tt) ;;;
  let h := rio_h rio in
  let rio := mk_rio 0 (rio_h2 rio) (rio_txid rio) in
  zx_handle_close h ;;;
  if rio_h2 rio >? 0 then
    let h := rio_h2 rio in
    let rio := mk_rio (rio_h rio) 0 (rio_txid rio) in
    zx_handle_close h ;;;
    ret (r, rio)
  else ret (r, rio).

(** The handles that arrive with the reply to the close request of
    [zxrio_close] issued after the history [t]. *)
Definition close_reply_handles (rio : zxrio_t) (t : trace) : list Z :=
  let res := txn_answer rio (set_op ZXRIO_CLOSE msg_zero_header) t in
  if cr_status res =? ZX_OK then cr_handles res else [].

(** *** Open/connect negotiator *)

(** Returns the status, the request message, the describe record and the
    content of [*out]. *)
Definition zxrio_sync_open_connection (rio_h : Z) (msg : zxrio_msg_t)
    (info : zxrio_describe_t) (out : Z)
    : M (Z * zxrio_msg_t * zxrio_describe_t * Z) :=
  cc <- zx_channel_create ;;
  if cc_status cc <? 0 then ret (cc_status cc, msg, info, out)
  else
    let h := cc_out0 cc in
    let msg := set_handle (store_handles [cc_out1 cc] (m_handle msg)) msg in
    let msg := set_hcount 1 msg in
    (* Write the (one-way) request message *)
    r <- zx_channel_write rio_h msg (to_uint32 (ZXRIO_HDR_SZ + m_datalen msg))
           (firstn (Z.to_nat (m_hcount msg)) (m_handle msg)) ;;
    if r <? 0 then
      zx_handle_close (nth 0 (m_handle msg) 0) ;;;
      zx_handle_close h ;;;
      ret (r, msg, info, out)
    else
      zx_object_wait_one h ;;;
      (* Attempt to read the description from open *)
      '(r, info, dsize, actual_handles) <-
         zx_channel_read_info h info sizeof_zxrio_describe_t 1 ;;
      if negb (r =? ZX_OK) then
        zx_handle_close h ;;;
        ret (r, msg, info, out)
      else
        let info := if actual_handles =? 0
                    then set_info_handle ZX_HANDLE_INVALID info else info in
        let r := if negb (dsize =? sizeof_zxrio_describe_t)
                    || negb (info_op info =? ZXRIO_ON_OPEN)
                 then ZX_ERR_IO else info_status info in
        if negb (r =? ZX_OK) then
          (if negb (info_handle info =? ZX_HANDLE_INVALID)
           then zx_handle_close (info_handle info) else ret tt) ;;;
          zx_handle_close h ;;;
          ret (r, msg, info, ZX_HANDLE_INVALID)
        else ret (r, msg, info, h).

(** [name] is the memory at the pointer [name]; [flags] is a [uint32_t]
    stored into the [int32_t] field [arg]. *)
Definition zxrio_connect (svc cnxn op flags mode : Z) (name : list byte) : M Z :=
  let len := strlen name in
  if len >=? PATH_MAX then
    zx_handle_close cnxn ;;;
    ret ZX_ERR_BAD_PATH
  else if negb (Z.land flags ZX_FS_FLAG_DESCRIBE =? 0) then
    zx_handle_close cnxn ;;;
    ret ZX_ERR_INVALID_ARGS
  else
    let msg := msg_zero_header in
    let msg := set_op op msg in
    let msg := set_datalen (to_uint32 len) msg in
    let msg := set_arg (to_int32 flags) msg in
    let msg := set_arg2 mode msg in
    let msg := set_hcount 1 msg in
    let msg := set_handle (store_handles [cnxn] (m_handle msg)) msg in
    let msg := set_data (memcpy (m_data msg) name len) msg in
    r <- zx_channel_write svc msg (to_uint32 (ZXRIO_HDR_SZ + m_datalen msg))
           (firstn 1 (m_handle msg)) ;;
    if r <? 0 then
      zx_handle_close cnxn ;;;
      ret r
    else ret ZX_OK.

(** *** Operation facade: ioctl *)

(** Returns the status, the connection and the content of [out_buf]. *)
Definition zxrio_ioctl (rio : zxrio_t) (op : Z) (in_buf : list byte) (in_len : Z)
    (out_buf : list byte) (out_len : Z) : M (Z * zxrio_t * list byte) :=
  if (in_len >? FDIO_IOCTL_MAX_INPUT) || (out_len >? FDIO_CHUNK_SIZE) then
    ret (ZX_ERR_INVALID_ARGS, rio, out_buf)
  else
    let msg := msg_zero_header in
    let msg := set_op ZXRIO_IOCTL msg in
    let msg := set_datalen (to_uint32 in_len) msg in
    let msg := set_arg (to_int32 out_len) msg in
    let msg := set_arg2 op msg in
    let kind := IOCTL_KIND op in
    (* first switch: [None] stands for [return ZX_ERR_INVALID_ARGS] *)
    let prepared : option zxrio_msg_t :=
      if kind =? IOCTL_KIND_GET_HANDLE then
        if out_len <? sizeof_zx_handle_t then None else Some msg
      else if kind =? IOCTL_KIND_GET_TWO_HANDLES then
        if out_len <? 2 * sizeof_zx_handle_t then None else Some msg
      else if kind =? IOCTL_KIND_GET_THREE_HANDLES then
        if out_len <? 3 * sizeof_zx_handle_t then None else Some msg
      else if kind =? IOCTL_KIND_SET_HANDLE then
        let msg := set_op ZXRIO_IOCTL_1H msg in
        if in_len <? sizeof_zx_handle_t then None
        else
          let msg := set_hcount 1 msg in
          Some (set_handle (store_handles [load32 in_buf] (m_handle msg)) msg)
      else if kind =? IOCTL_KIND_SET_TWO_HANDLES then
        let msg := set_op ZXRIO_IOCTL_2H msg in
        if in_len <? 2 * sizeof_zx_handle_t then None
        else
          let msg := set_hcount 2 msg in
          Some (set_handle
                  (store_handles [load32 in_buf; load32 (skipn 4 in_buf)]
                     (m_handle msg)) msg)
      else Some msg in
    match prepared with
    | None => ret (ZX_ERR_INVALID_ARGS, rio, out_buf)
    | Some msg =>
      let msg := set_data (memcpy (m_data msg) in_buf in_len) msg in
      '(r, rio, msg) <- zxrio_txn rio msg ;;
      if r <? 0 then ret (r, rio, out_buf)
      else
        let copy_len :=
          if m_datalen msg >? out_len then out_len else m_datalen msg in
        let out_buf := memcpy out_buf (m_data msg) copy_len in
        let handle_bytes := concat (map le32 (m_handle msg)) in
        (* second switch: the number of handles kept and the output buffer *)
        let '(handles, out_buf) :=
          if kind =? IOCTL_KIND_GET_HANDLE then
            let handles := if m_hcount msg >? 0 then 1 else 0 in
            if negb (handles =? 0)
            then (handles, memcpy out_buf handle_bytes sizeof_zx_handle_t)
            else (handles, memset0 out_buf sizeof_zx_handle_t)
          else if kind =? IOCTL_KIND_GET_TWO_HANDLES then
            let handles := if m_hcount msg >? 2 then 2 else m_hcount msg in
            let out_buf :=
              if negb (handles =? 0)
              then memcpy out_buf handle_bytes (handles * sizeof_zx_handle_t)
              else out_buf in
            if handles <? 2
            then (handles, memset0 out_buf ((2 - handles) * sizeof_zx_handle_t))
            else (handles, out_buf)
          else if kind =? IOCTL_KIND_GET_THREE_HANDLES then
            let handles := if m_hcount msg >? 3 then 3 else m_hcount msg in
            let out_buf :=
              if negb (handles =? 0)
              then memcpy out_buf handle_bytes (handles * sizeof_zx_handle_t)
              else out_buf in
            if handles <? 3
            then (handles, memset0 out_buf ((3 - handles) * sizeof_zx_handle_t))
            else (handles, out_buf)
          else (0, out_buf) in
        discard_handles (skipn (Z.to_nat handles) (m_handle msg))
          (to_uint32 (m_hcount msg - handles)) ;;;
        ret (r, rio, out_buf)
    end.

(** *** Operation facade: chunked write and read *)

(** One execution of the body of the [while] loop of [write_common].  The
    subtraction [len -= r] is reached with [0 <= r <= xfer <= len] only. *)
Definition write_body (op : Z) (s : write_state) : M (loop_ctl write_state) :=
  let xfer := if w_len s >? FDIO_CHUNK_SIZE then FDIO_CHUNK_SIZE else w_len s in
  let msg := msg_zero_header in
  let msg := set_op op msg in
  let msg := set_datalen xfer msg in
  let msg := if op =? ZXRIO_WRITE_AT then set_arg2 (w_offset s) msg else msg in
  let msg := set_data (memcpy (m_data msg) (w_data s) xfer) msg in
  '(r, rio, msg) <- zxrio_txn (w_rio s) msg ;;
  if r <? 0 then
    ret (Break (mk_write_state rio (w_data s) (w_len s) (w_offset s) (w_count s) r))
  else
    discard_handles (m_handle msg) (m_hcount msg) ;;;
    if r >? xfer then
      ret (Break (mk_write_state rio (w_data s) (w_len s) (w_offset s)
                    (w_count s) ZX_ERR_IO))
    else
      let s' := mk_write_state rio
                  (skipn (Z.to_nat r) (w_data s))
                  (w_len s - r)
                  (if op =? ZXRIO_WRITE_AT then w_offset s + r else w_offset s)
                  (w_count s + r)
                  r in
      (* stop at short read *)
      if r <? xfer then ret (Break s') else ret (Continue s').

Equations? write_loop (op : Z) (s : write_state) (t : trace)
    : write_state * trace by wf (Z.to_nat (w_len s)) lt :=
  write_loop op s t with inspect (w_len s >? 0) := {
    | exist _ false _ := (s, t)
    | exist _ true Hlen with inspect (write_body op s t) := {
      | exist _ (Break s', t') _ := (s', t')
      | exist _ (Continue s', t') Hbody := write_loop op s' t' } }.
Proof.
  pose proof FDIO_CHUNK_SIZE_pos as Hc.
  revert Hbody. unfold write_body, bind.
  set (xfer := if w_len s >? FDIO_CHUNK_SIZE then FDIO_CHUNK_SIZE else w_len s).
  assert (Hx : 0 < xfer <= w_len s)
    by (subst xfer; destruct (w_len s >? FDIO_CHUNK_SIZE) eqn:Hbig; lia).
  destruct (zxrio_txn _ _ t) as [[[r rio] msg] t1].
  destruct (r <? 0) eqn:Hneg; [unfold ret; congruence |].
  destruct (discard_handles _ _ t1) as [[] t2].
  destruct (r >? xfer) eqn:Hgt; [unfold ret; congruence |].
  destruct (r <? xfer) eqn:Hlt; unfold ret; [congruence |].
  intros Heq. injection Heq as <- <-. simpl. lia.
Qed.

(** [return count ? count : r]. *)
Definition write_return (s : write_state) : Z :=
  if w_count s =? 0 then w_r s else w_count s.

Definition write_common (op : Z) (rio : zxrio_t) (data : list byte) (len offset : Z)
    : M (Z * zxrio_t) :=
  fun t =>
    let (s, t') := write_loop op (mk_write_state rio data len offset 0 0) t in
    (write_return s, w_rio s, t').

Definition zxrio_write (rio : zxrio_t) (data : list byte) (len : Z) :=
  write_common ZXRIO_WRITE rio data len 0.

Definition zxrio_write_at (rio : zxrio_t) (data : list byte) (len offset : Z) :=
  write_common ZXRIO_WRITE_AT rio data len offset.

(** One execution of the body of the [while] loop of [read_common].
    [(int)msg.datalen] converts the unsigned field to [int]. *)
Definition read_body (op : Z) (s : read_state) : M (loop_ctl read_state) :=
  let xfer := if rd_len s >? FDIO_CHUNK_SIZE then FDIO_CHUNK_SIZE else rd_len s in
  let msg := msg_zero_header in
  let msg := set_op op msg in
  let msg := set_arg xfer msg in
  let msg := if op =? ZXRIO_READ_AT then set_arg2 (rd_offset s) msg else msg in
  '(r, rio, msg) <- zxrio_txn (rd_rio s) msg ;;
  if r <? 0 then
    ret (Break (mk_read_state rio (rd_done s) (rd_data s) (rd_len s)
                  (rd_offset s) (rd_count s) r))
  else
    discard_handles (m_handle msg) (m_hcount msg) ;;;
    if (r >? to_int32 (m_datalen msg)) || (r >? xfer) then
      ret (Break (mk_read_state rio (rd_done s) (rd_data s) (rd_len s)
                    (rd_offset s) (rd_count s) ZX_ERR_IO))
    else
      let data := memcpy (rd_data s) (m_data msg) r in
      let s' := mk_read_state rio
                  (rd_done s ++ firstn (Z.to_nat r) data)
                  (skipn (Z.to_nat r) data)
                  (rd_len s - r)
                  (if op =? ZXRIO_READ_AT then rd_offset s + r else rd_offset s)
                  (rd_count s + r)
                  r in
      (* stop at short read *)
      if r <? xfer then ret (Break s') else ret (Continue s').

Equations? read_loop (op : Z) (s : read_state) (t : trace)
    : read_state * trace by wf (Z.to_nat (rd_len s)) lt :=
  read_loop op s t with inspect (rd_len s >? 0) := {
    | exist _ false _ := (s, t)
    | exist _ true Hlen with inspect (read_body op s t) := {
      | exist _ (Break s', t') _ := (s', t')
      | exist _ (Continue s', t') Hbody := read_loop op s' t' } }.
Proof.
  pose proof FDIO_CHUNK_SIZE_pos as Hc.
  revert Hbody. unfold read_body, bind.
  set (xfer := if rd_len s >? FDIO_CHUNK_SIZE then FDIO_CHUNK_SIZE else rd_len s).
  assert (Hx : 0 < xfer <= rd_len s)
    by (subst xfer; destruct (rd_len s >? FDIO_CHUNK_SIZE) eqn:Hbig; lia).
  destruct (zxrio_txn _ _ t) as [[[r rio] msg] t1].
  destruct (r <? 0) eqn:Hneg; [unfold ret; congruence |].
  destruct (discard_handles _ _ t1) as [[] t2].
  destruct ((r >? to_int32 (m_datalen msg)) || (r >? xfer)) eqn:Hgt;
    [unfold ret; congruence |].
  apply orb_false_elim in Hgt as [_ Hgt].
  destruct (r <? xfer) eqn:Hlt; unfold ret; [congruence |].
  intros Heq. injection Heq as <- <-. simpl. lia.
Qed.

(** Returns the status or byte count, the connection and the caller's
    buffer. *)
Definition read_return (s : read_state) : Z :=
  if rd_count s =? 0 then rd_r s else rd_count s.

Definition read_common (op : Z) (rio : zxrio_t) (data : list byte) (len offset : Z)
    : M (Z * zxrio_t * list byte) :=
  fun t =>
    let (s, t') := read_loop op (mk_read_state rio [] data len offset 0 0) t in
    (read_return s, rd_rio s, rd_done s ++ rd_data s, t').

Definition zxrio_read (rio : zxrio_t) (data : list byte) (len : Z) :=
  read_common ZXRIO_READ rio data len 0.

Definition zxrio_read_at (rio : zxrio_t) (data : list byte) (len offset : Z) :=
  read_common ZXRIO_READ_AT rio data len offset.

(** *** Vocabulary for the properties of the chunked loops *)

(** The number of bytes a loop iteration asks for when [len] remain. *)
Definition chunk_of (len : Z) : Z :=
  if len >? FDIO_CHUNK_SIZE then FDIO_CHUNK_SIZE else len.

(** The request of a loop iteration, as built in [write_body] and
    [read_body]. *)
Definition write_request (op : Z) (s : write_state) : zxrio_msg_t :=
  let msg := set_datalen (chunk_of (w_len s)) (set_op op msg_zero_header) in
  let msg := if op =? ZXRIO_WRITE_AT then set_arg2 (w_offset s) msg else msg in
  set_data (memcpy (m_data msg) (w_data s) (chunk_of (w_len s))) msg.

Definition read_request (op : Z) (s : read_state) : zxrio_msg_t :=
  let msg := set_arg (chunk_of (rd_len s)) (set_op op msg_zero_header) in
  if op =? ZXRIO_READ_AT then set_arg2 (rd_offset s) msg else msg.

(** The peer answers every call with a well-formed status reply. *)
Definition replies_well_formed : Prop :=
  forall t h msg n hs,
    let res := k_channel_call k t h msg n hs in
    cr_status res = ZX_OK
    /\ is_message_reply_valid (received res) (cr_actual_bytes res) = true
    /\ ZXRIO_OP (m_op (received res)) = ZXRIO_STATUS.

(** Every write transaction transfers all the bytes of its request. *)
Definition writes_in_full : Prop :=
  replies_well_formed
  /\ forall t h msg n hs,
       m_arg (received (k_channel_call k t h msg n hs)) = m_datalen msg.

(** Every read transaction that asks for at most a chunk returns as many
    bytes as were asked for. *)
Definition reads_in_full : Prop :=
  replies_well_formed
  /\ forall t h msg n hs,
       m_arg msg <= FDIO_CHUNK_SIZE ->
       let got := received (k_channel_call k t h msg n hs) in
       m_arg got = m_arg msg /\ m_arg msg <= to_int32 (m_datalen got).

(** The request of [zxrio_ioctl] for an ioctl that sets no handles. *)
Definition ioctl_request (op : Z) (in_buf : list byte) (in_len out_len : Z)
    : zxrio_msg_t :=
  let msg := set_op ZXRIO_IOCTL msg_zero_header in
  let msg := set_datalen (to_uint32 in_len) msg in
  let msg := set_arg (to_int32 out_len) msg in
  let msg := set_arg2 op msg in
  set_data (memcpy (m_data msg) in_buf in_len) msg.

End Remoteio.

(** [ceil_div n c] is the least number of chunks of [c] bytes that cover
    [n] bytes. *)
Definition ceil_div (n c : Z) : Z := (n + c - 1) / c.

(** ** A concrete set of header values

    Values modelled on the public Zircon headers; they are used to run the
    code on concrete inputs and show that the laws of [Headers] hold
    together. *)

#[refine] Instance zircon : Headers := {|
  FDIO_CHUNK_SIZE := 8192;
  FDIO_MAX_HANDLES := 3;
  FDIO_IOCTL_MAX_INPUT := 1024;
  ZXRIO_HDR_SZ := 48;
  sizeof_zxrio_msg_t := 48 + 8192;
  sizeof_zxrio_describe_t := 40;
  PATH_MAX := 4096;
  ZXRIO_OP := fun n => Z.land n 1023;
  ZXRIO_STATUS := 0;
  ZXRIO_CLOSE := 1;
  ZXRIO_READ := 5;
  ZXRIO_READ_AT := 12;
  ZXRIO_WRITE := 6;
  ZXRIO_WRITE_AT := 13;
  ZXRIO_IOCTL := 10;
  ZXRIO_IOCTL_1H := 266;
  ZXRIO_IOCTL_2H := 522;
  ZXRIO_ON_OPEN := 7;
  IOCTL_KIND := fun n => Z.land (Z.shiftr n 20) 15;
  IOCTL_KIND_GET_HANDLE := 1;
  IOCTL_KIND_GET_TWO_HANDLES := 2;
  IOCTL_KIND_GET_THREE_HANDLES := 4;
  IOCTL_KIND_SET_HANDLE := 3;
  IOCTL_KIND_SET_TWO_HANDLES := 5;
  ZX_FS_FLAG_DESCRIBE := 8388608;
  ZX_HANDLE_INVALID := 0;
  ZX_OK := 0;
  ZX_ERR_INTERNAL := -1;
  ZX_ERR_INVALID_ARGS := -10;
  ZX_ERR_IO := -40;
  ZX_ERR_CALL_FAILED := -5;
  ZX_ERR_BAD_PATH := -50
|}.
Proof.
  - reflexivity.
  - reflexivity.
  - reflexivity.
  - discriminate.
  - repeat constructor; simpl; intuition discriminate.
Defined.

(** A kernel whose peer answers every call with a status reply carrying
    [reply_arg request] as its argument, [payload request] as its payload
    and the handles [hs]; reads and writes succeed trivially. *)
Definition replying_kernel (reply_arg : zxrio_msg_t -> Z)
    (payload : zxrio_msg_t -> list byte) (hs : list Z) : kernel :=
  mk_kernel
    (fun _ _ msg _ _ =>
       mk_call_result ZX_OK 0
         (mk_msg (m_txid msg) ZXRIO_STATUS (Z.of_nat (length (payload msg)))
            (reply_arg msg) 0 0 [0; 0; 0; 0] (payload msg))
         (ZXRIO_HDR_SZ + Z.of_nat (length (payload msg))) hs)
    (fun _ _ => mk_read_result ZX_OK msg_zero_header ZXRIO_HDR_SZ [])
    (fun _ _ => mk_read_result ZX_OK (mk_info ZXRIO_ON_OPEN ZX_OK 0 0)
                  sizeof_zxrio_describe_t [])
    (fun _ _ _ _ _ => ZX_OK)
    (fun _ => mk_create_result ZX_OK 100 101).

(** A kernel like [replying_kernel] with no reply payload, whose describe
    read delivers the record [reply], [size] bytes and the handles [hs]. *)
Definition describing_kernel (reply : zxrio_describe_t) (size : Z)
    (hs : list Z) : kernel :=
  let k := replying_kernel (fun _ => 0) (fun _ => []) [] in
  mk_kernel (k_channel_call k) (k_channel_read_msg k)
    (fun _ _ => mk_read_result ZX_OK reply size hs)
    (k_channel_write k) (k_channel_create k).

(** The kernel [k] with the handle-count field embedded in every received
    message overwritten by [n]: what a peer controls by choosing the bytes
    it sends. *)
Definition with_embedded_hcount (n : Z) (k : kernel) : kernel :=
  mk_kernel
    (k_channel_call k)
    (fun t h =>
       let res := k_channel_read_msg k t h in
       mk_read_result (rr_status res) (set_hcount n (rr_bytes res))
         (rr_actual_bytes res) (rr_handles res))
    (k_channel_read_info k)
    (k_channel_write k)
    (k_channel_create k).

(** The handles closed, in order, by the events of a trace. *)
Fixpoint closed_handles (t : trace) : list Z :=
  match t with
  | [] => []
  | ev_handle_close h :: rest => h :: closed_handles rest
  | _ :: rest => closed_handles rest
  end.

(** The number of transactions ([zx_channel_call]) in a trace. *)
Fixpoint count_calls (t : trace) : Z :=
  match t with
  | [] => 0
  | ev_channel_call _ _ _ _ _ _ :: rest => 1 + count_calls rest
  | _ :: rest => count_calls rest
  end.

(** An event on which the caller waits for the peer. *)
Definition blocking (e : event) : bool :=
  match e with
  | ev_channel_call _ _ _ _ _ _ | ev_channel_read _ _ _ | ev_object_wait_one _ => true
  | _ => false
  end.

(** * The rest of the remote-I/O layer

    The server reply path and dispatcher, [zxrio_seek], [zxrio_misc], the
    service and open helpers, [fdio_remote_create], [zxrio_unwrap],
    [fdio_from_handles] and the signal translation. *)

(** ** Further constants *)

(** [POLL_SHIFT] and [POLL_MASK] are defined in [remoteio.c] itself. *)
Definition POLL_SHIFT : Z := 24.
Definition POLL_MASK : Z := 31.

(** The remaining constants come from headers and are parameters; the laws
    say that status codes are negative, that the labels of a [switch] are
    distinct, that the rights used by the service helpers do not contain the
    describe flag, which is a flag indeed, and that the peer-closed signal
    is one of the low signal bits, below the user signals. *)
Class MoreHeaders {hdr : Headers} : Type := {
  ZXRIO_OPEN : Z;
  ZXRIO_CLONE : Z;
  ZXRIO_SEEK : Z;
  ZXRIO_RENAME : Z;
  ZXRIO_LINK : Z;
  ZXRIO_MMAP : Z;
  ZXRIO_FCNTL : Z;

  ERR_DISPATCHER_INDIRECT : Z;
  ERR_DISPATCHER_ASYNC : Z;
  ERR_DISPATCHER_DONE : Z;

  ZX_ERR_NOT_SUPPORTED : Z;
  ZX_ERR_NO_RESOURCES : Z;
  ZX_ERR_WRONG_TYPE : Z;
  ZX_ERR_UNAVAILABLE : Z;

  ZX_FS_RIGHT_READABLE : Z;
  ZX_FS_RIGHT_WRITABLE : Z;

  FDIO_PROTOCOL_REMOTE : Z;
  FDIO_PROTOCOL_SERVICE : Z;
  FDIO_PROTOCOL_PIPE : Z;
  FDIO_PROTOCOL_VMOFILE : Z;
  FDIO_PROTOCOL_SOCKET_CONNECTED : Z;
  FDIO_PROTOCOL_SOCKET : Z;
  FDIO_FLAG_SOCKET_CONNECTED : Z;
  WITH_NEW_SOCKET : bool;
  PA_HND_TYPE : Z -> Z;
  PA_FDIO_REMOTE : Z;
  PA_FDIO_PIPE : Z;
  PA_FDIO_SOCKET : Z;
  ZX_ERR_BAD_STATE : Z;

  POLLERR : Z;
  POLLRDHUP : Z;
  ZX_CHANNEL_PEER_CLOSED : Z;

  (* laws *)
  ZX_ERR_INTERNAL_neg : ZX_ERR_INTERNAL < 0;
  ZX_ERR_INVALID_ARGS_neg : ZX_ERR_INVALID_ARGS < 0;
  ZX_ERR_WRONG_TYPE_neg : ZX_ERR_WRONG_TYPE < 0;
  ZX_ERR_UNAVAILABLE_neg : ZX_ERR_UNAVAILABLE < 0;
  ZX_ERR_BAD_PATH_neg : ZX_ERR_BAD_PATH < 0;
  FDIO_MAX_HANDLES_pos : 1 <= FDIO_MAX_HANDLES;
  PATH_MAX_pos : 0 < PATH_MAX;
  dispatcher_codes_distinct : ERR_DISPATCHER_INDIRECT <> ERR_DISPATCHER_ASYNC;
  misc_ops_distinct : NoDup [ZXRIO_RENAME; ZXRIO_LINK; ZXRIO_MMAP; ZXRIO_FCNTL];
  protocols_distinct :
    NoDup [FDIO_PROTOCOL_REMOTE; FDIO_PROTOCOL_SERVICE; FDIO_PROTOCOL_PIPE;
           FDIO_PROTOCOL_VMOFILE; FDIO_PROTOCOL_SOCKET_CONNECTED;
           FDIO_PROTOCOL_SOCKET];
  rights_without_describe :
    Z.land (Z.lor ZX_FS_RIGHT_READABLE ZX_FS_RIGHT_WRITABLE)
      ZX_FS_FLAG_DESCRIBE = 0;
  peer_closed_low : 0 < ZX_CHANNEL_PEER_CLOSED < 2 ^ POLL_SHIFT;
  describe_flag_set : ZX_FS_FLAG_DESCRIBE <> 0;
  handle_types_distinct : NoDup [PA_FDIO_REMOTE; PA_FDIO_PIPE; PA_FDIO_SOCKET]
}.

Definition set_info_status (v : Z) (i : zxrio_describe_t) : zxrio_describe_t :=
  mk_info (info_op i) v (info_type i) (info_handle i).
Definition set_info_type (v : Z) (i : zxrio_describe_t) : zxrio_describe_t :=
  mk_info (info_op i) (info_status i) v (info_handle i).

Section Remoteio_rest.

Context {hdr : Headers} {more : MoreHeaders}.
Variable k : kernel.

(** *** Server reply path and dispatcher *)

Definition zxrio_respond (h : Z) (msg : zxrio_msg_t) : M (Z * zxrio_msg_t) :=
  msg <-
    (if (m_arg msg <? 0) || negb (is_message_valid msg) then
       (* in the event of an error response or bad message
          release all the handles and data payload *)
       discard_handles (m_handle msg) (m_hcount msg) ;;;
       let msg := set_datalen 0 msg in
       let msg := set_hcount 0 msg in
       ret (set_arg (if m_arg msg <? 0 then m_arg msg else ZX_ERR_INTERNAL) msg)
     else ret msg) ;;
  let msg := set_op ZXRIO_STATUS msg in
  s <- zx_channel_write k h msg (to_uint32 (ZXRIO_HDR_SZ + m_datalen msg))
         (firstn (Z.to_nat (m_hcount msg)) (m_handle msg)) ;;
  (if negb (s =? ZX_OK)
   then discard_handles (m_handle msg) (m_hcount msg) else ret tt) ;;;
  ret (s, msg).

(** A callback [zxrio_cb_t] with its cookie: it receives the message, may
    change it and make system calls, and returns a status. *)
Definition zxrio_cb_t : Type := zxrio_msg_t -> M (Z * zxrio_msg_t).

Definition zxrio_handle_rpc (h : Z) (msg : zxrio_msg_t) (cb : zxrio_cb_t)
    : M (Z * zxrio_msg_t) :=
  '(r, msg) <- zxrio_read_msg k h msg ;;
  if negb (r =? ZX_OK) then ret (r, msg)
  else
    let is_close := ZXRIO_OP (m_op msg) =? ZXRIO_CLOSE in
    '(a, msg) <- cb msg ;;
    let msg := set_arg a msg in
    if m_arg msg =? ERR_DISPATCHER_INDIRECT then
      (* callback is handling the reply itself
         and took ownership of the reply handle *)
      ret (ZX_OK, msg)
    else if m_arg msg =? ERR_DISPATCHER_ASYNC then
      ret (ERR_DISPATCHER_ASYNC, msg)
    else
      '(r, msg) <- zxrio_respond h msg ;;
      if is_close then
        (* signals to not perform a close callback *)
        ret (ERR_DISPATCHER_DONE, msg)
      else ret (r, msg).

(** [stack] is the content of the uninitialised local message. *)
Definition zxrio_handle_close (cb : zxrio_cb_t) (stack : zxrio_msg_t) : M Z :=
  let msg := set_op ZXRIO_CLOSE stack in
  let msg := set_arg 0 msg in
  let msg := set_datalen 0 msg in
  let msg := set_hcount 0 msg in
  cb msg ;;;
  ret ZX_OK.

Definition zxrio_handler (h : Z) (cb : zxrio_cb_t) (stack : zxrio_msg_t) : M Z :=
  if h =? ZX_HANDLE_INVALID then zxrio_handle_close cb stack
  else
    '(r, _) <- zxrio_handle_rpc h stack cb ;;
    ret r.

(** *** Seek and misc *)





(** *** Service helpers *)

(** [0755]. *)
Definition mode_0755 : Z := 493.

Definition service_rights : Z := Z.lor ZX_FS_RIGHT_READABLE ZX_FS_RIGHT_WRITABLE.

(** [path] is [None] for a null pointer. *)
Definition fdio_service_connect_at (dir : Z) (path : option (list byte)) (h : Z)
    : M Z :=
  match path with
  | None =>
      zx_handle_close h ;;;
      ret ZX_ERR_INVALID_ARGS
  | Some path =>
      if dir =? ZX_HANDLE_INVALID then
        zx_handle_close h ;;;
        ret ZX_ERR_UNAVAILABLE
      else zxrio_connect k dir h ZXRIO_OPEN service_rights mode_0755 path
  end.

(** The empty string [""] is a single NUL byte. *)
Definition fdio_service_clone (svc : Z) : M Z :=
  if svc =? ZX_HANDLE_INVALID then ret ZX_HANDLE_INVALID
  else
    cc <- zx_channel_create k ;;
    if cc_status cc <? 0 then ret ZX_HANDLE_INVALID
    else
      let cli := cc_out0 cc in
      let srv := cc_out1 cc in
      r <- zxrio_connect k svc srv ZXRIO_CLONE service_rights mode_0755 [0] ;;
      if r <? 0 then
        zx_handle_close cli ;;;
        ret ZX_HANDLE_INVALID
      else ret cli.

Definition fdio_service_clone_to (svc srv : Z) : M Z :=
  if srv =? ZX_HANDLE_INVALID then ret ZX_ERR_INVALID_ARGS
  else if svc =? ZX_HANDLE_INVALID then
    zx_handle_close srv ;;;
    ret ZX_ERR_INVALID_ARGS
  else zxrio_connect k svc srv ZXRIO_CLONE service_rights mode_0755 [0].

(** *** Opening objects *)

(** Returns the status, the describe record and the content of [*out]. *)
Definition zxrio_getobject (rio_h op : Z) (name : option (list byte))
    (flags mode : Z) (info : zxrio_describe_t) (out : Z)
    : M (Z * zxrio_describe_t * Z) :=
  match name with
  | None => ret (ZX_ERR_INVALID_ARGS, info, out)
  | Some name =>
      let len := strlen name in
      if len >=? PATH_MAX then ret (ZX_ERR_BAD_PATH, info, out)
      else if negb (Z.land flags ZX_FS_FLAG_DESCRIBE =? 0) then
        let msg := msg_zero_header in
        let msg := set_op op msg in
        let msg := set_datalen (to_uint32 len) msg in
        let msg := set_arg (to_int32 flags) msg in
        let msg := set_arg2 mode msg in
        let msg := set_data (memcpy (m_data msg) name len) msg in
        '(r, _, info, out) <- zxrio_sync_open_connection k rio_h msg info out ;;
        ret (r, info, out)
      else
        cc <- zx_channel_create k ;;
        if cc_status cc <? 0 then ret (cc_status cc, info, out)
        else
          let h0 := cc_out0 cc in
          let h1 := cc_out1 cc in
          r <- zxrio_connect k rio_h h1 ZXRIO_OPEN flags mode name ;;
          if r <? 0 then
            zx_handle_close h0 ;;;
            ret (r, info, out)
          else
            (* fake up a reply message since pipelined opens don't
               generate one *)
            let info := set_info_status ZX_OK info in
            let info := set_info_type FDIO_PROTOCOL_REMOTE info in
            let info := set_info_handle ZX_HANDLE_INVALID info in
            ret (ZX_OK, info, h0)
  end.

(** [info] and [control_channel] are the contents of the uninitialised
    locals.  Returns the status and the content of [*out]. *)
Definition zxrio_open_handle_raw (h : Z) (path : option (list byte))
    (flags mode : Z) (out : Z) (info : zxrio_describe_t) (control_channel : Z)
    : M (Z * Z) :=
  '(r, info, control_channel) <-
     zxrio_getobject h ZXRIO_OPEN path flags mode info control_channel ;;
  if r <? 0 then ret (r, out)
  else if info_type info =? FDIO_PROTOCOL_REMOTE then
    (if negb (info_handle info =? ZX_HANDLE_INVALID)
     then zx_handle_close (info_handle info) else ret tt) ;;;
    ret (ZX_OK, control_channel)
  else
    (if negb (info_handle info =? ZX_HANDLE_INVALID)
     then zx_handle_close (info_handle info) else ret tt) ;;;
    zx_handle_close control_channel ;;;
    ret (ZX_ERR_WRONG_TYPE, out).

(** *** Creating and unwrapping the local object *)

(** [calloc_ok] tells whether the allocation succeeds.  The generic part
    of the object (ops table, magic, reference count) is left out. *)
Definition fdio_remote_create (calloc_ok : bool) (h e : Z) : M (option zxrio_t) :=
  if negb calloc_ok then
    zx_handle_close h ;;;
    zx_handle_close e ;;;
    ret None
  else ret (Some (mk_rio h e 1)).

(** Returns the handle count and the entries of [handles] and [types]
    that were written; the object is freed. *)
Definition zxrio_unwrap (rio : zxrio_t) : Z * list Z * list Z :=
  if negb (rio_h2 rio =? 0)
  then (2, [rio_h rio; rio_h2 rio], [PA_FDIO_REMOTE; PA_FDIO_REMOTE])
  else (1, [rio_h rio], [PA_FDIO_REMOTE]).

(** [info] and [h] are the contents of the uninitialised locals; the
    empty string is a single NUL byte.  Returns the value and the arrays
    [handles] and [types]. *)
Definition zxrio_clone (rio : zxrio_t) (handles types : list Z)
    (info : zxrio_describe_t) (h : Z) : M (Z * list Z * list Z) :=
  '(r, info, h) <-
     zxrio_getobject (rio_h rio) ZXRIO_CLONE (Some [0]) ZX_FS_FLAG_DESCRIBE 0
       info h ;;
  if r <? 0 then ret (r, handles, types)
  else
    let handles := store_handles [h] handles in
    let types := store_handles [PA_FDIO_REMOTE] types in
    if negb (info_handle info =? ZX_HANDLE_INVALID) then
      ret (2, store_handles [h; info_handle info] handles,
           store_handles [PA_FDIO_REMOTE; PA_FDIO_REMOTE] types)
    else ret (1, handles, types).

(** *** Signal translation *)

(** Returns [*handle] and [*_signals]. *)
Definition zxrio_wait_begin (rio : zxrio_t) (events : Z) : Z * Z :=
  let signals :=
    (* Manually add signals that don't fit within POLL_MASK *)
    if negb (Z.land events POLLRDHUP =? 0) then ZX_CHANNEL_PEER_CLOSED else 0 in
  (* POLLERR is always detected *)
  (rio_h2 rio,
   Z.lor (Z.shiftl (Z.land (Z.lor POLLERR events) POLL_MASK) POLL_SHIFT) signals).

(** Returns [*_events]. *)
Definition zxrio_wait_end (signals : Z) : Z :=
  let events :=
    if negb (Z.land signals ZX_CHANNEL_PEER_CLOSED =? 0) then POLLRDHUP else 0 in
  Z.lor (Z.land (Z.shiftr signals POLL_SHIFT) POLL_MASK) events.

(** *** Local objects from handles *)

Section From_handles.

(** The objects and constructors of the other protocols live in other
    files; they are parameters.  A constructor returns [None] for [NULL].
    [fdio_socket_create_new] is the two-argument constructor of the
    [WITH_NEW_SOCKET] build, and [calloc_ok] tells, from the history,
    whether the allocation in [fdio_remote_create] succeeds. *)
Variable ext : Type.
Variable calloc_ok : trace -> bool.
Variable fdio_service_create : Z -> M (option ext).
Variable fdio_pipe_create : Z -> M (option ext).
Variable fdio_vmofile_create : Z -> Z -> Z -> M (option ext).
Variable fdio_socket_create_new : Z -> Z -> M (option ext).
Variable fdio_socket_create : Z -> Z -> Z -> M (option ext).

Inductive fdio_t : Type :=
| fdio_remote (rio : zxrio_t)
| fdio_other (o : ext).

(** [*out = create(...)] followed by the test for [NULL]. *)
Definition created (o : option ext) : Z * option fdio_t :=
  match o with
  | None => (ZX_ERR_NO_RESOURCES, None)
  | Some x => (ZX_OK, Some (fdio_other x))
  end.

(** [io = create(...)] followed by the test for [NULL]; [*out] is only
    written when the object exists. *)
Definition created_io (o : option ext) (out : option fdio_t) : Z * option fdio_t :=
  match o with
  | None => (ZX_ERR_NO_RESOURCES, out)
  | Some x => (ZX_OK, Some (fdio_other x))
  end.

(** [extra] is the pair of [extra->vmofile.offset] and
    [extra->vmofile.length]; [hcount] is an [int].  Returns the status and
    the content of [*out]. *)
Definition fdio_from_handles (type : Z) (handles : list Z) (hcount : Z)
    (extra : Z * Z) (out : option fdio_t) : M (Z * option fdio_t) :=
  let fail (r : Z) : M (Z * option fdio_t) :=
    discard_handles handles (to_uint32 hcount) ;;;
    ret (r, out) in
  let remote (h e : Z) : M (Z * option fdio_t) :=
    t <- history ;;
    io <- fdio_remote_create (calloc_ok t) h e ;;
    match io with
    | None => ret (ZX_ERR_NO_RESOURCES, out)
    | Some rio => ret (ZX_OK, Some (fdio_remote rio))
    end in
  if type =? FDIO_PROTOCOL_REMOTE then
    if hcount =? 1 then remote (nth 0 handles 0) 0
    else if hcount =? 2 then remote (nth 0 handles 0) (nth 1 handles 0)
    else fail ZX_ERR_INVALID_ARGS
  else if type =? FDIO_PROTOCOL_SERVICE then
    if negb (hcount =? 1) then fail ZX_ERR_INVALID_ARGS
    else
      o <- fdio_service_create (nth 0 handles 0) ;;
      ret (created o)
  else if type =? FDIO_PROTOCOL_PIPE then
    if negb (hcount =? 1) then fail ZX_ERR_INVALID_ARGS
    else
      o <- fdio_pipe_create (nth 0 handles 0) ;;
      ret (created o)
  else if type =? FDIO_PROTOCOL_VMOFILE then
    if negb (hcount =? 2) then fail ZX_ERR_INVALID_ARGS
    else
      (* Currently, VMO Files don't use a client-side control channel. *)
      zx_handle_close (nth 0 handles 0) ;;;
      o <- fdio_vmofile_create (nth 1 handles 0) (fst extra) (snd extra) ;;
      ret (created o)
  else if (type =? FDIO_PROTOCOL_SOCKET_CONNECTED)
          || (type =? FDIO_PROTOCOL_SOCKET) then
    let flags := if type =? FDIO_PROTOCOL_SOCKET_CONNECTED
                 then FDIO_FLAG_SOCKET_CONNECTED else 0 in
    if WITH_NEW_SOCKET then
      if negb (hcount =? 2) then fail ZX_ERR_INVALID_ARGS
      else
        zx_handle_close (nth 0 handles 0) ;;;
        o <- fdio_socket_create_new (nth 1 handles 0) flags ;;
        ret (created o)
    else
      if hcount =? 1 then
        o <- fdio_socket_create (nth 0 handles 0) ZX_HANDLE_INVALID flags ;;
        ret (created_io o out)
      else if hcount =? 2 then
        o <- fdio_socket_create (nth 0 handles 0) (nth 1 handles 0) flags ;;
        ret (created_io o out)
      else fail ZX_ERR_INVALID_ARGS
  else fail ZX_ERR_NOT_SUPPORTED.

(** [info] and [control_channel] are the contents of the uninitialised
    locals, [extra] that of [info.extra].  Returns the status and the
    content of [*out]. *)
Definition zxrio_open_handle (h : Z) (path : option (list byte))
    (flags mode : Z) (out : option fdio_t) (info : zxrio_describe_t)
    (control_channel : Z) (extra : Z * Z) : M (Z * option fdio_t) :=
  '(r, info, control_channel) <-
     zxrio_getobject h ZXRIO_OPEN path flags mode info control_channel ;;
  if r <? 0 then ret (r, out)
  else
    let hcount := if negb (info_handle info =? ZX_HANDLE_INVALID) then 2 else 1 in
    let handles := [control_channel; info_handle info] in
    fdio_from_handles (info_type info) handles hcount extra out.

Definition zxrio_open (rio : zxrio_t) (path : option (list byte))
    (flags mode : Z) (out : option fdio_t) (info : zxrio_describe_t)
    (control_channel : Z) (extra : Z * Z) : M (Z * option fdio_t) :=
  zxrio_open_handle (rio_h rio) path flags mode out info control_channel extra.

(** *** A file descriptor from startup handles *)

(** The descriptor table lives in another file: [fdio_bind_to_fd],
    [fdio_close] and [fdio_release] are parameters; they receive the
    pointer [io], [None] standing for [NULL]. *)
Variable fdio_bind_to_fd : option fdio_t -> Z -> Z -> M Z.
Variable fdio_close : option fdio_t -> M unit.
Variable fdio_release : option fdio_t -> M unit.

(** The loop after the label [fail] of [fdio_create_fd]; [hcount] is a
    [size_t].  The model stops at the end of the array it is given. *)
Definition close_each (handles : list Z) (hcount : Z) : M unit :=
  discard_handles_from handles (Z.to_nat hcount).

(** [io] is the content of the uninitialised local.  [extra] is [NULL]:
    the pair passed on stands for what lies behind it, which is never
    read, the protocol not being that of a VMO file.  Returns the status
    and the content of [*fd_out]. *)
Definition fdio_create_fd (handles types : list Z) (hcount : Z) (fd_out : Z)
    (io : option fdio_t) : M (Z * Z) :=
  let fail (r : Z) : M (Z * Z) :=
    close_each handles hcount ;;;
    ret (r, fd_out) in
  let kind := PA_HND_TYPE (nth 0 types 0) in
  let typed : option Z :=
    if kind =? PA_FDIO_REMOTE then Some FDIO_PROTOCOL_REMOTE
    else if kind =? PA_FDIO_PIPE then Some FDIO_PROTOCOL_PIPE
    else if kind =? PA_FDIO_SOCKET then Some FDIO_PROTOCOL_SOCKET_CONNECTED
    else None in
  match typed with
  | None => fail ZX_ERR_IO
  | Some type =>
      '(r, io) <- fdio_from_handles type handles (to_int32 hcount) (0, 0) io ;;
      if negb (r =? ZX_OK) then fail r
      else
        fd <- fdio_bind_to_fd io (-1) 0 ;;
        if fd <? 0 then
          fdio_close io ;;;
          fdio_release io ;;;
          ret (ZX_ERR_BAD_STATE, fd_out)
        else ret (ZX_OK, fd)
  end.

(** The handle counts that [fdio_from_handles] accepts for a protocol. *)
Definition accepted_hcount (type hcount : Z) : bool :=
  if type =? FDIO_PROTOCOL_REMOTE then (hcount =? 1) || (hcount =? 2)
  else if (type =? FDIO_PROTOCOL_SERVICE) || (type =? FDIO_PROTOCOL_PIPE)
  then hcount =? 1
  else if type =? FDIO_PROTOCOL_VMOFILE then hcount =? 2
  else if (type =? FDIO_PROTOCOL_SOCKET_CONNECTED)
          || (type =? FDIO_PROTOCOL_SOCKET)
  then if WITH_NEW_SOCKET then hcount =? 2 else (hcount =? 1) || (hcount =? 2)
  else false.

Definition known_protocol (type : Z) : bool :=
  existsb (Z.eqb type)
    [FDIO_PROTOCOL_REMOTE; FDIO_PROTOCOL_SERVICE; FDIO_PROTOCOL_PIPE;
     FDIO_PROTOCOL_VMOFILE; FDIO_PROTOCOL_SOCKET_CONNECTED;
     FDIO_PROTOCOL_SOCKET].

End From_handles.

(** *** Vocabulary for the properties *)

(** The message that [zxrio_connect] writes. *)
Definition connect_request (cnxn op flags mode : Z) (name : list byte)
    : zxrio_msg_t :=
  let msg := set_op op msg_zero_header in
  let msg := set_datalen (to_uint32 (strlen name)) msg in
  let msg := set_arg (to_int32 flags) msg in
  let msg := set_arg2 mode msg in
  let msg := set_hcount 1 msg in
  let msg := set_handle (store_handles [cnxn] (m_handle msg)) msg in
  set_data (memcpy (m_data msg) name (strlen name)) msg.

Definition connect_event (svc cnxn op flags mode : Z) (name : list byte) : event :=
  ev_channel_write svc (connect_request cnxn op flags mode name)
    (to_uint32 (ZXRIO_HDR_SZ + m_datalen (connect_request cnxn op flags mode name)))
    [cnxn].

(** The events that a chunked write of [len] bytes of [data] at [offset]
    through the channel [h] may produce: closes, and transactions on [h]
    that send no handle and carry, for some position [c], a chunk of the
    bytes at [c] and, for [ZXRIO_WRITE_AT], the offset [offset + c]. *)
Definition write_event_ok (op h : Z) (data : list byte) (len offset : Z)
    (e : event) : Prop :=
  match e with
  | ev_handle_close _ => True
  | ev_channel_call h' m _ hs _ _ =>
      h' = h /\ hs = [] /\ m_op m = op /\ m_hcount m = 0
      /\ exists c,
           0 <= c /\ 0 < m_datalen m <= FDIO_CHUNK_SIZE
           /\ c + m_datalen m <= len
           /\ m_data m = memcpy [] (skipn (Z.to_nat c) data) (m_datalen m)
           /\ m_arg2 m = (if op =? ZXRIO_WRITE_AT then offset + c else 0)
  | _ => False
  end.

(** The same for a chunked read: the transactions carry no payload and no
    handle and ask, for some position [c], for a chunk of the bytes left
    and, for [ZXRIO_READ_AT], at the offset [offset + c]. *)
Definition read_event_ok (op h : Z) (len offset : Z) (e : event) : Prop :=
  match e with
  | ev_handle_close _ => True
  | ev_channel_call h' m _ hs _ _ =>
      h' = h /\ hs = [] /\ m_op m = op /\ m_hcount m = 0 /\ m_datalen m = 0
      /\ exists c,
           0 <= c /\ 0 < m_arg m <= FDIO_CHUNK_SIZE
           /\ c + m_arg m <= len
           /\ m_arg2 m = (if op =? ZXRIO_READ_AT then offset + c else 0)
  | _ => False
  end.



End Remoteio_rest.

(** Values of the further constants, modelled on the public Zircon and
    POSIX headers, for running the code on concrete inputs. *)
#[refine] Instance zircon_more : @MoreHeaders zircon := {|
  ZXRIO_OPEN := 259;
  ZXRIO_CLONE := 258;
  ZXRIO_SEEK := 7;
  ZXRIO_RENAME := 271;
  ZXRIO_LINK := 272;
  ZXRIO_MMAP := 273;
  ZXRIO_FCNTL := 20;
  ERR_DISPATCHER_INDIRECT := -61;
  ERR_DISPATCHER_ASYNC := -62;
  ERR_DISPATCHER_DONE := -60;
  ZX_ERR_NOT_SUPPORTED := -2;
  ZX_ERR_NO_RESOURCES := -3;
  ZX_ERR_WRONG_TYPE := -12;
  ZX_ERR_UNAVAILABLE := -28;
  ZX_FS_RIGHT_READABLE := 1;
  ZX_FS_RIGHT_WRITABLE := 2;
  FDIO_PROTOCOL_REMOTE := 1;
  FDIO_PROTOCOL_SERVICE := 0;
  FDIO_PROTOCOL_PIPE := 2;
  FDIO_PROTOCOL_VMOFILE := 3;
  FDIO_PROTOCOL_SOCKET_CONNECTED := 5;
  FDIO_PROTOCOL_SOCKET := 4;
  FDIO_FLAG_SOCKET_CONNECTED := 32;
  WITH_NEW_SOCKET := false;
  PA_HND_TYPE := fun n => Z.land n 255;
  PA_FDIO_REMOTE := 50;
  PA_FDIO_PIPE := 51;
  PA_FDIO_SOCKET := 54;
  ZX_ERR_BAD_STATE := -20;
  POLLERR := 8;
  POLLRDHUP := 8192;
  ZX_CHANNEL_PEER_CLOSED := 4
|}.
Proof.
  - reflexivity.
  - reflexivity.
  - reflexivity.
  - reflexivity.
  - reflexivity.
  - discriminate.
  - reflexivity.
  - discriminate.
  - repeat constructor; simpl; intuition discriminate.
  - repeat constructor; simpl; intuition discriminate.
  - reflexivity.
  - split; reflexivity.
  - discriminate.
  - repeat constructor; simpl; intuition discriminate.
Defined.

(** * Properties *)

(** Unfolds the system calls and the monad, leaving the plain function of
    the trace. *)
Ltac run_calls :=
  unfold zx_channel_call, zx_channel_write, zx_channel_read_msg,
    zx_channel_read_info, zx_channel_create, zx_handle_close,
    zx_object_wait_one, fail_discard_handles;
  unfold bind, history, emit, ret; cbv beta iota.

(** ** Chunk arithmetic *)

(** [ceil_div n c] is the ceiling of [n / c]. *)
Lemma ceil_div_spec (n c : Z) :
  0 < c -> c * (ceil_div n c - 1) < n <= c * ceil_div n c.
Proof.
  intros Hc. unfold ceil_div.
  pose proof (Z.div_mod (n + c - 1) c ltac:(lia)) as Hdm.
  pose proof (Z.mod_pos_bound (n + c - 1) c Hc) as Hb. nia.
Qed.

Lemma ceil_div_0 (c : Z) : 0 < c -> ceil_div 0 c = 0.
Proof. intros Hc. unfold ceil_div. apply Z.div_small. lia. Qed.

Lemma ceil_div_last (n c : Z) : 0 < n <= c -> ceil_div n c = 1.
Proof.
  intros Hn. unfold ceil_div. symmetry.
  apply (Z.div_unique_pos (n + c - 1) c 1 (n - 1)); lia.
Qed.

Lemma ceil_div_next (n c : Z) :
  0 < c -> ceil_div n c = 1 + ceil_div (n - c) c.
Proof.
  intros Hc. unfold ceil_div.
  replace (n + c - 1) with ((n - c + c - 1) + 1 * c) by lia.
  rewrite Z.div_add by lia. lia.
Qed.

Section Properties.

Context {hdr : Headers}.
Variable k : kernel.

(** ** Wire message codec *)

Lemma is_message_valid_false (msg : zxrio_msg_t) :
  is_message_valid msg = false <->
  m_datalen msg > FDIO_CHUNK_SIZE \/ m_hcount msg > FDIO_MAX_HANDLES.
Proof.
  unfold is_message_valid.
  destruct (m_datalen msg >? FDIO_CHUNK_SIZE) eqn:Hd;
    destruct (m_hcount msg >? FDIO_MAX_HANDLES) eqn:Hh; simpl;
    split; intros H; try discriminate; try reflexivity; lia.
Qed.

Lemma is_message_valid_true (msg : zxrio_msg_t) :
  is_message_valid msg = true <->
  m_datalen msg <= FDIO_CHUNK_SIZE /\ m_hcount msg <= FDIO_MAX_HANDLES.
Proof.
  unfold is_message_valid.
  destruct (m_datalen msg >? FDIO_CHUNK_SIZE) eqn:Hd;
    destruct (m_hcount msg >? FDIO_MAX_HANDLES) eqn:Hh; simpl;
    split; intros H; try discriminate; try reflexivity; lia.
Qed.

(** C4.  Validation of a message fails exactly when its payload length
    exceeds [FDIO_CHUNK_SIZE] or its handle count exceeds
    [FDIO_MAX_HANDLES], and the call leaves the message and the trace of
    system calls as they were. *)
Theorem is_message_valid_spec (msg : zxrio_msg_t) (t : trace) :
  (is_message_valid msg = false <->
     m_datalen msg > FDIO_CHUNK_SIZE \/ m_hcount msg > FDIO_MAX_HANDLES)
  /\ is_message_valid_call msg t = (is_message_valid msg, msg, t).
Proof.
  split; [apply is_message_valid_false | reflexivity].
Qed.

(** Reply validation in full: the two tests on the wire size, then
    [is_message_valid]. *)
Lemma is_message_reply_valid_false (msg : zxrio_msg_t) (size : Z) :
  is_message_reply_valid msg size = false <->
  size < ZXRIO_HDR_SZ \/ m_datalen msg <> size - ZXRIO_HDR_SZ
  \/ m_datalen msg > FDIO_CHUNK_SIZE \/ m_hcount msg > FDIO_MAX_HANDLES.
Proof.
  unfold is_message_reply_valid.
  pose proof (is_message_valid_false msg) as Hv.
  destruct (size <? ZXRIO_HDR_SZ) eqn:Hs;
    destruct (m_datalen msg =? size - ZXRIO_HDR_SZ) eqn:Hd; simpl.
  - split; [intros _; left; lia | reflexivity].
  - split; [intros _; left; lia | reflexivity].
  - rewrite Hv. split; [tauto |]. intros [H | [H | H]]; [lia | lia | exact H].
  - split; [intros _; right; left; lia | reflexivity].
Qed.



(** ** Handles and traces *)

Lemma discard_handles_from_run (hs : list Z) (n : nat) (t : trace) :
  discard_handles_from hs n t = (tt, t ++ map ev_handle_close (firstn n hs)).
Proof.
  revert hs t. induction n as [| n IH]; intros hs t; simpl.
  - unfold ret. now rewrite app_nil_r.
  - destruct hs as [| h rest]; simpl.
    + unfold ret. now rewrite app_nil_r.
    + unfold bind, zx_handle_close, emit. rewrite IH.
      now rewrite <- app_assoc.
Qed.

Lemma discard_handles_run (hs : list Z) (count : Z) (t : trace) :
  discard_handles hs count t =
  (tt, t ++ map ev_handle_close (firstn (Z.to_nat count) hs)).
Proof. apply discard_handles_from_run. Qed.

Lemma closed_handles_app (t1 t2 : trace) :
  closed_handles (t1 ++ t2) = closed_handles t1 ++ closed_handles t2.
Proof.
  induction t1 as [| e t1 IH]; simpl; [reflexivity |].
  destruct e; simpl; now rewrite IH.
Qed.

Lemma closed_handles_closes (hs : list Z) :
  closed_handles (map ev_handle_close hs) = hs.
Proof. induction hs as [| h hs IH]; simpl; congruence. Qed.

Lemma count_calls_app (t1 t2 : trace) :
  count_calls (t1 ++ t2) = count_calls t1 + count_calls t2.
Proof.
  induction t1 as [| e t1 IH]; [reflexivity |].
  destruct e; cbn [count_calls app]; lia.
Qed.

Lemma count_calls_closes (hs : list Z) :
  count_calls (map ev_handle_close hs) = 0.
Proof. induction hs as [| h hs IH]; cbn [count_calls map]; congruence. Qed.

(** ** Server read path *)

(** C2.  [zxrio_read_msg] does not depend on the handle count embedded in
    the received bytes: whatever value [n] that field is given, the status,
    the resulting message and the system calls made (the handles closed on
    a validation failure among them) are those obtained with the bytes as
    they were; and after a successful channel read the handle count of the
    message is the one reported by the transport. *)
Theorem zxrio_read_msg_ignores_embedded_hcount (n h : Z) (msg : zxrio_msg_t)
    (t : trace) :
  zxrio_read_msg (with_embedded_hcount n k) h msg t = zxrio_read_msg k h msg t
  /\ m_hcount (snd (fst (zxrio_read_msg k h msg t))) =
     (if rr_status (k_channel_read_msg k t h) =? ZX_OK
      then Z.of_nat (length (rr_handles (k_channel_read_msg k t h)))
      else m_hcount msg).
Proof.
  unfold zxrio_read_msg, zx_channel_read_msg, bind, history, emit, ret.
  cbn [with_embedded_hcount k_channel_read_msg rr_status rr_bytes
       rr_actual_bytes rr_handles].
  destruct (k_channel_read_msg k t h) as [st bytes sz hs].
  cbn [rr_status rr_bytes rr_actual_bytes rr_handles].
  destruct (st =? ZX_OK) eqn:Hst; cbv beta iota; rewrite Hst; cbn [negb].
  - split.
    + destruct bytes as [tx o dl a a2 hc hh dd]. reflexivity.
    + destruct (is_message_reply_valid _ sz); cbn [negb].
      * reflexivity.
      * rewrite discard_handles_run. reflexivity.
  - split; reflexivity.
Qed.

(** ** Transaction engine *)

Lemma zxrio_txn_invalid (rio : zxrio_t) (msg : zxrio_msg_t) (t : trace) :
  is_message_valid msg = false ->
  zxrio_txn k rio msg t = (ZX_ERR_INVALID_ARGS, rio, msg, t).
Proof. intros H. unfold zxrio_txn. now rewrite H. Qed.

(** What [zxrio_txn] does with a message that passes local validation, by
    the kind of answer the kernel gives. *)
Lemma zxrio_txn_run (rio : zxrio_t) (msg : zxrio_msg_t) (t : trace) :
  is_message_valid msg = true ->
  let res := txn_answer k rio msg t in
  let t1 := t ++ [txn_event rio msg] in
  let sent := set_txid (rio_txid rio) msg in
  let got := received res in
  zxrio_txn k rio msg t =
    if cr_status res =? ZX_OK then
      if negb (is_message_reply_valid got (cr_actual_bytes res))
         || negb (ZXRIO_OP (m_op got) =? ZXRIO_STATUS) then
        (ZX_ERR_IO, txn_rio rio, set_hcount 0 got,
         t1 ++ map ev_handle_close
                 (firstn (Z.to_nat (m_hcount got)) (m_handle got)))
      else if m_arg got <? 0 then
        (m_arg got, txn_rio rio, set_hcount 0 got,
         t1 ++ map ev_handle_close
                 (firstn (Z.to_nat (m_hcount got)) (m_handle got)))
      else (m_arg got, txn_rio rio, got, t1)
    else if cr_status res <? 0 then
      if cr_status res =? ZX_ERR_CALL_FAILED then
        (cr_read_status res, txn_rio rio, set_hcount 0 sent, t1)
      else
        (cr_status res, txn_rio rio, set_hcount 0 sent,
         t1 ++ map ev_handle_close
                 (firstn (Z.to_nat (m_hcount msg)) (m_handle msg)))
    else zxrio_txn k rio msg t.
Proof.
  intros Hv res t1 sent got.
  unfold zxrio_txn. rewrite Hv. cbn [negb].
  run_calls.
  cbn [rio_h m_datalen m_hcount m_handle set_txid].
  fold (txn_answer k rio msg t). fold res.
  pose proof ZX_OK_zero as H0.
  destruct (cr_status res =? ZX_OK) eqn:Hok; cbv beta iota.
  - apply Z.eqb_eq in Hok.
    assert (Hn : (cr_status res <? 0) = false) by (apply Z.ltb_ge; lia).
    rewrite Hn. fold got.
    destruct (negb (is_message_reply_valid got (cr_actual_bytes res))
              || negb (ZXRIO_OP (m_op got) =? ZXRIO_STATUS)).
    + rewrite discard_handles_run. reflexivity.
    + destruct (m_arg got <? 0); [| reflexivity].
      rewrite discard_handles_run. reflexivity.
  - destruct (cr_status res =? ZX_ERR_CALL_FAILED) eqn:Hcf; cbv beta iota;
      destruct (cr_status res <? 0) eqn:Hn; rewrite ?Hcf;
      rewrite ?discard_handles_run; try reflexivity.
Qed.

Lemma received_handles (res : call_result) :
  firstn (Z.to_nat (m_hcount (received res))) (m_handle (received res)) =
  cr_handles res.
Proof.
  unfold received, store_handles. cbn [m_hcount m_handle set_hcount set_handle].
  rewrite Nat2Z.id, firstn_app, firstn_all, Nat.sub_diag, firstn_O.
  apply app_nil_r.
Qed.



(** A transaction leaves the handles of the connection as they are. *)
Lemma zxrio_txn_rio_handles (rio : zxrio_t) (msg : zxrio_msg_t) (t : trace) :
  let rio' := snd (fst (fst (zxrio_txn k rio msg t))) in
  rio_h rio' = rio_h rio /\ rio_h2 rio' = rio_h2 rio.
Proof.
  cbv zeta. destruct (is_message_valid msg) eqn:Hv.
  - unfold zxrio_txn. rewrite Hv. cbn [negb]. run_calls.
    repeat match goal with
           | |- context [if ?c then _ else _] => destruct c; cbv beta iota
           end;
      rewrite ?discard_handles_run; cbn [fst snd rio_h rio_h2]; auto.
  - rewrite zxrio_txn_invalid by assumption. cbn [fst snd]. auto.
Qed.

(** A transaction on a valid request makes one call, followed only by
    closes, and advances the transaction id of the connection. *)
Lemma zxrio_txn_shape (rio : zxrio_t) (msg : zxrio_msg_t) (t : trace) :
  is_message_valid msg = true ->
  snd (fst (fst (zxrio_txn k rio msg t))) = txn_rio rio
  /\ exists closed,
       snd (zxrio_txn k rio msg t) =
       t ++ txn_event rio msg :: map ev_handle_close closed.
Proof.
  intros Hv. unfold zxrio_txn. rewrite Hv. cbn [negb]. run_calls.
  cbn [rio_h m_datalen m_hcount m_handle set_txid].
  repeat match goal with
         | |- context [if ?c then _ else _] => destruct c; cbv beta iota
         end;
    rewrite ?discard_handles_run; cbn [fst snd]; (split; [reflexivity |]);
    try (eexists; rewrite <- app_assoc; reflexivity);
    exists []; reflexivity.
Qed.

Lemma zxrio_txn_one_call (rio : zxrio_t) (msg : zxrio_msg_t) (t : trace) :
  is_message_valid msg = true ->
  count_calls (snd (zxrio_txn k rio msg t)) = count_calls t + 1.
Proof.
  intros Hv. destruct (zxrio_txn_shape rio msg t Hv) as (_ & closed & ->).
  rewrite count_calls_app. cbn [count_calls txn_event].
  rewrite count_calls_closes. lia.
Qed.

(** ** Close *)

Lemma close_request_valid :
  is_message_valid (set_op ZXRIO_CLOSE msg_zero_header) = true.
Proof.
  apply is_message_valid_true. cbn.
  pose proof FDIO_CHUNK_SIZE_pos. pose proof FDIO_MAX_HANDLES_nonneg. lia.
Qed.

(** The trace of one [zxrio_close].  Handles are unsigned. *)
Lemma zxrio_close_run (rio : zxrio_t) (t : trace) :
  0 <= rio_h2 rio ->
  let out := zxrio_close k rio t in
  rio_h (snd (fst out)) = 0 /\ rio_h2 (snd (fst out)) = 0
  /\ closed_handles (snd out) =
     closed_handles t ++ close_reply_handles k rio t
       ++ rio_h rio :: (if rio_h2 rio >? 0 then [rio_h2 rio] else []).
Proof.
  intros Hu. cbv zeta. remember (zxrio_close k rio t) as out eqn:Hout.
  unfold zxrio_close in Hout. unfold close_reply_handles.
  set (msg := set_op ZXRIO_CLOSE msg_zero_header) in *.
  pose proof (zxrio_txn_rio_handles rio msg t) as [Hh Hh2].
  pose proof (zxrio_txn_run rio msg t close_request_valid) as Hrun.
  cbv zeta in Hrun, Hh, Hh2.
  unfold bind at 1 in Hout.
  destruct (zxrio_txn k rio msg t) as [[[r rio1] msg1] t1] eqn:Htxn.
  cbn [fst snd] in Hh, Hh2.
  assert (Hcl : closed_handles
                  (snd ((if r >=? 0
                         then discard_handles (m_handle msg1) (m_hcount msg1)
                         else ret tt) t1)) =
                closed_handles t ++
                (if cr_status (txn_answer k rio msg t) =? ZX_OK
                 then cr_handles (txn_answer k rio msg t) else [])).
  { destruct (cr_status (txn_answer k rio msg t) =? ZX_OK) eqn:Hok.
    - pose proof (received_handles (txn_answer k rio msg t)) as Hrec.
      remember (received (txn_answer k rio msg t)) as got eqn:Hgot.
      clear Hgot.
      destruct (negb _ || negb _) in Hrun.
      + injection Hrun as -> _ -> ->.
        assert (Hr : (ZX_ERR_IO >=? 0) = false)
          by (pose proof ZX_ERR_IO_neg; rewrite Z.geb_leb; apply Z.leb_gt; lia).
        rewrite Hr. unfold ret. cbn [snd].
        rewrite !closed_handles_app, closed_handles_closes, Hrec.
        cbn. now rewrite app_nil_r.
      + destruct (m_arg _ <? 0) eqn:Hneg in Hrun.
        * injection Hrun as -> _ -> ->.
          assert (Hr : (m_arg got >=? 0) = false)
            by (apply Z.ltb_lt in Hneg; rewrite Z.geb_leb; apply Z.leb_gt; lia).
          rewrite Hr. unfold ret. cbn [snd].
          rewrite !closed_handles_app, closed_handles_closes, Hrec.
          cbn. now rewrite app_nil_r.
        * injection Hrun as -> _ -> ->.
          assert (Hr : (m_arg got >=? 0) = true)
            by (apply Z.ltb_ge in Hneg; rewrite Z.geb_leb; apply Z.leb_le; lia).
          rewrite Hr, discard_handles_run. cbn [snd].
          rewrite !closed_handles_app, closed_handles_closes, Hrec.
          cbn. now rewrite app_nil_r.
    - assert (Hnone : closed_handles t1 = closed_handles t
                      /\ firstn (Z.to_nat (m_hcount msg1)) (m_handle msg1) = []).
      { destruct (cr_status _ <? 0) in Hrun.
        - destruct (cr_status _ =? ZX_ERR_CALL_FAILED) in Hrun;
            injection Hrun as _ _ -> ->;
            rewrite ?closed_handles_app; cbn; rewrite ?app_nil_r; auto.
        - pose proof close_request_valid as Hv. fold msg in Hv.
          unfold zxrio_txn in Htxn. rewrite Hv in Htxn.
          cbn [negb] in Htxn. revert Htxn. run_calls.
          cbn [rio_h m_datalen m_hcount m_handle set_txid].
          fold (txn_answer k rio msg t). rewrite Hok. cbv beta iota.
          repeat match goal with
                 | |- context [if ?c then _ else _] => destruct c; cbv beta iota
                 end;
            rewrite ?discard_handles_run;
            intros Heq; injection Heq as _ _ <- <-;
            rewrite ?closed_handles_app; cbn; rewrite ?app_nil_r; auto. }
      destruct Hnone as [Ht1 Hfn].
      destruct (r >=? 0).
      + rewrite discard_handles_run. cbn [snd].
        rewrite closed_handles_app, closed_handles_closes, Hfn, Ht1. reflexivity.
      + unfold ret. cbn [snd]. now rewrite Ht1, app_nil_r. }
  unfold bind at 1 in Hout.
  destruct ((if r >=? 0
             then discard_handles (m_handle msg1) (m_hcount msg1)
             else ret tt) t1) as [[] t2].
  cbn [snd] in Hcl. cbn [rio_h rio_h2 rio_txid] in Hout.
  revert Hout. run_calls. rewrite Hh, Hh2.
  destruct (rio_h2 rio >? 0) eqn:Hpos; intros ->; cbn [fst snd rio_h rio_h2];
    rewrite !closed_handles_app, Hcl; cbn [closed_handles];
    rewrite <- ?app_assoc; auto.
  rewrite Z.gtb_ltb in Hpos. apply Z.ltb_ge in Hpos. repeat split. lia.
Qed.

(** C6.  Whether or not the close transaction succeeds, [zxrio_close] ends
    with both handle fields zero, having closed the primary handle and,
    when it is nonzero, the secondary handle, each once, after the handles
    that came with the reply.  A second [zxrio_close] on the connection so
    left finds both fields zero: besides the handles that come with its own
    reply it passes only the value zero to [zx_handle_close], so neither
    handle of the connection is closed a second time. *)
Theorem zxrio_close_twice (rio : zxrio_t) (t : trace) :
  0 <= rio_h2 rio ->
  let first := zxrio_close k rio t in
  let rio' := snd (fst first) in
  let t' := snd first in
  let second := zxrio_close k rio' t' in
  (rio_h rio' = 0 /\ rio_h2 rio' = 0
   /\ closed_handles t' =
      closed_handles t ++ close_reply_handles k rio t
        ++ rio_h rio :: (if rio_h2 rio >? 0 then [rio_h2 rio] else []))
  /\ (rio_h (snd (fst second)) = 0 /\ rio_h2 (snd (fst second)) = 0
      /\ closed_handles (snd second) =
         closed_handles t' ++ close_reply_handles k rio' t' ++ [0]).
Proof.
  intros Hu. cbv zeta.
  pose proof (zxrio_close_run rio t Hu) as (Hh & Hh2 & Hcl). cbv zeta in *.
  split; [auto |].
  assert (Hu' : 0 <= rio_h2 (snd (fst (zxrio_close k rio t)))) by lia.
  pose proof (zxrio_close_run (snd (fst (zxrio_close k rio t)))
                (snd (zxrio_close k rio t)) Hu') as (Hh' & Hh2' & Hcl').
  cbv zeta in *. rewrite Hh, Hh2 in Hcl'. auto.
Qed.

(** ** Open/connect negotiator *)

(** C8.  [zxrio_connect] makes no system call on which it would wait for
    the peer, and it always disposes of [cnxn]: it closes it, and sends
    nothing, when the path length reaches [PATH_MAX] or the describe flag is
    set; otherwise it writes one message carrying [cnxn] as its only handle,
    and closes [cnxn] exactly when that write fails. *)
Theorem zxrio_connect_consumes_cnxn (svc cnxn op flags mode : Z)
    (name : list byte) (t : trace) :
  let out := zxrio_connect k svc cnxn op flags mode name t in
  exists new,
    snd out = t ++ new
    /\ forallb (fun e => negb (blocking e)) new = true
    /\ (strlen name >= PATH_MAX ->
        fst out = ZX_ERR_BAD_PATH /\ new = [ev_handle_close cnxn])
    /\ (strlen name < PATH_MAX -> Z.land flags ZX_FS_FLAG_DESCRIBE <> 0 ->
        fst out = ZX_ERR_INVALID_ARGS /\ new = [ev_handle_close cnxn])
    /\ (strlen name < PATH_MAX -> Z.land flags ZX_FS_FLAG_DESCRIBE = 0 ->
        exists msg nbytes,
          m_hcount msg = 1
          /\ (k_channel_write k t svc msg nbytes [cnxn] < 0 ->
              fst out = k_channel_write k t svc msg nbytes [cnxn]
              /\ new = [ev_channel_write svc msg nbytes [cnxn];
                        ev_handle_close cnxn])
          /\ (0 <= k_channel_write k t svc msg nbytes [cnxn] ->
              fst out = ZX_OK
              /\ new = [ev_channel_write svc msg nbytes [cnxn]])).
Proof.
  cbv zeta. unfold zxrio_connect.
  destruct (strlen name >=? PATH_MAX) eqn:Hlen.
  - run_calls. exists [ev_handle_close cnxn]. cbn [fst snd].
    rewrite Z.geb_leb in Hlen. apply Z.leb_le in Hlen.
    repeat split; try reflexivity; intros; lia.
  - rewrite Z.geb_leb in Hlen. apply Z.leb_gt in Hlen.
    destruct (Z.land flags ZX_FS_FLAG_DESCRIBE =? 0) eqn:Hd; cbn [negb].
    + apply Z.eqb_eq in Hd. run_calls.
      cbn [m_hcount m_handle m_datalen set_data set_handle set_hcount set_arg2
           set_arg set_datalen set_op msg_zero_header store_handles length
           skipn app firstn].
      match goal with
      | |- context [k_channel_write k t svc ?m ?n [cnxn]] =>
          set (msg := m); set (nbytes := n)
      end.
      destruct (k_channel_write k t svc msg nbytes [cnxn] <? 0) eqn:Hw.
      * apply Z.ltb_lt in Hw.
        exists [ev_channel_write svc msg nbytes [cnxn]; ev_handle_close cnxn].
        cbn [fst snd]. rewrite <- app_assoc.
        repeat split; try reflexivity; try (intros; lia).
        intros _ _. exists msg, nbytes.
        repeat split; try reflexivity; intros; lia.
      * apply Z.ltb_ge in Hw.
        exists [ev_channel_write svc msg nbytes [cnxn]].
        cbn [fst snd].
        repeat split; try reflexivity; try (intros; lia).
        intros _ _. exists msg, nbytes.
        repeat split; try reflexivity; intros; lia.
    + apply Z.eqb_neq in Hd. run_calls. exists [ev_handle_close cnxn].
      cbn [fst snd].
      repeat split; try reflexivity; intros; try lia; contradiction.
Qed.

(** C7.  In a synchronous describe-open whose channel creation, request
    write and reply read succeed: when no handle was received the handle
    field of the describe record is [ZX_HANDLE_INVALID]; and when the reply
    has not the size of a describe record or its op is not [ZXRIO_ON_OPEN],
    the status is [ZX_ERR_IO], [*out] is [ZX_HANDLE_INVALID], and after the
    read the code closes the handle the peer sent, if any, and then the
    local endpoint. *)
Theorem zxrio_sync_open_connection_bad_reply (rio_h : Z) (msg : zxrio_msg_t)
    (info : zxrio_describe_t) (out : Z) (t : trace) :
  let cc := k_channel_create k t in
  let h := cc_out0 cc in
  let sent :=
    set_hcount 1 (set_handle (store_handles [cc_out1 cc] (m_handle msg)) msg) in
  let nbytes := to_uint32 (ZXRIO_HDR_SZ + m_datalen msg) in
  let t1 := t ++ [ev_channel_create] in
  let t2 := t1 ++ [ev_channel_write rio_h sent nbytes [cc_out1 cc];
                   ev_object_wait_one h] in
  let rd := k_channel_read_info k t2 h in
  let aux := match rr_handles rd with
             | h0 :: _ => if h0 =? ZX_HANDLE_INVALID then [] else [h0]
             | [] => []
             end in
  let res := zxrio_sync_open_connection k rio_h msg info out t in
  0 <= cc_status cc ->
  0 <= k_channel_write k t1 rio_h sent nbytes [cc_out1 cc] ->
  rr_status rd = ZX_OK ->
  (rr_handles rd = [] ->
   info_handle (snd (fst (fst res))) = ZX_HANDLE_INVALID)
  /\ (rr_actual_bytes rd <> sizeof_zxrio_describe_t
      \/ info_op (rr_bytes rd) <> ZXRIO_ON_OPEN ->
      fst (fst (fst (fst res))) = ZX_ERR_IO
      /\ snd (fst res) = ZX_HANDLE_INVALID
      /\ snd res =
         t2 ++ ev_channel_read h sizeof_zxrio_describe_t 1
            :: map ev_handle_close (aux ++ [h])).
Proof.
  cbv zeta. intros Hcc Hw Hrd.
  unfold zxrio_sync_open_connection. run_calls.
  apply Z.ltb_ge in Hcc. rewrite Hcc.
  cbn [m_hcount m_handle m_datalen set_handle set_hcount].
  replace (firstn (Z.to_nat 1)
             (store_handles [cc_out1 (k_channel_create k t)] (m_handle msg)))
    with [cc_out1 (k_channel_create k t)] by reflexivity.
  apply Z.ltb_ge in Hw. rewrite Hw.
  rewrite <- !app_assoc. rewrite <- !app_assoc in Hrd. cbn [app] in Hrd |- *.
  set (sent := set_hcount 1 _) in *.
  set (h := cc_out0 _) in *.
  set (rd := k_channel_read_info k _ h) in *.
  apply Z.eqb_eq in Hrd. rewrite Hrd. cbv beta iota. rewrite Hrd.
  cbn [negb].
  assert (Hio : (ZX_ERR_IO =? ZX_OK) = false)
    by (apply Z.eqb_neq; pose proof ZX_ERR_IO_neg; pose proof ZX_OK_zero; lia).
  assert (Hop : forall v i, info_op (set_info_handle v i) = info_op i)
    by reflexivity.
  assert (Hbad : rr_actual_bytes rd <> sizeof_zxrio_describe_t
                 \/ info_op (rr_bytes rd) <> ZXRIO_ON_OPEN ->
                 negb (rr_actual_bytes rd =? sizeof_zxrio_describe_t)
                 || negb (info_op (rr_bytes rd) =? ZXRIO_ON_OPEN) = true).
  { intros [H | H]; apply Z.eqb_neq in H; rewrite H; cbn [negb];
      [reflexivity | apply orb_true_r]. }
  destruct (rr_handles rd) as [| h0 hs]; cbn [length Z.of_nat Z.eqb];
    rewrite ?Hop.
  - split.
    + intros _.
      destruct (negb (rr_actual_bytes rd =? sizeof_zxrio_describe_t)
                || negb (info_op (rr_bytes rd) =? ZXRIO_ON_OPEN));
        [rewrite Hio; cbn [negb] |];
        repeat match goal with
               | |- context [if ?c then _ else _] => destruct c; cbv beta iota
               end; reflexivity.
    + intros Hb. rewrite (Hbad Hb), Hio. cbn [negb info_handle set_info_handle].
      rewrite Z.eqb_refl. cbn [negb fst snd app map].
      repeat split. now rewrite <- !app_assoc.
  - split; [discriminate |].
    intros Hb. rewrite (Hbad Hb), Hio. cbn [negb info_handle set_info_handle].
    destruct (h0 =? ZX_HANDLE_INVALID); cbn [negb fst snd app map];
      repeat split; now rewrite <- !app_assoc.
Qed.

(** ** Chunked write and read *)

Lemma write_loop_step (op : Z) (s : write_state) (t : trace) :
  write_loop k op s t =
  if w_len s >? 0 then
    match write_body k op s t with
    | (Break s', t') => (s', t')
    | (Continue s', t') => write_loop k op s' t'
    end
  else (s, t).
Proof.
  simp write_loop.
  destruct (inspect (w_len s >? 0)) as [b Hb].
  match goal with
  | |- _ = (if _ then ?X else ?Y) =>
      transitivity (if b then X else Y); [| now rewrite Hb]
  end.
  destruct b; simp write_loop; [| reflexivity].
  destruct (inspect (write_body k op s t)) as [[c t'] Hc].
  match goal with
  | |- _ = (let (l, t0) := _ in @?F l t0) =>
      transitivity (F c t'); [| now rewrite Hc]
  end.
  destruct c; simp write_loop; reflexivity.
Qed.

(** One iteration of the write loop, by the status of its transaction. *)
Lemma write_body_run (op : Z) (s : write_state) (t : trace)
    (r : Z) (rio1 : zxrio_t) (msg1 : zxrio_msg_t) (t1 : trace) :
  zxrio_txn k (w_rio s) (write_request op s) t = (r, rio1, msg1, t1) ->
  let xfer := chunk_of (w_len s) in
  let t2 := t1 ++ map ev_handle_close
                    (firstn (Z.to_nat (m_hcount msg1)) (m_handle msg1)) in
  let s' := mk_write_state rio1 (skipn (Z.to_nat r) (w_data s)) (w_len s - r)
              (if op =? ZXRIO_WRITE_AT then w_offset s + r else w_offset s)
              (w_count s + r) r in
  write_body k op s t =
    if r <? 0 then
      (Break (mk_write_state rio1 (w_data s) (w_len s) (w_offset s)
                (w_count s) r), t1)
    else if r >? xfer then
      (Break (mk_write_state rio1 (w_data s) (w_len s) (w_offset s)
                (w_count s) ZX_ERR_IO), t2)
    else if r <? xfer then (Break s', t2)
    else (Continue s', t2).
Proof.
  intros Htxn. cbv zeta. unfold write_body.
  change (zxrio_txn k (w_rio s) _) with
    (zxrio_txn k (w_rio s) (write_request op s)).
  unfold bind at 1. rewrite Htxn.
  destruct (r <? 0); [reflexivity |].
  unfold bind. rewrite discard_handles_run. unfold ret, chunk_of.
  destruct (r >? _); [reflexivity |].
  destruct (r <? _); reflexivity.
Qed.

Lemma write_loop_failure (op : Z) (s : write_state) (t : trace)
    (r : Z) (rio1 : zxrio_t) (msg1 : zxrio_msg_t) (t1 : trace) :
  w_len s > 0 ->
  zxrio_txn k (w_rio s) (write_request op s) t = (r, rio1, msg1, t1) ->
  r < 0 ->
  write_loop k op s t =
  (mk_write_state rio1 (w_data s) (w_len s) (w_offset s) (w_count s) r, t1).
Proof.
  intros Hlen Htxn Hr. rewrite write_loop_step.
  replace (w_len s >? 0) with true by (symmetry; apply Z.gtb_lt; lia).
  rewrite (write_body_run op s t Htxn). cbv zeta.
  replace (r <? 0) with true by (symmetry; apply Z.ltb_lt; lia).
  reflexivity.
Qed.

Lemma write_loop_short (op : Z) (s : write_state) (t : trace)
    (r : Z) (rio1 : zxrio_t) (msg1 : zxrio_msg_t) (t1 : trace) :
  w_len s > 0 ->
  zxrio_txn k (w_rio s) (write_request op s) t = (r, rio1, msg1, t1) ->
  0 <= r < chunk_of (w_len s) ->
  write_loop k op s t =
  (mk_write_state rio1 (skipn (Z.to_nat r) (w_data s)) (w_len s - r)
     (if op =? ZXRIO_WRITE_AT then w_offset s + r else w_offset s)
     (w_count s + r) r,
   t1 ++ map ev_handle_close
           (firstn (Z.to_nat (m_hcount msg1)) (m_handle msg1))).
Proof.
  intros Hlen Htxn Hr. rewrite write_loop_step.
  replace (w_len s >? 0) with true by (symmetry; apply Z.gtb_lt; lia).
  rewrite (write_body_run op s t Htxn). cbv zeta.
  replace (r <? 0) with false by (symmetry; apply Z.ltb_ge; lia).
  replace (r >? chunk_of (w_len s)) with false
    by (symmetry; rewrite Z.gtb_ltb; apply Z.ltb_ge; lia).
  replace (r <? chunk_of (w_len s)) with true by (symmetry; apply Z.ltb_lt; lia).
  reflexivity.
Qed.

Lemma write_loop_full (op : Z) (s : write_state) (t : trace)
    (r : Z) (rio1 : zxrio_t) (msg1 : zxrio_msg_t) (t1 : trace) :
  w_len s > 0 ->
  zxrio_txn k (w_rio s) (write_request op s) t = (r, rio1, msg1, t1) ->
  r = chunk_of (w_len s) ->
  write_loop k op s t =
  write_loop k op
    (mk_write_state rio1 (skipn (Z.to_nat r) (w_data s)) (w_len s - r)
       (if op =? ZXRIO_WRITE_AT then w_offset s + r else w_offset s)
       (w_count s + r) r)
    (t1 ++ map ev_handle_close
             (firstn (Z.to_nat (m_hcount msg1)) (m_handle msg1))).
Proof.
  intros Hlen Htxn Hr. rewrite write_loop_step.
  replace (w_len s >? 0) with true by (symmetry; apply Z.gtb_lt; lia).
  rewrite (write_body_run op s t Htxn). cbv zeta.
  assert (Hc : 0 < chunk_of (w_len s)).
  { unfold chunk_of. pose proof FDIO_CHUNK_SIZE_pos.
    destruct (w_len s >? FDIO_CHUNK_SIZE); lia. }
  replace (r <? 0) with false by (symmetry; apply Z.ltb_ge; lia).
  replace (r >? chunk_of (w_len s)) with false
    by (symmetry; rewrite Z.gtb_ltb; apply Z.ltb_ge; lia).
  replace (r <? chunk_of (w_len s)) with false by (symmetry; apply Z.ltb_ge; lia).
  reflexivity.
Qed.

Lemma chunk_of_bounds (len : Z) :
  0 < len -> 0 < chunk_of len <= len /\ chunk_of len <= FDIO_CHUNK_SIZE.
Proof.
  intros Hlen. unfold chunk_of. pose proof FDIO_CHUNK_SIZE_pos.
  destruct (len >? FDIO_CHUNK_SIZE) eqn:Hbig.
  - apply Z.gtb_lt in Hbig. lia.
  - rewrite Z.gtb_ltb in Hbig. apply Z.ltb_ge in Hbig. lia.
Qed.

Lemma write_loop_excess (op : Z) (s : write_state) (t : trace)
    (r : Z) (rio1 : zxrio_t) (msg1 : zxrio_msg_t) (t1 : trace) :
  w_len s > 0 ->
  zxrio_txn k (w_rio s) (write_request op s) t = (r, rio1, msg1, t1) ->
  r > chunk_of (w_len s) ->
  write_loop k op s t =
  (mk_write_state rio1 (w_data s) (w_len s) (w_offset s) (w_count s) ZX_ERR_IO,
   t1 ++ map ev_handle_close
           (firstn (Z.to_nat (m_hcount msg1)) (m_handle msg1))).
Proof.
  intros Hlen Htxn Hr. rewrite write_loop_step.
  replace (w_len s >? 0) with true by (symmetry; apply Z.gtb_lt; lia).
  rewrite (write_body_run op s t Htxn). cbv zeta.
  pose proof (@chunk_of_bounds (w_len s) ltac:(lia)) as [Hc _].
  replace (r <? 0) with false by (symmetry; apply Z.ltb_ge; lia).
  replace (r >? chunk_of (w_len s)) with true by (symmetry; apply Z.gtb_lt; lia).
  reflexivity.
Qed.

(** A transaction that is answered by a well-formed status reply with a
    non-negative argument returns that argument and leaves the reply, with
    its handles, in the message. *)
Lemma zxrio_txn_success (rio : zxrio_t) (msg : zxrio_msg_t) (t : trace) :
  is_message_valid msg = true ->
  replies_well_formed k ->
  let got := received (txn_answer k rio msg t) in
  0 <= m_arg got ->
  zxrio_txn k rio msg t = (m_arg got, txn_rio rio, got, t ++ [txn_event rio msg]).
Proof.
  intros Hv Hwf got Harg.
  rewrite (zxrio_txn_run rio msg t Hv). cbv zeta. fold got.
  destruct (Hwf t (rio_h rio) (set_txid (rio_txid rio) msg)
              (to_uint32 (ZXRIO_HDR_SZ + m_datalen msg))
              (firstn (Z.to_nat (m_hcount msg)) (m_handle msg)))
    as (Hst & Hvalid & Hop).
  fold (txn_answer k rio msg t) in Hst, Hvalid, Hop. fold got in Hvalid, Hop.
  apply Z.eqb_eq in Hst. rewrite Hst, Hvalid.
  apply Z.eqb_eq in Hop. rewrite Hop. cbn [negb orb].
  replace (m_arg got <? 0) with false by (symmetry; apply Z.ltb_ge; lia).
  reflexivity.
Qed.

Lemma write_request_valid (op : Z) (s : write_state) :
  0 < w_len s -> is_message_valid (write_request op s) = true.
Proof.
  intros Hlen. apply is_message_valid_true.
  pose proof (chunk_of_bounds Hlen). pose proof FDIO_MAX_HANDLES_nonneg.
  unfold write_request. destruct (op =? ZXRIO_WRITE_AT); cbn; lia.
Qed.

Lemma write_request_datalen (op : Z) (s : write_state) :
  m_datalen (write_request op s) = chunk_of (w_len s).
Proof. unfold write_request. destruct (op =? ZXRIO_WRITE_AT); reflexivity. Qed.

(** When every transaction transfers its whole chunk, the write loop runs
    [ceil_div len FDIO_CHUNK_SIZE] transactions and counts [len] bytes. *)
Lemma write_loop_in_full (op : Z) (n : nat) :
  writes_in_full k ->
  forall (s : write_state) (t : trace),
    0 <= w_len s <= Z.of_nat n ->
    count_calls (snd (write_loop k op s t)) =
      count_calls t + ceil_div (w_len s) FDIO_CHUNK_SIZE
    /\ w_count (fst (write_loop k op s t)) = w_count s + w_len s
    /\ (w_len s = 0 -> fst (write_loop k op s t) = s).
Proof.
  intros [Hwf Hfull]. pose proof FDIO_CHUNK_SIZE_pos as Hc.
  induction n as [| n IH]; intros s t Hlen.
  - assert (H0 : w_len s = 0) by lia.
    rewrite write_loop_step, H0. cbn [Z.gtb Z.compare fst snd].
    rewrite ceil_div_0 by assumption. repeat split; lia.
  - destruct (Z.eq_dec (w_len s) 0) as [H0 | Hpos].
    + rewrite write_loop_step, H0. cbn [Z.gtb Z.compare fst snd].
      rewrite ceil_div_0 by assumption. repeat split; lia.
    + assert (Hl : 0 < w_len s) by lia.
      pose proof (chunk_of_bounds Hl) as [Hx Hxc].
      pose proof (Hfull t (rio_h (w_rio s))
                    (set_txid (rio_txid (w_rio s)) (write_request op s))
                    (to_uint32 (ZXRIO_HDR_SZ + m_datalen (write_request op s)))
                    (firstn (Z.to_nat (m_hcount (write_request op s)))
                       (m_handle (write_request op s)))) as Harg.
      fold (txn_answer k (w_rio s) (write_request op s) t) in Harg.
      change (m_datalen (set_txid _ (write_request op s)))
        with (m_datalen (write_request op s)) in Harg.
      rewrite write_request_datalen in Harg.
      pose proof (zxrio_txn_success (w_rio s) (write_request op s) t
                    (write_request_valid op s Hl) Hwf) as Htxn.
      cbv zeta in Htxn. rewrite Harg in Htxn.
      specialize (Htxn ltac:(lia)).
      rewrite (write_loop_full op s t ltac:(lia) Htxn eq_refl).
      match goal with
      | |- context [write_loop k op ?s1 ?t1] =>
          specialize (IH s1 t1); set (s' := s1) in *; set (t' := t1) in *
      end.
      assert (Hlen' : 0 <= w_len s' <= Z.of_nat n) by (subst s'; cbn; lia).
      destruct (IH Hlen') as (Hcalls & Hcount & _).
      rewrite Hcalls, Hcount. subst s' t'. cbn [w_len w_count].
      rewrite !count_calls_app, count_calls_closes.
      cbn [count_calls txn_event].
      split; [| split; [lia | intros; lia]].
      destruct (Z_le_gt_dec (w_len s) FDIO_CHUNK_SIZE) as [Hsmall | Hbig].
      * assert (Hch : chunk_of (w_len s) = w_len s).
        { unfold chunk_of.
          replace (w_len s >? FDIO_CHUNK_SIZE) with false; [reflexivity |].
          symmetry. rewrite Z.gtb_ltb. apply Z.ltb_ge. lia. }
        rewrite Hch, Z.sub_diag, ceil_div_0, ceil_div_last by lia. lia.
      * assert (Hch : chunk_of (w_len s) = FDIO_CHUNK_SIZE).
        { unfold chunk_of.
          replace (w_len s >? FDIO_CHUNK_SIZE) with true; [reflexivity |].
          symmetry. apply Z.gtb_lt. lia. }
        rewrite Hch, (ceil_div_next (w_len s)) by lia. lia.
Qed.

Lemma read_loop_step (op : Z) (s : read_state) (t : trace) :
  read_loop k op s t =
  if rd_len s >? 0 then
    match read_body k op s t with
    | (Break s', t') => (s', t')
    | (Continue s', t') => read_loop k op s' t'
    end
  else (s, t).
Proof.
  simp read_loop.
  destruct (inspect (rd_len s >? 0)) as [b Hb].
  match goal with
  | |- _ = (if _ then ?X else ?Y) =>
      transitivity (if b then X else Y); [| now rewrite Hb]
  end.
  destruct b; simp read_loop; [| reflexivity].
  destruct (inspect (read_body k op s t)) as [[c t'] Hc].
  match goal with
  | |- _ = (let (l, t0) := _ in @?F l t0) =>
      transitivity (F c t'); [| now rewrite Hc]
  end.
  destruct c; simp read_loop; reflexivity.
Qed.

(** One iteration of the read loop, by the status of its transaction. *)
Lemma read_body_run (op : Z) (s : read_state) (t : trace)
    (r : Z) (rio1 : zxrio_t) (msg1 : zxrio_msg_t) (t1 : trace) :
  zxrio_txn k (rd_rio s) (read_request op s) t = (r, rio1, msg1, t1) ->
  let xfer := chunk_of (rd_len s) in
  let t2 := t1 ++ map ev_handle_close
                    (firstn (Z.to_nat (m_hcount msg1)) (m_handle msg1)) in
  let data := memcpy (rd_data s) (m_data msg1) r in
  let s' := mk_read_state rio1 (rd_done s ++ firstn (Z.to_nat r) data)
              (skipn (Z.to_nat r) data) (rd_len s - r)
              (if op =? ZXRIO_READ_AT then rd_offset s + r else rd_offset s)
              (rd_count s + r) r in
  read_body k op s t =
    if r <? 0 then
      (Break (mk_read_state rio1 (rd_done s) (rd_data s) (rd_len s)
                (rd_offset s) (rd_count s) r), t1)
    else if (r >? to_int32 (m_datalen msg1)) || (r >? xfer) then
      (Break (mk_read_state rio1 (rd_done s) (rd_data s) (rd_len s)
                (rd_offset s) (rd_count s) ZX_ERR_IO), t2)
    else if r <? xfer then (Break s', t2)
    else (Continue s', t2).
Proof.
  intros Htxn. cbv zeta. unfold read_body.
  change (zxrio_txn k (rd_rio s) _) with
    (zxrio_txn k (rd_rio s) (read_request op s)).
  unfold bind at 1. rewrite Htxn.
  destruct (r <? 0); [reflexivity |].
  unfold bind. rewrite discard_handles_run. unfold ret, chunk_of.
  destruct ((r >? to_int32 (m_datalen msg1)) || (r >? _)); [reflexivity |].
  destruct (r <? _); reflexivity.
Qed.

Lemma read_loop_failure (op : Z) (s : read_state) (t : trace)
    (r : Z) (rio1 : zxrio_t) (msg1 : zxrio_msg_t) (t1 : trace) :
  rd_len s > 0 ->
  zxrio_txn k (rd_rio s) (read_request op s) t = (r, rio1, msg1, t1) ->
  r < 0 ->
  read_loop k op s t =
  (mk_read_state rio1 (rd_done s) (rd_data s) (rd_len s) (rd_offset s)
     (rd_count s) r, t1).
Proof.
  intros Hlen Htxn Hr. rewrite read_loop_step.
  replace (rd_len s >? 0) with true by (symmetry; apply Z.gtb_lt; lia).
  rewrite (read_body_run op s t Htxn). cbv zeta.
  replace (r <? 0) with true by (symmetry; apply Z.ltb_lt; lia).
  reflexivity.
Qed.

(** The test of [read_common] on the returned count, in terms of the
    unsigned payload length. *)
Lemma read_excess_test (r datalen xfer : Z) :
  0 <= r -> 0 <= datalen < 2 ^ 32 ->
  r > datalen \/ r > xfer ->
  (r >? to_int32 datalen) || (r >? xfer) = true.
Proof.
  intros Hr Hd [H | H].
  - apply orb_true_iff. left. apply Z.gtb_lt. unfold to_int32.
    rewrite Z.mod_small by lia. destruct (datalen <? 2 ^ 31); lia.
  - apply orb_true_iff. right. apply Z.gtb_lt. lia.
Qed.

Lemma read_loop_excess (op : Z) (s : read_state) (t : trace)
    (r : Z) (rio1 : zxrio_t) (msg1 : zxrio_msg_t) (t1 : trace) :
  rd_len s > 0 ->
  zxrio_txn k (rd_rio s) (read_request op s) t = (r, rio1, msg1, t1) ->
  0 <= r ->
  (r >? to_int32 (m_datalen msg1)) || (r >? chunk_of (rd_len s)) = true ->
  read_loop k op s t =
  (mk_read_state rio1 (rd_done s) (rd_data s) (rd_len s) (rd_offset s)
     (rd_count s) ZX_ERR_IO,
   t1 ++ map ev_handle_close
           (firstn (Z.to_nat (m_hcount msg1)) (m_handle msg1))).
Proof.
  intros Hlen Htxn Hr Hex. rewrite read_loop_step.
  replace (rd_len s >? 0) with true by (symmetry; apply Z.gtb_lt; lia).
  rewrite (read_body_run op s t Htxn). cbv zeta.
  replace (r <? 0) with false by (symmetry; apply Z.ltb_ge; lia).
  rewrite Hex. reflexivity.
Qed.

Lemma read_loop_short (op : Z) (s : read_state) (t : trace)
    (r : Z) (rio1 : zxrio_t) (msg1 : zxrio_msg_t) (t1 : trace) :
  rd_len s > 0 ->
  zxrio_txn k (rd_rio s) (read_request op s) t = (r, rio1, msg1, t1) ->
  0 <= r < chunk_of (rd_len s) ->
  r <= to_int32 (m_datalen msg1) ->
  let data := memcpy (rd_data s) (m_data msg1) r in
  read_loop k op s t =
  (mk_read_state rio1 (rd_done s ++ firstn (Z.to_nat r) data)
     (skipn (Z.to_nat r) data) (rd_len s - r)
     (if op =? ZXRIO_READ_AT then rd_offset s + r else rd_offset s)
     (rd_count s + r) r,
   t1 ++ map ev_handle_close
           (firstn (Z.to_nat (m_hcount msg1)) (m_handle msg1))).
Proof.
  intros Hlen Htxn Hr Hd. cbv zeta. rewrite read_loop_step.
  replace (rd_len s >? 0) with true by (symmetry; apply Z.gtb_lt; lia).
  rewrite (read_body_run op s t Htxn). cbv zeta.
  replace (r <? 0) with false by (symmetry; apply Z.ltb_ge; lia).
  replace (r >? to_int32 (m_datalen msg1)) with false
    by (symmetry; rewrite Z.gtb_ltb; apply Z.ltb_ge; lia).
  replace (r >? chunk_of (rd_len s)) with false
    by (symmetry; rewrite Z.gtb_ltb; apply Z.ltb_ge; lia).
  replace (r <? chunk_of (rd_len s)) with true by (symmetry; apply Z.ltb_lt; lia).
  reflexivity.
Qed.

Lemma read_loop_full (op : Z) (s : read_state) (t : trace)
    (r : Z) (rio1 : zxrio_t) (msg1 : zxrio_msg_t) (t1 : trace) :
  rd_len s > 0 ->
  zxrio_txn k (rd_rio s) (read_request op s) t = (r, rio1, msg1, t1) ->
  r = chunk_of (rd_len s) ->
  r <= to_int32 (m_datalen msg1) ->
  let data := memcpy (rd_data s) (m_data msg1) r in
  read_loop k op s t =
  read_loop k op
    (mk_read_state rio1 (rd_done s ++ firstn (Z.to_nat r) data)
       (skipn (Z.to_nat r) data) (rd_len s - r)
       (if op =? ZXRIO_READ_AT then rd_offset s + r else rd_offset s)
       (rd_count s + r) r)
    (t1 ++ map ev_handle_close
             (firstn (Z.to_nat (m_hcount msg1)) (m_handle msg1))).
Proof.
  intros Hlen Htxn Hr Hd. cbv zeta. rewrite read_loop_step.
  replace (rd_len s >? 0) with true by (symmetry; apply Z.gtb_lt; lia).
  rewrite (read_body_run op s t Htxn). cbv zeta.
  pose proof (@chunk_of_bounds (rd_len s) ltac:(lia)) as [Hc _].
  replace (r <? 0) with false by (symmetry; apply Z.ltb_ge; lia).
  replace (r >? to_int32 (m_datalen msg1)) with false
    by (symmetry; rewrite Z.gtb_ltb; apply Z.ltb_ge; lia).
  replace (r >? chunk_of (rd_len s)) with false
    by (symmetry; rewrite Z.gtb_ltb; apply Z.ltb_ge; lia).
  replace (r <? chunk_of (rd_len s)) with false by (symmetry; apply Z.ltb_ge; lia).
  reflexivity.
Qed.

Lemma read_request_valid (op : Z) (s : read_state) :
  is_message_valid (read_request op s) = true.
Proof.
  apply is_message_valid_true.
  pose proof FDIO_CHUNK_SIZE_pos. pose proof FDIO_MAX_HANDLES_nonneg.
  unfold read_request. destruct (op =? ZXRIO_READ_AT); cbn; lia.
Qed.

Lemma read_request_arg (op : Z) (s : read_state) :
  m_arg (read_request op s) = chunk_of (rd_len s).
Proof. unfold read_request. destruct (op =? ZXRIO_READ_AT); reflexivity. Qed.

(** When every transaction returns its whole chunk, the read loop runs
    [ceil_div len FDIO_CHUNK_SIZE] transactions and counts [len] bytes. *)
Lemma read_loop_in_full (op : Z) (n : nat) :
  reads_in_full k ->
  forall (s : read_state) (t : trace),
    0 <= rd_len s <= Z.of_nat n ->
    count_calls (snd (read_loop k op s t)) =
      count_calls t + ceil_div (rd_len s) FDIO_CHUNK_SIZE
    /\ rd_count (fst (read_loop k op s t)) = rd_count s + rd_len s
    /\ (rd_len s = 0 -> fst (read_loop k op s t) = s).
Proof.
  intros [Hwf Hfull]. pose proof FDIO_CHUNK_SIZE_pos as Hc.
  induction n as [| n IH]; intros s t Hlen.
  - assert (H0 : rd_len s = 0) by lia.
    rewrite read_loop_step, H0. cbn [Z.gtb Z.compare fst snd].
    rewrite ceil_div_0 by assumption. repeat split; lia.
  - destruct (Z.eq_dec (rd_len s) 0) as [H0 | Hpos].
    + rewrite read_loop_step, H0. cbn [Z.gtb Z.compare fst snd].
      rewrite ceil_div_0 by assumption. repeat split; lia.
    + assert (Hl : 0 < rd_len s) by lia.
      pose proof (chunk_of_bounds Hl) as [Hx Hxc].
      assert (Hreq : m_arg (set_txid (rio_txid (rd_rio s)) (read_request op s))
                     <= FDIO_CHUNK_SIZE).
      { change (m_arg (set_txid _ (read_request op s)))
          with (m_arg (read_request op s)).
        rewrite read_request_arg. lia. }
      pose proof (Hfull t (rio_h (rd_rio s))
                    (set_txid (rio_txid (rd_rio s)) (read_request op s))
                    (to_uint32 (ZXRIO_HDR_SZ + m_datalen (read_request op s)))
                    (firstn (Z.to_nat (m_hcount (read_request op s)))
                       (m_handle (read_request op s))) Hreq) as Harg.
      cbv zeta in Harg.
      fold (txn_answer k (rd_rio s) (read_request op s) t) in Harg.
      change (m_arg (set_txid _ (read_request op s)))
        with (m_arg (read_request op s)) in Harg.
      rewrite read_request_arg in Harg. destruct Harg as [Harg Hdl].
      pose proof (zxrio_txn_success (rd_rio s) (read_request op s) t
                    (read_request_valid op s) Hwf) as Htxn.
      cbv zeta in Htxn. rewrite Harg in Htxn.
      specialize (Htxn ltac:(lia)).
      rewrite (read_loop_full op s t ltac:(lia) Htxn eq_refl Hdl).
      match goal with
      | |- context [read_loop k op ?s1 ?t1] =>
          specialize (IH s1 t1); set (s' := s1) in *; set (t' := t1) in *
      end.
      assert (Hlen' : 0 <= rd_len s' <= Z.of_nat n) by (subst s'; cbn; lia).
      destruct (IH Hlen') as (Hcalls & Hcount & _).
      rewrite Hcalls, Hcount. subst s' t'. cbn [rd_len rd_count].
      rewrite !count_calls_app, count_calls_closes.
      cbn [count_calls txn_event].
      split; [| split; [lia | intros; lia]].
      destruct (Z_le_gt_dec (rd_len s) FDIO_CHUNK_SIZE) as [Hsmall | Hbig].
      * assert (Hch : chunk_of (rd_len s) = rd_len s).
        { unfold chunk_of.
          replace (rd_len s >? FDIO_CHUNK_SIZE) with false; [reflexivity |].
          symmetry. rewrite Z.gtb_ltb. apply Z.ltb_ge. lia. }
        rewrite Hch, Z.sub_diag, ceil_div_0, ceil_div_last by lia. lia.
      * assert (Hch : chunk_of (rd_len s) = FDIO_CHUNK_SIZE).
        { unfold chunk_of.
          replace (rd_len s >? FDIO_CHUNK_SIZE) with true; [reflexivity |].
          symmetry. apply Z.gtb_lt. lia. }
        rewrite Hch, (ceil_div_next (rd_len s)) by lia. lia.
Qed.

(** ** The transfers by their first transaction *)

Lemma write_loop_done (op : Z) (s : write_state) (t : trace) :
  w_len s <= 0 -> write_loop k op s t = (s, t).
Proof.
  intros Hle. rewrite write_loop_step.
  replace (w_len s >? 0) with false
    by (symmetry; rewrite Z.gtb_ltb; apply Z.ltb_ge; lia).
  reflexivity.
Qed.

Lemma read_loop_done (op : Z) (s : read_state) (t : trace) :
  rd_len s <= 0 -> read_loop k op s t = (s, t).
Proof.
  intros Hle. rewrite read_loop_step.
  replace (rd_len s >? 0) with false
    by (symmetry; rewrite Z.gtb_ltb; apply Z.ltb_ge; lia).
  reflexivity.
Qed.

(** The write loop started with [c] bytes counted and the status [r0]
    behaves as the loop started afresh, the count being carried along; and
    a loop started afresh that counts nothing ends with a status that is
    not positive. *)
Lemma write_loop_from_count (op : Z) (n : nat) :
  forall (rio : zxrio_t) (data : list byte) (len offset c r0 : Z) (t : trace),
    len <= Z.of_nat n ->
    let a := write_loop k op (mk_write_state rio data len offset 0 0) t in
    let b := write_loop k op (mk_write_state rio data len offset c r0) t in
    snd b = snd a
    /\ w_rio (fst b) = w_rio (fst a)
    /\ w_count (fst b) = c + w_count (fst a)
    /\ 0 <= w_count (fst a)
    /\ (0 < len -> w_r (fst b) = w_r (fst a))
    /\ (w_count (fst a) = 0 -> w_r (fst a) <= 0).
Proof.
  pose proof FDIO_CHUNK_SIZE_pos as Hc. pose proof ZX_ERR_IO_neg as Hio.
  induction n as [| n IH]; intros rio data len offset c r0 t Hlen; cbv zeta.
  - rewrite !write_loop_done by (cbn; lia). cbn. repeat split; lia.
  - destruct (Z_le_gt_dec len 0) as [Hle | Hpos].
    { rewrite !write_loop_done by (cbn; lia). cbn. repeat split; lia. }
    set (sa := mk_write_state rio data len offset 0 0).
    set (sb := mk_write_state rio data len offset c r0).
    pose proof (@chunk_of_bounds len ltac:(lia)) as [Hx Hxc].
    assert (Hla : w_len sa > 0) by (cbn; lia).
    assert (Hlb : w_len sb > 0) by (cbn; lia).
    destruct (zxrio_txn k (w_rio sa) (write_request op sa) t)
      as [[[r rio1] msg1] t1] eqn:Ha.
    assert (Hb : zxrio_txn k (w_rio sb) (write_request op sb) t
                 = (r, rio1, msg1, t1)) by exact Ha.
    destruct (Z_lt_ge_dec r 0) as [Hneg | Hnn].
    { rewrite (write_loop_failure op sa t Hla Ha Hneg),
        (write_loop_failure op sb t Hlb Hb Hneg).
      cbn. repeat split; lia. }
    destruct (Z_gt_le_dec r (chunk_of len)) as [Hex | Hle].
    { rewrite (write_loop_excess op sa t Hla Ha Hex),
        (write_loop_excess op sb t Hlb Hb Hex).
      cbn. repeat split; lia. }
    destruct (Z_lt_ge_dec r (chunk_of len)) as [Hshort | Hfull].
    { rewrite (write_loop_short op sa t Hla Ha ltac:(cbn; lia)),
        (write_loop_short op sb t Hlb Hb ltac:(cbn; lia)).
      cbn. repeat split; lia. }
    assert (Hr : r = chunk_of len) by lia.
    rewrite (write_loop_full op sa t Hla Ha Hr),
      (write_loop_full op sb t Hlb Hb Hr).
    subst sa sb. cbn [w_data w_len w_offset w_count].
    match goal with
    | |- context [write_loop k op (mk_write_state ?rio' ?data' ?len' ?off' _ _)
                    ?t2] =>
        pose proof (IH rio' data' len' off' (0 + r) r t2 ltac:(lia)) as IHa;
        pose proof (IH rio' data' len' off' (c + r) r t2 ltac:(lia)) as IHb;
        pose proof (write_loop_done op
                      (mk_write_state rio' data' len' off' (0 + r) r) t2)
          as Da;
        pose proof (write_loop_done op
                      (mk_write_state rio' data' len' off' (c + r) r) t2)
          as Db
    end.
    cbv zeta in IHa, IHb. cbn [w_len] in Da, Db.
    destruct IHa as (A1 & A2 & A3 & A4 & A5 & _).
    destruct IHb as (B1 & B2 & B3 & _ & B5 & _).
    split; [congruence |]. split; [congruence |].
    split; [lia |]. split; [lia |].
    split; [| lia].
    intros _. destruct (Z_le_gt_dec (len - r) 0) as [Hend | Hmore].
    + rewrite (Da Hend), (Db Hend). reflexivity.
    + rewrite A5, B5 by lia. reflexivity.
Qed.

(** [write_common] by what its first transaction returns.  A failure or a
    count above the chunk ends the transfer at once with that failure
    ([ZX_ERR_IO] for the count): no byte has been written.  A count below
    the chunk ends it with that count.  After a whole chunk the transfer
    goes on with the rest of the buffer, and its value is the chunk plus
    what the rest transfers, a failure of the rest counting for nothing. *)
Lemma write_common_first (op : Z) (rio : zxrio_t) (data : list byte)
    (len offset : Z) (t : trace)
    (r : Z) (rio1 : zxrio_t) (msg1 : zxrio_msg_t) (t1 : trace) :
  0 < len ->
  zxrio_txn k rio (write_request op (mk_write_state rio data len offset 0 0)) t
    = (r, rio1, msg1, t1) ->
  let t2 := t1 ++ map ev_handle_close
                    (firstn (Z.to_nat (m_hcount msg1)) (m_handle msg1)) in
  let rest := write_common k op rio1 (skipn (Z.to_nat r) data) (len - r)
                (if op =? ZXRIO_WRITE_AT then offset + r else offset) t2 in
  write_common k op rio data len offset t =
    if r <? 0 then (r, rio1, t1)
    else if r >? chunk_of len then (ZX_ERR_IO, rio1, t2)
    else if r <? chunk_of len then (r, rio1, t2)
    else (r + Z.max 0 (fst (fst rest)), snd (fst rest), snd rest).
Proof.
  intros Hlen Htxn. cbv zeta.
  set (s := mk_write_state rio data len offset 0 0) in *.
  assert (Hl : w_len s > 0) by (cbn; lia).
  pose proof (@chunk_of_bounds len ltac:(lia)) as [Hx Hxc].
  change (zxrio_txn k (w_rio s) (write_request op s) t = (r, rio1, msg1, t1))
    in Htxn.
  unfold write_common at 1. fold s.
  destruct (r <? 0) eqn:Hneg.
  { apply Z.ltb_lt in Hneg.
    rewrite (write_loop_failure op s t Hl Htxn Hneg). reflexivity. }
  apply Z.ltb_ge in Hneg.
  destruct (r >? chunk_of len) eqn:Hex.
  { apply Z.gtb_lt in Hex.
    rewrite (write_loop_excess op s t Hl Htxn ltac:(cbn; lia)). reflexivity. }
  rewrite Z.gtb_ltb in Hex. apply Z.ltb_ge in Hex.
  destruct (r <? chunk_of len) eqn:Hshort.
  { apply Z.ltb_lt in Hshort.
    rewrite (write_loop_short op s t Hl Htxn ltac:(cbn; lia)).
    subst s. unfold write_return. cbn [w_count w_r w_rio Z.add].
    destruct (r =? 0); reflexivity. }
  apply Z.ltb_ge in Hshort.
  assert (Hr : r = chunk_of (w_len s)) by (cbn; lia).
  rewrite (write_loop_full op s t Hl Htxn Hr).
  subst s. cbn [w_data w_len w_offset w_count Z.add].
  unfold write_common.
  match goal with
  | |- context [write_loop k op (mk_write_state ?rio' ?data' ?len' ?off' _ _)
                  ?t2] =>
      pose proof (@write_loop_from_count op (Z.to_nat len') rio' data' len'
                    off' r r t2 ltac:(lia)) as Hshift;
      pose proof (write_loop_done op
                    (mk_write_state rio' data' len' off' 0 0) t2) as Da;
      pose proof (write_loop_done op
                    (mk_write_state rio' data' len' off' r r) t2) as Db
  end.
  cbv zeta in Hshift. cbn [w_len] in Da, Db.
  destruct Hshift as (S1 & S2 & S3 & S4 & S5 & S6).
  destruct (write_loop k op (mk_write_state _ _ _ _ r r) _) as [sb tb].
  destruct (write_loop k op (mk_write_state _ _ _ _ 0 0) _) as [sa ta].
  cbn [fst snd] in *. subst tb. rewrite S2.
  f_equal. f_equal. unfold write_return. rewrite S3.
  replace (r + w_count sa =? 0) with false
    by (symmetry; apply Z.eqb_neq; cbn in Hr; lia).
  destruct (w_count sa =? 0) eqn:Hz.
  - apply Z.eqb_eq in Hz. specialize (S6 Hz). lia.
  - apply Z.eqb_neq in Hz. lia.
Qed.

(** The read loop started with [c] bytes counted, the status [r0] and the
    bytes [done] before the data pointer behaves as the loop started
    afresh at the data pointer. *)
Lemma read_loop_from_count (op : Z) (n : nat) :
  forall (rio : zxrio_t) (done data : list byte) (len offset c r0 : Z)
         (t : trace),
    len <= Z.of_nat n ->
    let a := read_loop k op (mk_read_state rio [] data len offset 0 0) t in
    let b := read_loop k op (mk_read_state rio done data len offset c r0) t in
    snd b = snd a
    /\ rd_rio (fst b) = rd_rio (fst a)
    /\ rd_done (fst b) = done ++ rd_done (fst a)
    /\ rd_data (fst b) = rd_data (fst a)
    /\ rd_count (fst b) = c + rd_count (fst a)
    /\ 0 <= rd_count (fst a)
    /\ (0 < len -> rd_r (fst b) = rd_r (fst a))
    /\ (rd_count (fst a) = 0 -> rd_r (fst a) <= 0).
Proof.
  pose proof FDIO_CHUNK_SIZE_pos as Hc. pose proof ZX_ERR_IO_neg as Hio.
  induction n as [| n IH]; intros rio done data len offset c r0 t Hlen;
    cbv zeta.
  - rewrite !read_loop_done by (cbn; lia). cbn. rewrite app_nil_r.
    repeat split; lia.
  - destruct (Z_le_gt_dec len 0) as [Hle | Hpos].
    { rewrite !read_loop_done by (cbn; lia). cbn. rewrite app_nil_r.
      repeat split; lia. }
    set (sa := mk_read_state rio [] data len offset 0 0).
    set (sb := mk_read_state rio done data len offset c r0).
    pose proof (@chunk_of_bounds len ltac:(lia)) as [Hx Hxc].
    assert (Hla : rd_len sa > 0) by (cbn; lia).
    assert (Hlb : rd_len sb > 0) by (cbn; lia).
    destruct (zxrio_txn k (rd_rio sa) (read_request op sa) t)
      as [[[r rio1] msg1] t1] eqn:Ha.
    assert (Hb : zxrio_txn k (rd_rio sb) (read_request op sb) t
                 = (r, rio1, msg1, t1)) by exact Ha.
    destruct (Z_lt_ge_dec r 0) as [Hneg | Hnn].
    { rewrite (read_loop_failure op sa t Hla Ha Hneg),
        (read_loop_failure op sb t Hlb Hb Hneg).
      cbn. rewrite app_nil_r. repeat split; lia. }
    destruct ((r >? to_int32 (m_datalen msg1)) || (r >? chunk_of len)) eqn:Hex.
    { rewrite (read_loop_excess op sa t Hla Ha ltac:(lia) Hex),
        (read_loop_excess op sb t Hlb Hb ltac:(lia) Hex).
      cbn. rewrite app_nil_r. repeat split; lia. }
    apply orb_false_elim in Hex as [Hd Hle].
    rewrite Z.gtb_ltb in Hd, Hle. apply Z.ltb_ge in Hd, Hle.
    destruct (Z_lt_ge_dec r (chunk_of len)) as [Hshort | Hfull].
    { rewrite (read_loop_short op sa t Hla Ha ltac:(cbn; lia) Hd),
        (read_loop_short op sb t Hlb Hb ltac:(cbn; lia) Hd).
      cbn. repeat split; lia. }
    assert (Hr : r = chunk_of len) by lia.
    rewrite (read_loop_full op sa t Hla Ha Hr Hd),
      (read_loop_full op sb t Hlb Hb Hr Hd).
    subst sa sb. cbn [rd_done rd_data rd_len rd_offset rd_count].
    match goal with
    | |- context [read_loop k op
                    (mk_read_state ?rio' (done ++ ?f) ?data' ?len' ?off' _ _)
                    ?t2] =>
        pose proof (IH rio' ([] ++ f) data' len' off' (0 + r) r t2 ltac:(lia))
          as IHa;
        pose proof (IH rio' (done ++ f) data' len' off' (c + r) r t2
                      ltac:(lia)) as IHb;
        pose proof (read_loop_done op
                      (mk_read_state rio' ([] ++ f) data' len' off' (0 + r) r)
                      t2) as Da;
        pose proof (read_loop_done op
                      (mk_read_state rio' (done ++ f) data' len' off' (c + r) r)
                      t2) as Db
    end.
    cbv zeta in IHa, IHb. cbn [rd_len] in Da, Db.
    destruct IHa as (A1 & A2 & A3 & A4 & A5 & A6 & A7 & _).
    destruct IHb as (B1 & B2 & B3 & B4 & B5 & _ & B7 & _).
    split; [congruence |]. split; [congruence |].
    split; [rewrite B3, A3, <- app_assoc; reflexivity |].
    split; [congruence |].
    split; [lia |]. split; [lia |].
    split; [| lia].
    intros _. destruct (Z_le_gt_dec (len - r) 0) as [Hend | Hmore].
    + rewrite (Da Hend), (Db Hend). reflexivity.
    + rewrite A7, B7 by lia. reflexivity.
Qed.

(** [read_common] by what its first transaction returns.  A failure, or a
    count above the payload of the reply or above the chunk, ends the
    transfer at once with that failure ([ZX_ERR_IO] for the count) and the
    buffer as it was.  A count below the chunk ends it with that count,
    that many bytes of the reply having been copied.  After a whole chunk
    the transfer goes on behind the bytes copied, and its value is the
    chunk plus what the rest transfers, a failure of the rest counting for
    nothing. *)
Lemma read_common_first (op : Z) (rio : zxrio_t) (data : list byte)
    (len offset : Z) (t : trace)
    (r : Z) (rio1 : zxrio_t) (msg1 : zxrio_msg_t) (t1 : trace) :
  0 < len ->
  zxrio_txn k rio (read_request op (mk_read_state rio [] data len offset 0 0)) t
    = (r, rio1, msg1, t1) ->
  let t2 := t1 ++ map ev_handle_close
                    (firstn (Z.to_nat (m_hcount msg1)) (m_handle msg1)) in
  let copied := memcpy data (m_data msg1) r in
  let rest := read_common k op rio1 (skipn (Z.to_nat r) copied) (len - r)
                (if op =? ZXRIO_READ_AT then offset + r else offset) t2 in
  read_common k op rio data len offset t =
    if r <? 0 then (r, rio1, data, t1)
    else if (r >? to_int32 (m_datalen msg1)) || (r >? chunk_of len)
    then (ZX_ERR_IO, rio1, data, t2)
    else if r <? chunk_of len then (r, rio1, copied, t2)
    else (r + Z.max 0 (fst (fst (fst rest))), snd (fst (fst rest)),
          firstn (Z.to_nat r) copied ++ snd (fst rest), snd rest).
Proof.
  intros Hlen Htxn. cbv zeta.
  set (s := mk_read_state rio [] data len offset 0 0) in *.
  assert (Hl : rd_len s > 0) by (cbn; lia).
  pose proof (@chunk_of_bounds len ltac:(lia)) as [Hx Hxc].
  change (zxrio_txn k (rd_rio s) (read_request op s) t = (r, rio1, msg1, t1))
    in Htxn.
  unfold read_common at 1. fold s.
  destruct (r <? 0) eqn:Hneg.
  { apply Z.ltb_lt in Hneg.
    rewrite (read_loop_failure op s t Hl Htxn Hneg). reflexivity. }
  apply Z.ltb_ge in Hneg.
  destruct ((r >? to_int32 (m_datalen msg1)) || (r >? chunk_of len)) eqn:Hex.
  { rewrite (read_loop_excess op s t Hl Htxn Hneg Hex). reflexivity. }
  apply orb_false_elim in Hex as [Hd Hle].
  rewrite Z.gtb_ltb in Hd, Hle. apply Z.ltb_ge in Hd, Hle.
  destruct (r <? chunk_of len) eqn:Hshort.
  { apply Z.ltb_lt in Hshort.
    rewrite (read_loop_short op s t Hl Htxn ltac:(cbn; lia) Hd).
    subst s. unfold read_return.
    cbn [rd_count rd_r rd_rio rd_done rd_data Z.add app].
    rewrite firstn_skipn.
    destruct (r =? 0); reflexivity. }
  apply Z.ltb_ge in Hshort.
  assert (Hr : r = chunk_of (rd_len s)) by (cbn; lia).
  rewrite (read_loop_full op s t Hl Htxn Hr Hd).
  subst s. cbn [rd_done rd_data rd_len rd_offset rd_count Z.add app].
  unfold read_common.
  match goal with
  | |- context [read_loop k op (mk_read_state ?rio' ?f ?data' ?len' ?off' r r)
                  ?t2] =>
      pose proof (@read_loop_from_count op (Z.to_nat len') rio' f data' len'
                    off' r r t2 ltac:(lia)) as Hshift
  end.
  cbv zeta in Hshift.
  destruct Hshift as (S1 & S2 & S3 & S4 & S5 & S6 & S7 & S8).
  destruct (read_loop k op (mk_read_state _ _ _ _ _ r r) _) as [sb tb].
  destruct (read_loop k op (mk_read_state _ [] _ _ _ 0 0) _) as [sa ta].
  cbn [fst snd] in *. subst tb. rewrite S2, S3, S4, <- app_assoc.
  f_equal. f_equal. f_equal. unfold read_return. rewrite S5.
  replace (r + rd_count sa =? 0) with false
    by (symmetry; apply Z.eqb_neq; cbn in Hr; lia).
  destruct (rd_count sa =? 0) eqn:Hz.
  - apply Z.eqb_eq in Hz. specialize (S8 Hz). lia.
  - apply Z.eqb_neq in Hz. lia.
Qed.

(** C5.  Chunked write and read, whatever the peer answers.
    - When every transaction transfers its whole chunk, [write_common] and
      [read_common] on [len] bytes issue [ceil_div len FDIO_CHUNK_SIZE]
      transactions and return [len].
    - [write_common] and [read_common] on [len > 0] bytes begin with one
      transaction on the first chunk, which decides how they go on.  When
      it fails, or transfers fewer bytes than were asked for, or reports
      more than that, the loop stops there: it stays the only transaction,
      nothing follows it but the close of the handles of its reply, and the
      value returned is the failure status, the short count, or
      [ZX_ERR_IO].  When it transfers its whole chunk, the transfer goes on
      as the transfer of the rest of the buffer does, and the value
      returned is the chunk plus what the rest transfers, where a rest that
      fails counts for nothing: the total of the bytes transferred so far
      is returned even if a later transaction failed.  For a read, the
      caller's buffer holds the bytes copied so far and is otherwise as it
      was.
    - In any iteration of either loop, with whatever count of bytes so
      far, a transaction that transfers less than the chunk asked for (a
      failure included) is the last one of the loop, and the value that
      [write_common] and [read_common] make of the final state is the
      number of bytes transferred so far when that is not zero, and
      otherwise the status of that transaction. *)
Theorem chunked_transfer_spec :
  (forall op rio data len offset t,
     writes_in_full k -> 0 <= len ->
     let out := write_common k op rio data len offset t in
     count_calls (snd out) = count_calls t + ceil_div len FDIO_CHUNK_SIZE
     /\ fst (fst out) = len)
  /\ (forall op rio data len offset t r rio1 msg1 t1,
        0 < len ->
        zxrio_txn k rio
          (write_request op (mk_write_state rio data len offset 0 0)) t
          = (r, rio1, msg1, t1) ->
        let out := write_common k op rio data len offset t in
        let t2 := t1 ++ map ev_handle_close
                          (firstn (Z.to_nat (m_hcount msg1)) (m_handle msg1)) in
        let rest := write_common k op rio1 (skipn (Z.to_nat r) data) (len - r)
                      (if op =? ZXRIO_WRITE_AT then offset + r else offset)
                      t2 in
        count_calls t2 = count_calls t + 1
        /\ (r < chunk_of len ->
            count_calls (snd out) = count_calls t + 1
            /\ out = (r, rio1, if r <? 0 then t1 else t2))
        /\ (r > chunk_of len -> out = (ZX_ERR_IO, rio1, t2))
        /\ (r = chunk_of len ->
            out = (r + Z.max 0 (fst (fst rest)), snd (fst rest), snd rest)))
  /\ (forall op s t r rio1 msg1 t1,
        w_len s > 0 ->
        zxrio_txn k (w_rio s) (write_request op s) t = (r, rio1, msg1, t1) ->
        r < chunk_of (w_len s) ->
        let out := write_loop k op s t in
        let total := w_count s + (if r <? 0 then 0 else r) in
        count_calls (snd out) = count_calls t1
        /\ write_return (fst out) = if total =? 0 then r else total)
  /\ (forall op rio data len offset t,
        reads_in_full k -> 0 <= len ->
        let out := read_common k op rio data len offset t in
        count_calls (snd out) = count_calls t + ceil_div len FDIO_CHUNK_SIZE
        /\ fst (fst (fst out)) = len)
  /\ (forall op rio data len offset t r rio1 msg1 t1,
        0 < len ->
        zxrio_txn k rio
          (read_request op (mk_read_state rio [] data len offset 0 0)) t
          = (r, rio1, msg1, t1) ->
        let out := read_common k op rio data len offset t in
        let t2 := t1 ++ map ev_handle_close
                          (firstn (Z.to_nat (m_hcount msg1)) (m_handle msg1)) in
        let copied := memcpy data (m_data msg1) r in
        let rest := read_common k op rio1 (skipn (Z.to_nat r) copied) (len - r)
                      (if op =? ZXRIO_READ_AT then offset + r else offset)
                      t2 in
        count_calls t2 = count_calls t + 1
        /\ (r < 0 ->
            count_calls (snd out) = count_calls t + 1
            /\ out = (r, rio1, data, t1))
        /\ (0 <= r < chunk_of len -> r <= to_int32 (m_datalen msg1) ->
            count_calls (snd out) = count_calls t + 1
            /\ out = (r, rio1, copied, t2))
        /\ (0 <= r -> r > to_int32 (m_datalen msg1) \/ r > chunk_of len ->
            out = (ZX_ERR_IO, rio1, data, t2))
        /\ (r = chunk_of len -> r <= to_int32 (m_datalen msg1) ->
            out = (r + Z.max 0 (fst (fst (fst rest))), snd (fst (fst rest)),
                   firstn (Z.to_nat r) copied ++ snd (fst rest), snd rest)))
  /\ (forall op s t r rio1 msg1 t1,
        rd_len s > 0 ->
        zxrio_txn k (rd_rio s) (read_request op s) t = (r, rio1, msg1, t1) ->
        r < chunk_of (rd_len s) ->
        (0 <= r -> r <= to_int32 (m_datalen msg1)) ->
        let out := read_loop k op s t in
        let total := rd_count s + (if r <? 0 then 0 else r) in
        count_calls (snd out) = count_calls t1
        /\ read_return (fst out) = if total =? 0 then r else total).
Proof.
  split; [| split; [| split; [| split; [| split]]]].
  - intros op rio data len offset t Hfull Hlen. cbv zeta. unfold write_common.
    assert (Hb : 0 <= len <= Z.of_nat (Z.to_nat len)) by lia.
    destruct (write_loop_in_full op (Z.to_nat len) Hfull
                (mk_write_state rio data len offset 0 0) t Hb)
      as (Hc & Hn & Hz).
    cbn [w_len w_count] in Hc, Hn, Hz.
    destruct (write_loop k op _ t) as [s' t']. cbn [fst snd] in *.
    split; [exact Hc |].
    unfold write_return. rewrite Hn. cbn [Z.add].
    destruct (Z.eq_dec len 0) as [-> | Hne].
    + rewrite (Hz eq_refl). reflexivity.
    + replace (len =? 0) with false by (symmetry; apply Z.eqb_neq; lia).
      reflexivity.
  - intros op rio data len offset t r rio1 msg1 t1 Hlen Htxn. cbv zeta.
    pose proof (@write_common_first op rio data len offset t r rio1 msg1 t1
                  Hlen Htxn) as Hw.
    cbv zeta in Hw.
    pose proof (zxrio_txn_one_call rio _ t
                  (write_request_valid op
                     (mk_write_state rio data len offset 0 0) Hlen)) as Hone.
    rewrite Htxn in Hone. cbn [snd] in Hone.
    pose proof (@chunk_of_bounds len Hlen) as [Hx _].
    assert (Hone2 : count_calls
                      (t1 ++ map ev_handle_close
                               (firstn (Z.to_nat (m_hcount msg1))
                                  (m_handle msg1)))
                    = count_calls t + 1)
      by (rewrite count_calls_app, count_calls_closes; lia).
    split; [exact Hone2 |].
    split; [| split].
    + intros Hr. rewrite Hw.
      replace (r <? chunk_of len) with true by (symmetry; apply Z.ltb_lt; lia).
      replace (r >? chunk_of len) with false
        by (symmetry; rewrite Z.gtb_ltb; apply Z.ltb_ge; lia).
      destruct (r <? 0); cbn [snd]; split; auto.
    + intros Hr. rewrite Hw.
      replace (r <? 0) with false by (symmetry; apply Z.ltb_ge; lia).
      replace (r >? chunk_of len) with true by (symmetry; apply Z.gtb_lt; lia).
      reflexivity.
    + intros Hr. rewrite Hw.
      replace (r <? 0) with false by (symmetry; apply Z.ltb_ge; lia).
      replace (r >? chunk_of len) with false
        by (symmetry; rewrite Z.gtb_ltb; apply Z.ltb_ge; lia).
      replace (r <? chunk_of len) with false by (symmetry; apply Z.ltb_ge; lia).
      reflexivity.
  - intros op s t r rio1 msg1 t1 Hlen Htxn Hr. cbv zeta.
    destruct (Z_lt_ge_dec r 0) as [Hneg | Hpos].
    + rewrite (write_loop_failure op s t Hlen Htxn Hneg). cbn [fst snd].
      replace (r <? 0) with true by (symmetry; apply Z.ltb_lt; lia).
      unfold write_return. cbn [w_count w_r]. now rewrite Z.add_0_r.
    + rewrite (write_loop_short op s t Hlen Htxn ltac:(lia)). cbn [fst snd].
      replace (r <? 0) with false by (symmetry; apply Z.ltb_ge; lia).
      rewrite count_calls_app, count_calls_closes, Z.add_0_r.
      split; reflexivity.
  - intros op rio data len offset t Hfull Hlen. cbv zeta. unfold read_common.
    assert (Hb : 0 <= len <= Z.of_nat (Z.to_nat len)) by lia.
    destruct (read_loop_in_full op (Z.to_nat len) Hfull
                (mk_read_state rio [] data len offset 0 0) t Hb)
      as (Hc & Hn & Hz).
    cbn [rd_len rd_count] in Hc, Hn, Hz.
    destruct (read_loop k op _ t) as [s' t']. cbn [fst snd] in *.
    split; [exact Hc |].
    unfold read_return. rewrite Hn. cbn [Z.add].
    destruct (Z.eq_dec len 0) as [-> | Hne].
    + rewrite (Hz eq_refl). reflexivity.
    + replace (len =? 0) with false by (symmetry; apply Z.eqb_neq; lia).
      reflexivity.
  - intros op rio data len offset t r rio1 msg1 t1 Hlen Htxn. cbv zeta.
    pose proof (@read_common_first op rio data len offset t r rio1 msg1 t1
                  Hlen Htxn) as Hw.
    cbv zeta in Hw.
    pose proof (zxrio_txn_one_call rio _ t
                  (read_request_valid op
                     (mk_read_state rio [] data len offset 0 0))) as Hone.
    rewrite Htxn in Hone. cbn [snd] in Hone.
    pose proof (@chunk_of_bounds len Hlen) as [Hx _].
    assert (Hone2 : count_calls
                      (t1 ++ map ev_handle_close
                               (firstn (Z.to_nat (m_hcount msg1))
                                  (m_handle msg1)))
                    = count_calls t + 1)
      by (rewrite count_calls_app, count_calls_closes; lia).
    split; [exact Hone2 |].
    split; [| split; [| split]].
    + intros Hr. rewrite Hw.
      replace (r <? 0) with true by (symmetry; apply Z.ltb_lt; lia).
      cbn [snd]. split; auto.
    + intros Hr Hd. rewrite Hw.
      replace (r <? 0) with false by (symmetry; apply Z.ltb_ge; lia).
      replace (r >? to_int32 (m_datalen msg1)) with false
        by (symmetry; rewrite Z.gtb_ltb; apply Z.ltb_ge; lia).
      replace (r >? chunk_of len) with false
        by (symmetry; rewrite Z.gtb_ltb; apply Z.ltb_ge; lia).
      replace (r <? chunk_of len) with true by (symmetry; apply Z.ltb_lt; lia).
      cbn [orb snd]. split; auto.
    + intros Hr Hex. rewrite Hw.
      replace (r <? 0) with false by (symmetry; apply Z.ltb_ge; lia).
      replace ((r >? to_int32 (m_datalen msg1)) || (r >? chunk_of len))
        with true; [reflexivity |].
      symmetry. apply orb_true_iff.
      destruct Hex as [H | H]; [left | right]; apply Z.gtb_lt; lia.
    + intros Hr Hd. rewrite Hw.
      replace (r <? 0) with false by (symmetry; apply Z.ltb_ge; lia).
      replace (r >? to_int32 (m_datalen msg1)) with false
        by (symmetry; rewrite Z.gtb_ltb; apply Z.ltb_ge; lia).
      replace (r >? chunk_of len) with false
        by (symmetry; rewrite Z.gtb_ltb; apply Z.ltb_ge; lia).
      replace (r <? chunk_of len) with false by (symmetry; apply Z.ltb_ge; lia).
      reflexivity.
  - intros op s t r rio1 msg1 t1 Hlen Htxn Hr Hd. cbv zeta.
    destruct (Z_lt_ge_dec r 0) as [Hneg | Hpos].
    + rewrite (read_loop_failure op s t Hlen Htxn Hneg). cbn [fst snd].
      replace (r <? 0) with true by (symmetry; apply Z.ltb_lt; lia).
      unfold read_return. cbn [rd_count rd_r]. now rewrite Z.add_0_r.
    + rewrite (read_loop_short op s t Hlen Htxn ltac:(lia) ltac:(apply Hd; lia)).
      cbn [fst snd].
      replace (r <? 0) with false by (symmetry; apply Z.ltb_ge; lia).
      rewrite count_calls_app, count_calls_closes, Z.add_0_r.
      split; reflexivity.
Qed.

(** C10.  In any iteration of the read loop:
    - if the count returned by the transaction exceeds the payload length of
      the reply or the number of bytes asked for, that transaction is the
      last one, nothing is copied, and the value returned is the number of
      bytes read so far when that is not zero and [ZX_ERR_IO] otherwise;
    - whatever the transaction returns, the iteration copies at most the
      number of bytes asked for from the reply payload to the caller's
      buffer, at the position of the data pointer. *)
Theorem read_common_checks_count :
  (forall op s t r rio1 msg1 t1,
     rd_len s > 0 ->
     zxrio_txn k (rd_rio s) (read_request op s) t = (r, rio1, msg1, t1) ->
     0 <= r -> 0 <= m_datalen msg1 < 2 ^ 32 ->
     r > m_datalen msg1 \/ r > chunk_of (rd_len s) ->
     let out := read_loop k op s t in
     count_calls (snd out) = count_calls t1
     /\ rd_done (fst out) ++ rd_data (fst out) = rd_done s ++ rd_data s
     /\ read_return (fst out) =
        if rd_count s =? 0 then ZX_ERR_IO else rd_count s)
  /\ (forall op s t r rio1 msg1 t1,
        rd_len s > 0 ->
        zxrio_txn k (rd_rio s) (read_request op s) t = (r, rio1, msg1, t1) ->
        let s' := state_of (fst (read_body k op s t)) in
        exists n,
          0 <= n <= chunk_of (rd_len s)
          /\ rd_count s' = rd_count s + n
          /\ rd_done s' ++ rd_data s' =
             rd_done s ++ memcpy (rd_data s) (m_data msg1) n).
Proof.
  split.
  - intros op s t r rio1 msg1 t1 Hlen Htxn Hr Hd Hex. cbv zeta.
    rewrite (read_loop_excess op s t Hlen Htxn Hr
               (read_excess_test Hr Hd Hex)).
    cbn [fst snd rd_done rd_data].
    rewrite count_calls_app, count_calls_closes, Z.add_0_r.
    repeat split.
  - intros op s t r rio1 msg1 t1 Hlen Htxn. cbv zeta.
    rewrite (read_body_run op s t Htxn). cbv zeta.
    pose proof (@chunk_of_bounds (rd_len s) ltac:(lia)) as [Hc _].
    assert (Hnone : rd_done s ++ rd_data s =
                    rd_done s ++ memcpy (rd_data s) (m_data msg1) 0)
      by reflexivity.
    destruct (r <? 0) eqn:Hneg.
    { exists 0. cbn [fst state_of rd_count rd_done rd_data].
      split; [lia | split; [lia | exact Hnone]]. }
    destruct ((r >? to_int32 (m_datalen msg1)) || (r >? chunk_of (rd_len s)))
      eqn:Hex.
    { exists 0. cbn [fst state_of rd_count rd_done rd_data].
      split; [lia | split; [lia | exact Hnone]]. }
    apply orb_false_elim in Hex as [_ Hex].
    rewrite Z.gtb_ltb in Hex. apply Z.ltb_ge in Hex. apply Z.ltb_ge in Hneg.
    exists r.
    destruct (r <? chunk_of (rd_len s));
      cbn [fst state_of rd_count rd_done rd_data];
      rewrite <- app_assoc, firstn_skipn;
      (split; [lia | split; reflexivity]).
Qed.

(** ** Ioctl *)

(** What [zxrio_ioctl] does for a "get two handles" ioctl whose reply
    carries one handle: after the payload and the handle are copied, the
    last write to the output buffer zero-fills its first handle slot, not
    its second.  Nothing is closed. *)
Lemma zxrio_ioctl_two_handles_one_received (rio : zxrio_t) (op : Z)
    (in_buf : list byte) (in_len : Z) (out_buf : list byte) (out_len : Z)
    (t : trace) (r : Z) (rio1 : zxrio_t) (msg1 : zxrio_msg_t) (t1 : trace) :
  in_len <= FDIO_IOCTL_MAX_INPUT ->
  2 * sizeof_zx_handle_t <= out_len <= FDIO_CHUNK_SIZE ->
  IOCTL_KIND op = IOCTL_KIND_GET_TWO_HANDLES ->
  zxrio_txn k rio (ioctl_request op in_buf in_len out_len) t
    = (r, rio1, msg1, t1) ->
  0 <= r ->
  m_hcount msg1 = 1 ->
  exists filled,
    zxrio_ioctl k rio op in_buf in_len out_buf out_len t =
    (r, rio1, memset0 filled sizeof_zx_handle_t, t1).
Proof.
  intros Hin Hout Hkind Htxn Hr Hh.
  assert (Hne : IOCTL_KIND_GET_TWO_HANDLES <> IOCTL_KIND_GET_HANDLE).
  { pose proof ioctl_kinds_distinct as Hd. inversion Hd as [| ? ? Hnotin _].
    intros Heq. apply Hnotin. left. now symmetry. }
  unfold zxrio_ioctl.
  replace (in_len >? FDIO_IOCTL_MAX_INPUT) with false
    by (symmetry; rewrite Z.gtb_ltb; apply Z.ltb_ge; lia).
  replace (out_len >? FDIO_CHUNK_SIZE) with false
    by (symmetry; rewrite Z.gtb_ltb; apply Z.ltb_ge; lia).
  cbn [orb]. rewrite Hkind.
  replace (IOCTL_KIND_GET_TWO_HANDLES =? IOCTL_KIND_GET_HANDLE) with false
    by (symmetry; now apply Z.eqb_neq).
  rewrite Z.eqb_refl.
  replace (out_len <? 2 * sizeof_zx_handle_t) with false
    by (symmetry; apply Z.ltb_ge; lia).
  change (zxrio_txn k rio _) with
    (zxrio_txn k rio (ioctl_request op in_buf in_len out_len)).
  unfold bind at 1. rewrite Htxn.
  replace (r <? 0) with false by (symmetry; apply Z.ltb_ge; lia).
  rewrite Hh. cbn [Z.gtb Z.compare Pos.compare Pos.compare_cont Z.eqb negb
                   Z.ltb Z.sub Z.opp Z.add Z.pos_sub Pos.pred_double].
  unfold bind. rewrite discard_handles_run. unfold ret.
  change (Z.to_nat (to_uint32 0)) with 0%nat.
  cbn [firstn map]. rewrite app_nil_r.
  eexists. reflexivity.
Qed.

End Properties.

(** C9 at its failing input.  A "get two handles" ioctl with an output
    buffer of eight bytes, answered by a successful reply with no payload
    and the single handle 77, succeeds with the first handle slot of the
    output zeroed and the second as the caller left it; the handle received
    is neither stored nor closed. *)
Theorem zxrio_ioctl_get_two_handles_failing_input :
  let k := replying_kernel (fun _ => 0) (fun _ => []) [77] in
  let out :=
    zxrio_ioctl k (mk_rio 5 0 1) 2097152 [] 0 [1; 1; 1; 1; 2; 2; 2; 2] 8 [] in
  IOCTL_KIND 2097152 = IOCTL_KIND_GET_TWO_HANDLES
  /\ fst (fst (fst out)) = 0
  /\ snd (fst out) = [0; 0; 0; 0; 2; 2; 2; 2]
  /\ snd (fst out) <> le32 77 ++ [0; 0; 0; 0]
  /\ closed_handles (snd out) = [].
Proof.
  vm_compute. repeat split. discriminate.
Qed.

(** * The theorems at concrete inputs *)


(** C6 on a connection with handles 5 and 6: the first close closes 5 and
    6, the second only passes 0 to [zx_handle_close]. *)
Lemma zxrio_close_twice_witness :
  let k := replying_kernel (fun _ => 0) (fun _ => []) [] in
  let rio := mk_rio 5 6 1 in
  let first := zxrio_close k rio [] in
  0 <= rio_h2 rio
  /\ closed_handles (snd first) = [5; 6]
  /\ closed_handles (snd (zxrio_close k (snd (fst first)) (snd first)))
     = [5; 6; 0].
Proof.
  cbv zeta.
  assert (Hu : 0 <= rio_h2 (mk_rio 5 6 1)) by (cbn; lia).
  split; [exact Hu |].
  destruct (@zxrio_close_twice zircon
              (replying_kernel (fun _ => 0) (fun _ => []) [])
              (mk_rio 5 6 1) [] Hu) as [(_ & _ & H1) (_ & _ & H2)].
  split.
  - rewrite H1. reflexivity.
  - rewrite H2, H1. reflexivity.
Defined.

(** C8 on the path ["foo"] without the describe flag: one message, no
    close, status [ZX_OK]. *)
Lemma zxrio_connect_consumes_cnxn_witness :
  let k := replying_kernel (fun _ => 0) (fun _ => []) [] in
  fst (zxrio_connect k 3 9 259 0 0 [102; 111; 111; 0] []) = ZX_OK.
Proof.
  cbv zeta.
  destruct (@zxrio_connect_consumes_cnxn zircon
              (replying_kernel (fun _ => 0) (fun _ => []) [])
              3 9 259 0 0 [102; 111; 111; 0] [])
    as (new & _ & _ & _ & _ & H).
  destruct H as (msg & nbytes & _ & _ & Hok).
  - vm_compute. reflexivity.
  - reflexivity.
  - apply Hok. vm_compute. discriminate.
Defined.

(** C7 on a reply whose op is [ZXRIO_STATUS] and which carries the handle
    55: [ZX_ERR_IO], and the handles 55 and 100 (the local endpoint) are
    closed. *)
Lemma zxrio_sync_open_connection_bad_reply_witness :
  let k := describing_kernel (mk_info ZXRIO_STATUS ZX_OK 0 0)
             sizeof_zxrio_describe_t [55] in
  let res := zxrio_sync_open_connection k 3 msg_zero_header
               (mk_info 0 0 0 0) 0 [] in
  fst (fst (fst (fst res))) = ZX_ERR_IO
  /\ closed_handles (snd res) = [55; 100].
Proof.
  cbv zeta.
  destruct (@zxrio_sync_open_connection_bad_reply zircon
              (describing_kernel (mk_info ZXRIO_STATUS ZX_OK 0 0)
                 sizeof_zxrio_describe_t [55])
              3 msg_zero_header (mk_info 0 0 0 0) 0 []) as [_ H].
  - vm_compute. discriminate.
  - vm_compute. discriminate.
  - reflexivity.
  - destruct H as (Hr & _ & Ht).
    + right. vm_compute. discriminate.
    + split; [exact Hr |]. rewrite Ht. reflexivity.
Defined.

(** C5 on concrete transfers.  Three bytes against a peer that takes or
    gives everything: one transaction, and the value is 3.  Three bytes
    against a peer that transfers one byte: one transaction, and the value
    is 1.  A chunk and three bytes against a peer that transfers the chunk
    and fails on what follows: the value is the chunk.  An iteration that
    starts with five bytes counted and transfers one byte: the value is
    6. *)
Lemma chunked_transfer_spec_witness :
  let rio := mk_rio 5 0 1 in
  let full_w := replying_kernel (fun m => m_datalen m) (fun _ => []) [] in
  let full_r :=
    replying_kernel (fun m => m_arg m) (fun _ => repeat 7 (Z.to_nat 8192)) [] in
  let short_w := replying_kernel (fun _ => 1) (fun _ => []) [] in
  let short_r := replying_kernel (fun _ => 1) (fun _ => [7]) [] in
  let failing_w :=
    replying_kernel (fun m => if m_datalen m =? 8192 then 8192 else -7)
      (fun _ => []) [] in
  let failing_r :=
    replying_kernel (fun m => if m_arg m =? 8192 then 8192 else -7)
      (fun _ => repeat 7 (Z.to_nat 8192)) [] in
  (fst (fst (write_common full_w ZXRIO_WRITE rio [1; 2; 3] 3 0 [])) = 3
   /\ count_calls (snd (write_common full_w ZXRIO_WRITE rio [1; 2; 3] 3 0 []))
      = 1)
  /\ (fst (fst (write_common short_w ZXRIO_WRITE rio [1; 2; 3] 3 0 [])) = 1
      /\ count_calls
           (snd (write_common short_w ZXRIO_WRITE rio [1; 2; 3] 3 0 [])) = 1)
  /\ fst (fst (write_common failing_w ZXRIO_WRITE rio [] 8195 0 [])) = 8192
  /\ (fst (fst (fst (read_common full_r ZXRIO_READ rio [0; 0; 0] 3 0 []))) = 3
      /\ count_calls (snd (read_common full_r ZXRIO_READ rio [0; 0; 0] 3 0 []))
         = 1)
  /\ (fst (fst (fst (read_common short_r ZXRIO_READ rio [0; 0; 0] 3 0 []))) = 1
      /\ snd (fst (read_common short_r ZXRIO_READ rio [0; 0; 0] 3 0 []))
         = [7; 0; 0])
  /\ fst (fst (fst (read_common failing_r ZXRIO_READ rio [] 8195 0 []))) = 8192
  /\ write_return
       (fst (write_loop short_w ZXRIO_WRITE
               (mk_write_state rio [1; 2; 3] 3 0 5 0) [])) = 6
  /\ read_return
       (fst (read_loop short_r ZXRIO_READ
               (mk_read_state rio [] [0; 0; 0] 3 0 5 0) [])) = 6.
Proof.
  cbv zeta.
  split; [| split; [| split; [| split; [| split; [| split; [| split]]]]]].
  - destruct (@chunked_transfer_spec zircon
                (replying_kernel (fun m => m_datalen m) (fun _ => []) []))
      as (Hfull & _).
    destruct (Hfull ZXRIO_WRITE (mk_rio 5 0 1) [1; 2; 3] 3 0 []) as [Hc Hr].
    + split; [| reflexivity]. intros t h msg n hs. repeat split.
    + lia.
    + split; [exact Hr |]. rewrite Hc. reflexivity.
  - destruct (@chunked_transfer_spec zircon
                (replying_kernel (fun _ => 1) (fun _ => []) []))
      as (_ & Hfirst & _).
    edestruct (Hfirst ZXRIO_WRITE (mk_rio 5 0 1) [1; 2; 3] 3 0 [])
      as (_ & Hshort & _).
    + lia.
    + lazy. reflexivity.
    + destruct Hshort as [Hc Hout]; [vm_compute; reflexivity |].
      split; [rewrite Hout; reflexivity | rewrite Hc; reflexivity].
  - destruct (@chunked_transfer_spec zircon
                (replying_kernel
                   (fun m => if m_datalen m =? 8192 then 8192 else -7)
                   (fun _ => []) []))
      as (_ & Hfirst & _).
    edestruct (Hfirst ZXRIO_WRITE (mk_rio 5 0 1) [] 8195 0 [])
      as (_ & _ & _ & Hchunk).
    + lia.
    + lazy. reflexivity.
    + rewrite Hchunk by (vm_compute; reflexivity). vm_compute. reflexivity.
  - destruct (@chunked_transfer_spec zircon
                (replying_kernel (fun m => m_arg m)
                   (fun _ => repeat 7 (Z.to_nat 8192)) []))
      as (_ & _ & _ & Hfull & _).
    destruct (Hfull ZXRIO_READ (mk_rio 5 0 1) [0; 0; 0] 3 0 []) as [Hc Hr].
    + split.
      * intros t h msg n hs. repeat split.
      * intros t h msg n hs Hle. split; [reflexivity |].
        change (m_arg msg <= 8192). exact Hle.
    + lia.
    + split; [exact Hr |]. rewrite Hc. reflexivity.
  - destruct (@chunked_transfer_spec zircon
                (replying_kernel (fun _ => 1) (fun _ => [7]) []))
      as (_ & _ & _ & _ & Hfirst & _).
    edestruct (Hfirst ZXRIO_READ (mk_rio 5 0 1) [0; 0; 0] 3 0 [])
      as (_ & _ & Hshort & _).
    + lia.
    + lazy. reflexivity.
    + destruct Hshort as [_ Hout];
        [vm_compute; split; [discriminate | reflexivity]
        | vm_compute; discriminate |].
      rewrite Hout. split; reflexivity.
  - destruct (@chunked_transfer_spec zircon
                (replying_kernel
                   (fun m => if m_arg m =? 8192 then 8192 else -7)
                   (fun _ => repeat 7 (Z.to_nat 8192)) []))
      as (_ & _ & _ & _ & Hfirst & _).
    edestruct (Hfirst ZXRIO_READ (mk_rio 5 0 1) [] 8195 0 [])
      as (_ & _ & _ & _ & Hchunk).
    + lia.
    + lazy. reflexivity.
    + rewrite Hchunk by (vm_compute; first [reflexivity | discriminate]).
      vm_compute. reflexivity.
  - destruct (@chunked_transfer_spec zircon
                (replying_kernel (fun _ => 1) (fun _ => []) []))
      as (_ & _ & Hstop & _).
    edestruct (Hstop ZXRIO_WRITE (mk_write_state (mk_rio 5 0 1) [1; 2; 3] 3 0 5 0)
                 []) as [_ Hr].
    + cbn. lia.
    + lazy. reflexivity.
    + vm_compute. reflexivity.
    + rewrite Hr. reflexivity.
  - destruct (@chunked_transfer_spec zircon
                (replying_kernel (fun _ => 1) (fun _ => [7]) []))
      as (_ & _ & _ & _ & _ & Hstop).
    edestruct (Hstop ZXRIO_READ (mk_read_state (mk_rio 5 0 1) [] [0; 0; 0] 3 0 5 0)
                 []) as [_ Hr].
    + cbn. lia.
    + lazy. reflexivity.
    + vm_compute. reflexivity.
    + intros _. vm_compute. discriminate.
    + rewrite Hr. reflexivity.
Defined.

(** C10 on a reply that claims five bytes for a request of three and
    carries no payload: the loop ends with [ZX_ERR_IO] and the buffer as it
    was. *)
Lemma read_common_checks_count_witness :
  let k := replying_kernel (fun _ => 5) (fun _ => []) [] in
  let s := mk_read_state (mk_rio 5 0 1) [] [0; 0; 0] 3 0 0 0 in
  read_return (fst (read_loop k ZXRIO_READ s [])) = ZX_ERR_IO
  /\ rd_done (fst (read_loop k ZXRIO_READ s []))
       ++ rd_data (fst (read_loop k ZXRIO_READ s [])) = [0; 0; 0]
  /\ rd_count (state_of (fst (read_body k ZXRIO_READ s []))) <= 3.
Proof.
  cbv zeta.
  destruct (@read_common_checks_count zircon
              (replying_kernel (fun _ => 5) (fun _ => []) []))
    as (Hexcess & Hcopy).
  split; [| split].
  - edestruct (Hexcess ZXRIO_READ
                 (mk_read_state (mk_rio 5 0 1) [] [0; 0; 0] 3 0 0 0) [])
      as (_ & _ & Hr).
    + cbn. lia.
    + lazy. reflexivity.
    + vm_compute. discriminate.
    + vm_compute. split; [discriminate | reflexivity].
    + left. vm_compute. reflexivity.
    + rewrite Hr. reflexivity.
  - edestruct (Hexcess ZXRIO_READ
                 (mk_read_state (mk_rio 5 0 1) [] [0; 0; 0] 3 0 0 0) [])
      as (_ & Hb & _).
    + cbn. lia.
    + lazy. reflexivity.
    + vm_compute. discriminate.
    + vm_compute. split; [discriminate | reflexivity].
    + left. vm_compute. reflexivity.
    + rewrite Hb. reflexivity.
  - edestruct (Hcopy ZXRIO_READ
                 (mk_read_state (mk_rio 5 0 1) [] [0; 0; 0] 3 0 0 0) [])
      as (n & Hn & Hc & _).
    + cbn. lia.
    + lazy. reflexivity.
    + rewrite Hc. change (0 + n <= 3). change (0 <= n <= 3) in Hn. lia.
Defined.

(** * Properties of the rest of the layer *)

Section More_properties.

Context {hdr : Headers} {more : MoreHeaders}.
Variable k : kernel.

(** ** Transactions *)




(** ** Seek *)



(** ** Chunked loops against an arbitrary peer *)

Lemma ceil_div_pos (n c : Z) : 0 < c -> 0 < n -> 1 <= ceil_div n c.
Proof.
  intros Hc Hn. pose proof (ceil_div_spec n Hc) as [_ H]. nia.
Qed.

Lemma ceil_div_chunk (len : Z) :
  0 < len ->
  1 + ceil_div (len - chunk_of len) FDIO_CHUNK_SIZE =
  ceil_div len FDIO_CHUNK_SIZE.
Proof.
  intros Hlen. pose proof FDIO_CHUNK_SIZE_pos as Hc. unfold chunk_of.
  destruct (len >? FDIO_CHUNK_SIZE) eqn:Hbig.
  - rewrite (ceil_div_next len) by lia. reflexivity.
  - rewrite Z.gtb_ltb in Hbig. apply Z.ltb_ge in Hbig.
    rewrite Z.sub_diag, ceil_div_0, ceil_div_last by lia. reflexivity.
Qed.

Lemma to_uint32_idem (x : Z) : to_uint32 (to_uint32 x) = to_uint32 x.
Proof. unfold to_uint32. apply Z.mod_mod. lia. Qed.

Lemma to_uint32_succ (x n : Z) :
  to_uint32 (to_uint32 (x + 1) + n) = to_uint32 (x + (1 + n)).
Proof.
  unfold to_uint32. rewrite Zplus_mod_idemp_l. f_equal. lia.
Qed.

(** What the write loop keeps, whatever the peer answers: bytes counted
    and bytes left add up to the same total, no more transactions are made
    than chunks are needed, every transaction takes one transaction id, and
    the last status is negative or at most the bytes counted. *)
Lemma write_loop_invariant (op : Z) (n : nat) :
  forall (s : write_state) (t : trace),
    w_len s <= Z.of_nat n ->
    let out := write_loop k op s t in
    let calls := count_calls (snd out) - count_calls t in
    w_count (fst out) + w_len (fst out) = w_count s + w_len s
    /\ w_count s <= w_count (fst out)
    /\ (0 <= w_len s -> 0 <= w_len (fst out))
    /\ 0 <= calls
    /\ (0 <= w_len s -> calls <= ceil_div (w_len s) FDIO_CHUNK_SIZE)
    /\ to_uint32 (rio_txid (w_rio (fst out))) =
       to_uint32 (rio_txid (w_rio s) + calls)
    /\ (w_r (fst out) = w_r s /\ w_count (fst out) = w_count s
        \/ w_r (fst out) < 0
        \/ 0 <= w_r (fst out) <= w_count (fst out) - w_count s).
Proof.
  pose proof FDIO_CHUNK_SIZE_pos as Hc. pose proof ZX_ERR_IO_neg as Hio.
  assert (Hstop : forall s t, w_len s <= 0 ->
            write_loop k op s t = (s, t)).
  { intros s t Hle. rewrite write_loop_step.
    replace (w_len s >? 0) with false
      by (symmetry; rewrite Z.gtb_ltb; apply Z.ltb_ge; lia).
    reflexivity. }
  assert (Hbase : forall s t, w_len s <= 0 ->
            let out := write_loop k op s t in
            let calls := count_calls (snd out) - count_calls t in
            w_count (fst out) + w_len (fst out) = w_count s + w_len s
            /\ w_count s <= w_count (fst out)
            /\ (0 <= w_len s -> 0 <= w_len (fst out))
            /\ 0 <= calls
            /\ (0 <= w_len s -> calls <= ceil_div (w_len s) FDIO_CHUNK_SIZE)
            /\ to_uint32 (rio_txid (w_rio (fst out))) =
               to_uint32 (rio_txid (w_rio s) + calls)
            /\ (w_r (fst out) = w_r s /\ w_count (fst out) = w_count s
                \/ w_r (fst out) < 0
                \/ 0 <= w_r (fst out) <= w_count (fst out) - w_count s)).
  { intros s t Hle. cbv zeta. rewrite (Hstop s t Hle). cbn [fst snd].
    rewrite Z.sub_diag, Z.add_0_r.
    split; [reflexivity |]. split; [lia |]. split; [auto |].
    split; [lia |]. split; [| split; [reflexivity | left; split; reflexivity]].
    intros H0. assert (w_len s = 0) as -> by lia.
    rewrite ceil_div_0 by lia. lia. }
  induction n as [| n IH]; intros s t Hlen.
  - apply Hbase. lia.
  - destruct (Z_le_gt_dec (w_len s) 0) as [Hle | Hpos]; [now apply Hbase |].
    cbv zeta.
    pose proof (@chunk_of_bounds _ (w_len s) ltac:(lia)) as [Hx Hxc].
    pose proof (zxrio_txn_shape k (w_rio s) (write_request op s) t
                  (write_request_valid op s ltac:(lia))) as [Hrio _].
    pose proof (zxrio_txn_one_call k (w_rio s) (write_request op s) t
                  (write_request_valid op s ltac:(lia))) as Hone.
    assert (Hcd : 1 <= ceil_div (w_len s) FDIO_CHUNK_SIZE)
      by (apply ceil_div_pos; lia).
    destruct (zxrio_txn k (w_rio s) (write_request op s) t)
      as [[[r rio1] msg1] t1] eqn:Htxn.
    cbn [fst snd] in Hrio, Hone. subst rio1.
    destruct (Z_lt_ge_dec r 0) as [Hneg | Hnn].
    { rewrite (write_loop_failure k op s t Hpos Htxn Hneg).
      cbn [fst snd w_count w_len w_r w_rio rio_txid txn_rio].
      replace (count_calls t1 - count_calls t) with 1 by lia.
      rewrite to_uint32_idem.
      repeat split; try lia. }
    destruct (Z_gt_le_dec r (chunk_of (w_len s))) as [Hex | Hle].
    { rewrite (write_loop_excess k op s t Hpos Htxn Hex).
      cbn [fst snd w_count w_len w_r w_rio rio_txid txn_rio].
      rewrite count_calls_app, count_calls_closes.
      replace (count_calls t1 + 0 - count_calls t) with 1 by lia.
      rewrite to_uint32_idem.
      repeat split; try lia. }
    destruct (Z_lt_ge_dec r (chunk_of (w_len s))) as [Hshort | Hfull].
    { rewrite (write_loop_short k op s t Hpos Htxn ltac:(lia)).
      cbn [fst snd w_count w_len w_r w_rio rio_txid txn_rio].
      rewrite count_calls_app, count_calls_closes.
      replace (count_calls t1 + 0 - count_calls t) with 1 by lia.
      rewrite to_uint32_idem.
      repeat split; try lia. }
    assert (Hr : r = chunk_of (w_len s)) by lia.
    rewrite (write_loop_full k op s t Hpos Htxn Hr).
    match goal with
    | |- context [write_loop k op ?s1 ?t2] =>
        specialize (IH s1 t2); set (s1' := s1) in *; set (t2' := t2) in *
    end.
    assert (Hlen1 : w_len s1' <= Z.of_nat n) by (subst s1'; cbn; lia).
    specialize (IH Hlen1). cbv zeta in IH.
    destruct IH as (I1 & I2 & I3 & I4 & I5 & I6 & I7).
    assert (Ht2 : count_calls t2' = count_calls t + 1).
    { subst t2'. rewrite count_calls_app, count_calls_closes. lia. }
    assert (Hl1 : w_len s1' = w_len s - chunk_of (w_len s))
      by (subst s1'; cbn; lia).
    assert (Hc1 : w_count s1' = w_count s + chunk_of (w_len s))
      by (subst s1'; cbn; lia).
    assert (Hr1 : w_r s1' = chunk_of (w_len s)) by (subst s1'; cbn; lia).
    assert (Hx1 : rio_txid (w_rio s1') = to_uint32 (rio_txid (w_rio s) + 1))
      by (subst s1'; reflexivity).
    assert (Hcc : 1 + ceil_div (w_len s - chunk_of (w_len s)) FDIO_CHUNK_SIZE
                  = ceil_div (w_len s) FDIO_CHUNK_SIZE)
      by (apply ceil_div_chunk; lia).
    rewrite Hl1 in I1, I3, I5. rewrite Hc1 in I1, I2, I7. rewrite Hr1 in I7.
    rewrite Hx1, to_uint32_succ in I6.
    replace (count_calls (snd (write_loop k op s1' t2')) - count_calls t)
      with (1 + (count_calls (snd (write_loop k op s1' t2'))
                 - count_calls t2')) by lia.
    split; [lia |]. split; [lia |]. split; [lia |]. split; [lia |].
    split; [lia |]. split; [exact I6 |].
    destruct I7 as [[Ha Hb] | [Ha | Ha]];
      [right; right; lia | auto | right; right; lia].
Qed.

(** The same for the read loop. *)
Lemma read_loop_invariant (op : Z) (n : nat) :
  forall (s : read_state) (t : trace),
    rd_len s <= Z.of_nat n ->
    let out := read_loop k op s t in
    let calls := count_calls (snd out) - count_calls t in
    rd_count (fst out) + rd_len (fst out) = rd_count s + rd_len s
    /\ rd_count s <= rd_count (fst out)
    /\ (0 <= rd_len s -> 0 <= rd_len (fst out))
    /\ 0 <= calls
    /\ (0 <= rd_len s -> calls <= ceil_div (rd_len s) FDIO_CHUNK_SIZE)
    /\ to_uint32 (rio_txid (rd_rio (fst out))) =
       to_uint32 (rio_txid (rd_rio s) + calls)
    /\ (rd_r (fst out) = rd_r s /\ rd_count (fst out) = rd_count s
        \/ rd_r (fst out) < 0
        \/ 0 <= rd_r (fst out) <= rd_count (fst out) - rd_count s).
Proof.
  pose proof FDIO_CHUNK_SIZE_pos as Hc. pose proof ZX_ERR_IO_neg as Hio.
  assert (Hstop : forall s t, rd_len s <= 0 ->
            read_loop k op s t = (s, t)).
  { intros s t Hle. rewrite read_loop_step.
    replace (rd_len s >? 0) with false
      by (symmetry; rewrite Z.gtb_ltb; apply Z.ltb_ge; lia).
    reflexivity. }
  assert (Hbase : forall s t, rd_len s <= 0 ->
            let out := read_loop k op s t in
            let calls := count_calls (snd out) - count_calls t in
            rd_count (fst out) + rd_len (fst out) = rd_count s + rd_len s
            /\ rd_count s <= rd_count (fst out)
            /\ (0 <= rd_len s -> 0 <= rd_len (fst out))
            /\ 0 <= calls
            /\ (0 <= rd_len s -> calls <= ceil_div (rd_len s) FDIO_CHUNK_SIZE)
            /\ to_uint32 (rio_txid (rd_rio (fst out))) =
               to_uint32 (rio_txid (rd_rio s) + calls)
            /\ (rd_r (fst out) = rd_r s /\ rd_count (fst out) = rd_count s
                \/ rd_r (fst out) < 0
                \/ 0 <= rd_r (fst out) <= rd_count (fst out) - rd_count s)).
  { intros s t Hle. cbv zeta. rewrite (Hstop s t Hle). cbn [fst snd].
    rewrite Z.sub_diag, Z.add_0_r.
    split; [reflexivity |]. split; [lia |]. split; [auto |].
    split; [lia |]. split; [| split; [reflexivity | left; split; reflexivity]].
    intros H0. assert (rd_len s = 0) as -> by lia.
    rewrite ceil_div_0 by lia. lia. }
  induction n as [| n IH]; intros s t Hlen.
  - apply Hbase. lia.
  - destruct (Z_le_gt_dec (rd_len s) 0) as [Hle | Hpos]; [now apply Hbase |].
    cbv zeta.
    pose proof (@chunk_of_bounds _ (rd_len s) ltac:(lia)) as [Hx Hxc].
    pose proof (zxrio_txn_shape k (rd_rio s) (read_request op s) t
                  (read_request_valid op s)) as [Hrio _].
    pose proof (zxrio_txn_one_call k (rd_rio s) (read_request op s) t
                  (read_request_valid op s)) as Hone.
    assert (Hcd : 1 <= ceil_div (rd_len s) FDIO_CHUNK_SIZE)
      by (apply ceil_div_pos; lia).
    destruct (zxrio_txn k (rd_rio s) (read_request op s) t)
      as [[[r rio1] msg1] t1] eqn:Htxn.
    cbn [fst snd] in Hrio, Hone. subst rio1.
    destruct (Z_lt_ge_dec r 0) as [Hneg | Hnn].
    { rewrite (read_loop_failure k op s t Hpos Htxn Hneg).
      cbn [fst snd rd_count rd_len rd_r rd_rio rio_txid txn_rio].
      replace (count_calls t1 - count_calls t) with 1 by lia.
      rewrite to_uint32_idem.
      repeat split; try lia. }
    destruct ((r >? to_int32 (m_datalen msg1)) || (r >? chunk_of (rd_len s)))
      eqn:Hex.
    { rewrite (read_loop_excess k op s t Hpos Htxn ltac:(lia) Hex).
      cbn [fst snd rd_count rd_len rd_r rd_rio rio_txid txn_rio].
      rewrite count_calls_app, count_calls_closes.
      replace (count_calls t1 + 0 - count_calls t) with 1 by lia.
      rewrite to_uint32_idem.
      repeat split; try lia. }
    apply orb_false_elim in Hex as [Hd Hle].
    rewrite Z.gtb_ltb in Hd, Hle. apply Z.ltb_ge in Hd, Hle.
    destruct (Z_lt_ge_dec r (chunk_of (rd_len s))) as [Hshort | Hfull].
    { rewrite (read_loop_short k op s t Hpos Htxn ltac:(lia) Hd).
      cbn [fst snd rd_count rd_len rd_r rd_rio rio_txid txn_rio].
      rewrite count_calls_app, count_calls_closes.
      replace (count_calls t1 + 0 - count_calls t) with 1 by lia.
      rewrite to_uint32_idem.
      repeat split; try lia. }
    assert (Hr : r = chunk_of (rd_len s)) by lia.
    rewrite (read_loop_full k op s t Hpos Htxn Hr Hd).
    match goal with
    | |- context [read_loop k op ?s1 ?t2] =>
        specialize (IH s1 t2); set (s1' := s1) in *; set (t2' := t2) in *
    end.
    assert (Hlen1 : rd_len s1' <= Z.of_nat n) by (subst s1'; cbn; lia).
    specialize (IH Hlen1). cbv zeta in IH.
    destruct IH as (I1 & I2 & I3 & I4 & I5 & I6 & I7).
    assert (Ht2 : count_calls t2' = count_calls t + 1).
    { subst t2'. rewrite count_calls_app, count_calls_closes. lia. }
    assert (Hl1 : rd_len s1' = rd_len s - chunk_of (rd_len s))
      by (subst s1'; cbn; lia).
    assert (Hc1 : rd_count s1' = rd_count s + chunk_of (rd_len s))
      by (subst s1'; cbn; lia).
    assert (Hr1 : rd_r s1' = chunk_of (rd_len s)) by (subst s1'; cbn; lia).
    assert (Hx1 : rio_txid (rd_rio s1') = to_uint32 (rio_txid (rd_rio s) + 1))
      by (subst s1'; reflexivity).
    assert (Hcc : 1 + ceil_div (rd_len s - chunk_of (rd_len s)) FDIO_CHUNK_SIZE
                  = ceil_div (rd_len s) FDIO_CHUNK_SIZE)
      by (apply ceil_div_chunk; lia).
    rewrite Hl1 in I1, I3, I5. rewrite Hc1 in I1, I2, I7. rewrite Hr1 in I7.
    rewrite Hx1, to_uint32_succ in I6.
    replace (count_calls (snd (read_loop k op s1' t2')) - count_calls t)
      with (1 + (count_calls (snd (read_loop k op s1' t2'))
                 - count_calls t2')) by lia.
    split; [lia |]. split; [lia |]. split; [lia |]. split; [lia |].
    split; [lia |]. split; [exact I6 |].
    destruct I7 as [[Ha Hb] | [Ha | Ha]];
      [right; right; lia | auto | right; right; lia].
Qed.

(** X3.  Whatever the peer answers, a chunked write or read of [len]
    bytes never reports more than [len] bytes and never makes more than
    [ceil_div len FDIO_CHUNK_SIZE] transactions. *)
Theorem chunked_transfer_bounded (op : Z) (rio : zxrio_t) (data : list byte)
    (len offset : Z) (t : trace) :
  0 <= len ->
  let w := write_common k op rio data len offset t in
  let r := read_common k op rio data len offset t in
  (fst (fst w) <= len
   /\ count_calls (snd w) - count_calls t <= ceil_div len FDIO_CHUNK_SIZE)
  /\ (fst (fst (fst r)) <= len
      /\ count_calls (snd r) - count_calls t <= ceil_div len FDIO_CHUNK_SIZE).
Proof.
  intros Hlen. cbv zeta. split.
  - pose proof (write_loop_invariant op (Z.to_nat len)
                  (mk_write_state rio data len offset 0 0) t) as H.
    cbn [w_len w_count w_r] in H. specialize (H ltac:(lia)). cbv zeta in H.
    unfold write_common.
    destruct (write_loop k op _ t) as [s' t']. cbn [fst snd] in *.
    destruct H as (I1 & I2 & I3 & I4 & I5 & _ & I7).
    split; [| auto]. unfold write_return.
    destruct (w_count s' =? 0) eqn:Hz.
    + apply Z.eqb_eq in Hz. lia.
    + specialize (I3 Hlen). lia.
  - pose proof (read_loop_invariant op (Z.to_nat len)
                  (mk_read_state rio [] data len offset 0 0) t) as H.
    cbn [rd_len rd_count rd_r] in H. specialize (H ltac:(lia)). cbv zeta in H.
    unfold read_common.
    destruct (read_loop k op _ t) as [s' t']. cbn [fst snd] in *.
    destruct H as (I1 & I2 & I3 & I4 & I5 & _ & I7).
    split; [| auto]. unfold read_return.
    destruct (rd_count s' =? 0) eqn:Hz.
    + apply Z.eqb_eq in Hz. lia.
    + specialize (I3 Hlen). lia.
Qed.

(** X4.  Transaction ids are handed out one per transaction: after a
    chunked write or read the transaction id of the connection has advanced,
    modulo 2^32, by the number of transactions made, and a single
    transaction on a valid request sends the current id and advances it by
    one. *)
Theorem transaction_ids_advance (op : Z) (rio : zxrio_t) (data : list byte)
    (len offset : Z) (msg : zxrio_msg_t) (t : trace) :
  let w := write_common k op rio data len offset t in
  let r := read_common k op rio data len offset t in
  to_uint32 (rio_txid (snd (fst w))) =
    to_uint32 (rio_txid rio + (count_calls (snd w) - count_calls t))
  /\ to_uint32 (rio_txid (snd (fst (fst r)))) =
       to_uint32 (rio_txid rio + (count_calls (snd r) - count_calls t))
  /\ (if is_message_valid msg
      then rio_txid (snd (fst (fst (zxrio_txn k rio msg t))))
             = to_uint32 (rio_txid rio + 1)
           /\ exists closed,
                snd (zxrio_txn k rio msg t) =
                t ++ ev_channel_call (rio_h rio) (set_txid (rio_txid rio) msg)
                       (to_uint32 (ZXRIO_HDR_SZ + m_datalen msg))
                       (firstn (Z.to_nat (m_hcount msg)) (m_handle msg))
                       (ZXRIO_HDR_SZ + FDIO_CHUNK_SIZE) FDIO_MAX_HANDLES
                  :: map ev_handle_close closed
      else zxrio_txn k rio msg t = (ZX_ERR_INVALID_ARGS, rio, msg, t)).
Proof.
  cbv zeta. split; [| split].
  - pose proof (write_loop_invariant op (Z.to_nat len)
                  (mk_write_state rio data len offset 0 0) t) as H.
    cbn [w_len w_count w_r w_rio] in H. specialize (H ltac:(lia)).
    cbv zeta in H. unfold write_common.
    destruct (write_loop k op _ t) as [s' t']. cbn [fst snd] in *.
    apply H.
  - pose proof (read_loop_invariant op (Z.to_nat len)
                  (mk_read_state rio [] data len offset 0 0) t) as H.
    cbn [rd_len rd_count rd_r rd_rio] in H. specialize (H ltac:(lia)).
    cbv zeta in H. unfold read_common.
    destruct (read_loop k op _ t) as [s' t']. cbn [fst snd] in *.
    apply H.
  - destruct (is_message_valid msg) eqn:Hv.
    + destruct (zxrio_txn_shape k rio msg t Hv) as [Hrio Hshape].
      rewrite Hrio. split; [reflexivity | exact Hshape].
    + now apply zxrio_txn_invalid.
Qed.

(** Closes are among the events of a chunked write and of a chunked read. *)
Lemma closes_write_ok (op h : Z) (data : list byte) (len offset : Z)
    (hs : list Z) :
  Forall (write_event_ok op h data len offset) (map ev_handle_close hs).
Proof. induction hs; constructor; [exact I | assumption]. Qed.

Lemma closes_read_ok (op h : Z) (len offset : Z) (hs : list Z) :
  Forall (read_event_ok op h len offset) (map ev_handle_close hs).
Proof. induction hs; constructor; [exact I | assumption]. Qed.

(** The requests of the write loop, from a state that has transferred
    [c0] bytes. *)
Lemma write_loop_requests (op h : Z) (data : list byte) (len offset : Z)
    (n : nat) :
  forall (s : write_state) (t : trace) (c0 : Z),
    w_len s <= Z.of_nat n ->
    0 <= c0 ->
    rio_h (w_rio s) = h ->
    w_data s = skipn (Z.to_nat c0) data ->
    w_len s = len - c0 ->
    ((op =? ZXRIO_WRITE_AT) = true -> w_offset s = offset + c0) ->
    exists new,
      snd (write_loop k op s t) = t ++ new
      /\ Forall (write_event_ok op h data len offset) new.
Proof.
  pose proof FDIO_CHUNK_SIZE_pos as Hc.
  induction n as [| n IH]; intros s t c0 Hn Hc0 Hh Hdata Hlen Hoff.
  - exists []. rewrite write_loop_step.
    replace (w_len s >? 0) with false
      by (symmetry; rewrite Z.gtb_ltb; apply Z.ltb_ge; lia).
    cbn [snd]. rewrite app_nil_r. split; [reflexivity | constructor].
  - destruct (Z_le_gt_dec (w_len s) 0) as [Hle | Hpos].
    { exists []. rewrite write_loop_step.
      replace (w_len s >? 0) with false
        by (symmetry; rewrite Z.gtb_ltb; apply Z.ltb_ge; lia).
      cbn [snd]. rewrite app_nil_r. split; [reflexivity | constructor]. }
    pose proof (@chunk_of_bounds _ (w_len s) ltac:(lia)) as [Hx Hxc].
    destruct (zxrio_txn_shape k (w_rio s) (write_request op s) t
                (write_request_valid op s ltac:(lia)))
      as [Hrio (closed & Ht1)].
    assert (Hev : write_event_ok op h data len offset
                    (txn_event (w_rio s) (write_request op s))).
    { unfold txn_event, write_request, write_event_ok.
      destruct (op =? ZXRIO_WRITE_AT) eqn:Hop;
        cbn [m_hcount m_handle m_op m_datalen m_data m_arg2 set_txid set_data
             set_arg2 set_datalen set_op msg_zero_header Z.to_nat firstn];
        (split; [exact Hh | split; [reflexivity | split; [reflexivity |
           split; [reflexivity |]]]]);
        exists c0; rewrite <- Hdata;
        (split; [exact Hc0 | split; [lia | split; [lia | split;
           [reflexivity |]]]]).
      - apply Hoff. reflexivity.
      - reflexivity. }
    destruct (zxrio_txn k (w_rio s) (write_request op s) t)
      as [[[r rio1] msg1] t1] eqn:Htxn.
    cbn [fst snd] in Hrio, Ht1. subst rio1.
    destruct (Z_lt_ge_dec r 0) as [Hneg | Hnn].
    { rewrite (write_loop_failure k op s t Hpos Htxn Hneg). cbn [snd].
      exists (txn_event (w_rio s) (write_request op s)
                :: map ev_handle_close closed).
      split; [exact Ht1 |]. constructor; [exact Hev |].
      apply closes_write_ok. }
    destruct (Z_gt_le_dec r (chunk_of (w_len s))) as [Hex | Hle].
    { rewrite (write_loop_excess k op s t Hpos Htxn Hex). cbn [snd].
      exists (txn_event (w_rio s) (write_request op s)
                :: map ev_handle_close closed
                ++ map ev_handle_close
                     (firstn (Z.to_nat (m_hcount msg1)) (m_handle msg1))).
      split; [rewrite Ht1, <- app_assoc; reflexivity |].
      constructor; [exact Hev |].
      apply Forall_app. split; apply closes_write_ok. }
    destruct (Z_lt_ge_dec r (chunk_of (w_len s))) as [Hshort | Hfull].
    { rewrite (write_loop_short k op s t Hpos Htxn ltac:(lia)). cbn [snd].
      exists (txn_event (w_rio s) (write_request op s)
                :: map ev_handle_close closed
                ++ map ev_handle_close
                     (firstn (Z.to_nat (m_hcount msg1)) (m_handle msg1))).
      split; [rewrite Ht1, <- app_assoc; reflexivity |].
      constructor; [exact Hev |].
      apply Forall_app. split; apply closes_write_ok. }
    assert (Hr : r = chunk_of (w_len s)) by lia.
    rewrite (write_loop_full k op s t Hpos Htxn Hr).
    match goal with
    | |- context [write_loop k op ?s1 ?t2] =>
        destruct (IH s1 t2 (c0 + r)) as (new & Hnew & Hall)
    end.
    + cbn [w_len]. lia.
    + lia.
    + cbn [w_rio txn_rio rio_h]. exact Hh.
    + cbn [w_data]. rewrite Hdata, skipn_skipn.
      f_equal. rewrite Z2Nat.inj_add by lia. lia.
    + cbn [w_len]. lia.
    + cbn [w_offset]. intros Hop. rewrite Hop, (Hoff Hop). lia.
    + rewrite Hnew.
      exists (txn_event (w_rio s) (write_request op s)
                :: map ev_handle_close closed
                ++ map ev_handle_close
                     (firstn (Z.to_nat (m_hcount msg1)) (m_handle msg1))
                ++ new).
      split; [rewrite Ht1, <- !app_assoc; reflexivity |].
      constructor; [exact Hev |].
      apply Forall_app. split; [apply closes_write_ok |].
      apply Forall_app. split; [apply closes_write_ok | exact Hall].
Qed.

(** The same for the read loop. *)
Lemma read_loop_requests (op h : Z) (len offset : Z) (n : nat) :
  forall (s : read_state) (t : trace) (c0 : Z),
    rd_len s <= Z.of_nat n ->
    0 <= c0 ->
    rio_h (rd_rio s) = h ->
    rd_len s = len - c0 ->
    ((op =? ZXRIO_READ_AT) = true -> rd_offset s = offset + c0) ->
    exists new,
      snd (read_loop k op s t) = t ++ new
      /\ Forall (read_event_ok op h len offset) new.
Proof.
  pose proof FDIO_CHUNK_SIZE_pos as Hc.
  induction n as [| n IH]; intros s t c0 Hn Hc0 Hh Hlen Hoff.
  - exists []. rewrite read_loop_step.
    replace (rd_len s >? 0) with false
      by (symmetry; rewrite Z.gtb_ltb; apply Z.ltb_ge; lia).
    cbn [snd]. rewrite app_nil_r. split; [reflexivity | constructor].
  - destruct (Z_le_gt_dec (rd_len s) 0) as [Hle | Hpos].
    { exists []. rewrite read_loop_step.
      replace (rd_len s >? 0) with false
        by (symmetry; rewrite Z.gtb_ltb; apply Z.ltb_ge; lia).
      cbn [snd]. rewrite app_nil_r. split; [reflexivity | constructor]. }
    pose proof (@chunk_of_bounds _ (rd_len s) ltac:(lia)) as [Hx Hxc].
    destruct (zxrio_txn_shape k (rd_rio s) (read_request op s) t
                (read_request_valid op s))
      as [Hrio (closed & Ht1)].
    assert (Hev : read_event_ok op h len offset
                    (txn_event (rd_rio s) (read_request op s))).
    { unfold txn_event, read_request, read_event_ok.
      destruct (op =? ZXRIO_READ_AT) eqn:Hop;
        cbn [m_hcount m_handle m_op m_datalen m_arg m_arg2 set_txid set_arg
             set_arg2 set_op msg_zero_header Z.to_nat firstn];
        (split; [exact Hh | split; [reflexivity | split; [reflexivity |
           split; [reflexivity | split; [reflexivity |]]]]]);
        exists c0;
        (split; [exact Hc0 | split; [lia | split; [lia |]]]).
      - apply Hoff. reflexivity.
      - reflexivity. }
    destruct (zxrio_txn k (rd_rio s) (read_request op s) t)
      as [[[r rio1] msg1] t1] eqn:Htxn.
    cbn [fst snd] in Hrio, Ht1. subst rio1.
    destruct (Z_lt_ge_dec r 0) as [Hneg | Hnn].
    { rewrite (read_loop_failure k op s t Hpos Htxn Hneg). cbn [snd].
      exists (txn_event (rd_rio s) (read_request op s)
                :: map ev_handle_close closed).
      split; [exact Ht1 |]. constructor; [exact Hev |].
      apply closes_read_ok. }
    destruct ((r >? to_int32 (m_datalen msg1)) || (r >? chunk_of (rd_len s)))
      eqn:Hexc.
    { rewrite (read_loop_excess k op s t Hpos Htxn ltac:(lia) Hexc). cbn [snd].
      exists (txn_event (rd_rio s) (read_request op s)
                :: map ev_handle_close closed
                ++ map ev_handle_close
                     (firstn (Z.to_nat (m_hcount msg1)) (m_handle msg1))).
      split; [rewrite Ht1, <- app_assoc; reflexivity |].
      constructor; [exact Hev |].
      apply Forall_app. split; apply closes_read_ok. }
    apply orb_false_elim in Hexc as [Hd Hle].
    rewrite Z.gtb_ltb in Hd, Hle. apply Z.ltb_ge in Hd, Hle.
    destruct (Z_lt_ge_dec r (chunk_of (rd_len s))) as [Hshort | Hfull].
    { rewrite (read_loop_short k op s t Hpos Htxn ltac:(lia) Hd). cbn [snd].
      exists (txn_event (rd_rio s) (read_request op s)
                :: map ev_handle_close closed
                ++ map ev_handle_close
                     (firstn (Z.to_nat (m_hcount msg1)) (m_handle msg1))).
      split; [rewrite Ht1, <- app_assoc; reflexivity |].
      constructor; [exact Hev |].
      apply Forall_app. split; apply closes_read_ok. }
    assert (Hr : r = chunk_of (rd_len s)) by lia.
    rewrite (read_loop_full k op s t Hpos Htxn Hr Hd).
    match goal with
    | |- context [read_loop k op ?s1 ?t2] =>
        destruct (IH s1 t2 (c0 + r)) as (new & Hnew & Hall)
    end.
    + cbn [rd_len]. lia.
    + lia.
    + cbn [rd_rio txn_rio rio_h]. exact Hh.
    + cbn [rd_len]. lia.
    + cbn [rd_offset]. intros Hop. rewrite Hop, (Hoff Hop). lia.
    + rewrite Hnew.
      exists (txn_event (rd_rio s) (read_request op s)
                :: map ev_handle_close closed
                ++ map ev_handle_close
                     (firstn (Z.to_nat (m_hcount msg1)) (m_handle msg1))
                ++ new).
      split; [rewrite Ht1, <- !app_assoc; reflexivity |].
      constructor; [exact Hev |].
      apply Forall_app. split; [apply closes_read_ok |].
      apply Forall_app. split; [apply closes_read_ok | exact Hall].
Qed.

(** X5.  Whatever the peer answers, the only system calls of a chunked
    write or read are transactions on the channel of the connection and
    closes of handles.  Every transaction sends no handle and is for one
    chunk, of at most [FDIO_CHUNK_SIZE] bytes and within the [len] bytes
    asked for, at some position [c]: a write carries the bytes of the
    caller's data at [c], a read carries no payload, and for
    [ZXRIO_WRITE_AT] and [ZXRIO_READ_AT] the message holds the offset
    [offset + c]. *)
Theorem chunked_transfer_requests (op : Z) (rio : zxrio_t) (data : list byte)
    (len offset : Z) (t : trace) :
  (exists new,
     snd (write_common k op rio data len offset t) = t ++ new
     /\ Forall (write_event_ok op (rio_h rio) data len offset) new)
  /\ (exists new,
       snd (read_common k op rio data len offset t) = t ++ new
       /\ Forall (read_event_ok op (rio_h rio) len offset) new).
Proof.
  split.
  - destruct (@write_loop_requests op (rio_h rio) data len offset
                (Z.to_nat len) (mk_write_state rio data len offset 0 0) t 0)
      as (new & Hnew & Hall).
    + cbn [w_len]. lia.
    + lia.
    + reflexivity.
    + reflexivity.
    + cbn [w_len]. lia.
    + intros _. cbn [w_offset]. lia.
    + exists new. split; [| exact Hall].
      unfold write_common.
      destruct (write_loop k op _ t) as [s' t']. exact Hnew.
  - destruct (@read_loop_requests op (rio_h rio) len offset
                (Z.to_nat len) (mk_read_state rio [] data len offset 0 0) t 0)
      as (new & Hnew & Hall).
    + cbn [rd_len]. lia.
    + lia.
    + reflexivity.
    + cbn [rd_len]. lia.
    + intros _. cbn [rd_offset]. lia.
    + exists new. split; [| exact Hall].
      unfold read_common.
      destruct (read_loop k op _ t) as [s' t']. exact Hnew.
Qed.


(** ** Server reply path *)

(** What [zxrio_respond] does, by whether the message is an error response
    or a bad message, and by the status of the write. *)
Lemma zxrio_respond_run (h : Z) (msg : zxrio_msg_t) (t : trace) :
  let erred := (m_arg msg <? 0) || negb (is_message_valid msg) in
  let held := firstn (Z.to_nat (m_hcount msg)) (m_handle msg) in
  let sent :=
    set_op ZXRIO_STATUS
      (if erred
       then set_arg (if m_arg msg <? 0 then m_arg msg else ZX_ERR_INTERNAL)
              (set_hcount 0 (set_datalen 0 msg))
       else msg) in
  let t1 := t ++ map ev_handle_close (if erred then held else []) in
  let s := k_channel_write k t1 h sent
             (to_uint32 (ZXRIO_HDR_SZ + m_datalen sent))
             (if erred then [] else held) in
  zxrio_respond k h msg t =
  (s, sent,
   t1 ++ ev_channel_write h sent (to_uint32 (ZXRIO_HDR_SZ + m_datalen sent))
           (if erred then [] else held)
      :: map ev_handle_close (if erred || (s =? ZX_OK) then [] else held)).
Proof.
  cbv zeta. unfold zxrio_respond.
  destruct ((m_arg msg <? 0) || negb (is_message_valid msg)) eqn:He.
  - unfold bind at 1. unfold bind at 1. rewrite discard_handles_run.
    unfold ret at 1. cbv beta iota. run_calls.
    cbn [m_hcount m_handle m_datalen m_arg set_op set_arg set_hcount
         set_datalen Z.to_nat firstn orb].
    clear He.
    destruct (negb (_ =? ZX_OK)); cbv beta iota; rewrite ?discard_handles_run;
      cbn [Z.to_nat firstn map]; rewrite ?app_nil_r, <- ?app_assoc;
      reflexivity.
  - unfold bind at 1. unfold ret at 1. cbv beta iota. run_calls.
    cbn [m_hcount m_handle m_datalen m_arg set_op orb map].
    rewrite !app_nil_r.
    destruct (k_channel_write _ _ _ _ _ _ =? ZX_OK); cbn [negb];
      cbv beta iota; rewrite ?discard_handles_run;
      rewrite <- ?app_assoc; reflexivity.
Qed.

(** X6.  For a message whose handle count lies within its inline handle
    array, so that the handles [discard_handles] closes are those of the
    array: [zxrio_respond] writes exactly one message, and that message
    always passes [is_message_valid] and has the status op code.  For an
    error response or a bad message the reply carries no payload and no
    handle and a negative status, the handles of the message, as many as
    its handle count, having been closed first; otherwise the message goes
    out as it is, with its handles, and these are closed exactly when the
    write does not return [ZX_OK]. *)
Theorem zxrio_respond_reply (h : Z) (msg : zxrio_msg_t) (t : trace) :
  0 <= m_hcount msg <= Z.of_nat (length (m_handle msg)) ->
  let out := zxrio_respond k h msg t in
  let sent := snd (fst out) in
  let erred := (m_arg msg <? 0) || negb (is_message_valid msg) in
  let held := firstn (Z.to_nat (m_hcount msg)) (m_handle msg) in
  Z.of_nat (length held) = m_hcount msg
  /\ (erred = false -> is_message_valid msg = true)
  /\ is_message_valid sent = true
  /\ m_op sent = ZXRIO_STATUS
  /\ (if erred
      then m_datalen sent = 0 /\ m_hcount sent = 0 /\ m_arg sent < 0
      else sent = set_op ZXRIO_STATUS msg)
  /\ snd out =
     t ++ map ev_handle_close (if erred then held else [])
       ++ ev_channel_write h sent (to_uint32 (ZXRIO_HDR_SZ + m_datalen sent))
            (if erred then [] else held)
       :: map ev_handle_close
            (if erred || (fst (fst out) =? ZX_OK) then [] else held)
  /\ closed_handles (snd out) =
     closed_handles t
       ++ (if erred || negb (fst (fst out) =? ZX_OK) then held else []).
Proof.
  intros Hin. cbv zeta.
  split; [rewrite length_firstn; lia |].
  rewrite zxrio_respond_run. cbv zeta. cbn [fst snd].
  pose proof FDIO_CHUNK_SIZE_pos as Hc.
  pose proof FDIO_MAX_HANDLES_nonneg as Hm.
  pose proof ZX_ERR_INTERNAL_neg as Hi.
  destruct ((m_arg msg <? 0) || negb (is_message_valid msg)) eqn:He.
  - cbn [orb]. split; [discriminate |].
    split; [apply is_message_valid_true; cbn; lia |].
    split; [reflexivity |].
    split.
    { cbn. repeat split. destruct (m_arg msg <? 0) eqn:Hn; [| exact Hi].
      now apply Z.ltb_lt in Hn. }
    split; [now rewrite <- app_assoc |].
    rewrite !closed_handles_app. cbn [closed_handles].
    now rewrite !closed_handles_closes, app_nil_r.
  - apply orb_false_elim in He as [Hn Hv]. apply negb_false_iff in Hv.
    cbn [orb]. split; [intros _; exact Hv |].
    split; [exact Hv |]. split; [reflexivity |]. split; [reflexivity |].
    split; [now rewrite app_nil_r |].
    rewrite !closed_handles_app. cbn [closed_handles map app].
    rewrite closed_handles_closes, app_nil_r.
    destruct (k_channel_write _ _ _ _ _ _ =? ZX_OK); cbn [negb];
      [now rewrite app_nil_r | reflexivity].
Qed.

(** ** Server read path *)

(** X7.  [zxrio_read_msg] returns [ZX_OK] only with a message that passes
    validation against the size read, whose handle count is the number of
    handles received, and then closes nothing.  When the read succeeds but
    the message fails validation it closes every received handle and
    returns [ZX_ERR_INVALID_ARGS]; when the read fails it returns the
    status of the read and leaves the message as it was. *)
Theorem zxrio_read_msg_accepts_or_closes (h : Z) (msg : zxrio_msg_t) (t : trace) :
  let res := k_channel_read_msg k t h in
  let out := zxrio_read_msg k h msg t in
  let got := snd (fst out) in
  let rd := ev_channel_read h sizeof_zxrio_msg_t FDIO_MAX_HANDLES in
  if rr_status res =? ZX_OK then
    m_hcount got = Z.of_nat (length (rr_handles res))
    /\ firstn (Z.to_nat (m_hcount got)) (m_handle got) = rr_handles res
    /\ (if is_message_reply_valid got (rr_actual_bytes res)
        then fst (fst out) = ZX_OK
             /\ is_message_valid got = true
             /\ ZXRIO_HDR_SZ + m_datalen got = rr_actual_bytes res
             /\ snd out = t ++ [rd]
        else fst (fst out) = ZX_ERR_INVALID_ARGS
             /\ fst (fst out) <> ZX_OK
             /\ snd out = t ++ rd :: map ev_handle_close (rr_handles res))
  else out = (rr_status res, msg, t ++ [rd]).
Proof.
  cbv zeta.
  unfold zxrio_read_msg, zx_channel_read_msg, bind, history, emit, ret.
  destruct (k_channel_read_msg k t h) as [st bytes sz hs].
  cbn [rr_status rr_bytes rr_actual_bytes rr_handles].
  destruct (st =? ZX_OK) eqn:Hst; cbv beta iota; rewrite Hst; cbn [negb];
    [| reflexivity].
  assert (Hfirst :
            firstn (Z.to_nat (Z.of_nat (length hs)))
              (store_handles hs (m_handle bytes)) = hs).
  { unfold store_handles.
    rewrite Nat2Z.id, firstn_app, firstn_all, Nat.sub_diag, firstn_O.
    apply app_nil_r. }
  destruct (is_message_reply_valid _ sz) eqn:Hv; cbn [negb fst snd].
  - cbn [m_hcount m_handle set_hcount set_handle].
    split; [reflexivity |]. split; [exact Hfirst |].
    rewrite Hv. split; [now apply Z.eqb_eq |].
    unfold is_message_reply_valid in Hv.
    destruct (sz <? ZXRIO_HDR_SZ); [discriminate |].
    destruct (m_datalen _ =? sz - ZXRIO_HDR_SZ) eqn:Hd; [| discriminate].
    cbn [negb orb] in Hv. apply Z.eqb_eq in Hd.
    split; [exact Hv |]. split; [| reflexivity].
    cbn [m_datalen set_hcount set_handle] in Hd |- *. lia.
  - rewrite discard_handles_run. cbn [fst snd].
    cbn [m_hcount m_handle set_hcount set_handle].
    split; [reflexivity |]. split; [exact Hfirst |].
    rewrite Hv. split; [reflexivity |].
    split.
    + pose proof ZX_ERR_INVALID_ARGS_neg. pose proof ZX_OK_zero. lia.
    + rewrite Hfirst, <- app_assoc. reflexivity.
Qed.

(** ** Dispatcher *)

(** A message that [zxrio_read_msg] accepts passes [is_message_valid]. *)
Lemma zxrio_read_msg_valid_on_ok (h : Z) (msg : zxrio_msg_t) (t : trace) :
  fst (fst (zxrio_read_msg k h msg t)) = ZX_OK ->
  is_message_valid (snd (fst (zxrio_read_msg k h msg t))) = true.
Proof.
  unfold zxrio_read_msg, zx_channel_read_msg, bind, history, emit, ret.
  destruct (k_channel_read_msg k t h) as [st bytes sz hs].
  cbn [rr_status rr_bytes rr_actual_bytes rr_handles].
  destruct (st =? ZX_OK) eqn:Hst; cbv beta iota; rewrite Hst; cbn [negb].
  - destruct (is_message_reply_valid _ sz) eqn:Hv; cbn [negb fst snd].
    + intros _. unfold is_message_reply_valid in Hv.
      destruct (_ || _); [discriminate | exact Hv].
    + rewrite discard_handles_run. cbn [fst snd].
      pose proof ZX_ERR_INVALID_ARGS_neg. pose proof ZX_OK_zero. lia.
  - cbn [fst snd]. intros H. apply Z.eqb_neq in Hst. contradiction.
Qed.

(** X8.  [zxrio_handle_rpc] runs the callback only on a message that
    [zxrio_read_msg] accepted, which therefore passes [is_message_valid];
    if reading fails the result is that of the read and the callback is
    not run.  When the callback returns [ERR_DISPATCHER_INDIRECT] or
    [ERR_DISPATCHER_ASYNC] nothing is written after it and the status is
    [ZX_OK], respectively [ERR_DISPATCHER_ASYNC]; otherwise the reply goes
    through [zxrio_respond] with the callback's status as argument, and a
    close request yields [ERR_DISPATCHER_DONE] whatever the write
    returns. *)
Theorem zxrio_handle_rpc_outcomes (h : Z) (msg : zxrio_msg_t) (cb : zxrio_cb_t)
    (t : trace) :
  let rd := zxrio_read_msg k h msg t in
  let got := snd (fst rd) in
  let c := cb got (snd rd) in
  let a := fst (fst c) in
  let answered := set_arg a (snd (fst c)) in
  let rs := zxrio_respond k h answered (snd c) in
  let out := zxrio_handle_rpc k h msg cb t in
  if fst (fst rd) =? ZX_OK then
    is_message_valid got = true
    /\ (if a =? ERR_DISPATCHER_INDIRECT then out = (ZX_OK, answered, snd c)
        else if a =? ERR_DISPATCHER_ASYNC
        then out = (ERR_DISPATCHER_ASYNC, answered, snd c)
        else
          out = (if ZXRIO_OP (m_op got) =? ZXRIO_CLOSE
                 then ERR_DISPATCHER_DONE else fst (fst rs),
                 snd (fst rs), snd rs))
    /\ (a = ERR_DISPATCHER_ASYNC -> fst (fst out) = ERR_DISPATCHER_ASYNC)
  else out = rd.
Proof.
  cbv zeta.
  pose proof (zxrio_read_msg_valid_on_ok h msg t) as Hvalid.
  remember (zxrio_handle_rpc k h msg cb t) as out eqn:Hout.
  unfold zxrio_handle_rpc in Hout. unfold bind at 1 in Hout.
  destruct (zxrio_read_msg k h msg t) as [[r got] t1]. cbn [fst snd] in *.
  destruct (r =? ZX_OK) eqn:Hr; cbn [negb] in Hout; [| exact Hout].
  split; [apply Hvalid; now apply Z.eqb_eq |].
  unfold bind at 1 in Hout.
  destruct (cb got t1) as [[a msg1] t2]. cbn [fst snd m_arg set_arg] in *.
  destruct (a =? ERR_DISPATCHER_INDIRECT) eqn:Hi.
  - split; [exact Hout |]. intros Ha. apply Z.eqb_eq in Hi.
    pose proof dispatcher_codes_distinct. congruence.
  - destruct (a =? ERR_DISPATCHER_ASYNC) eqn:Has.
    + split; [exact Hout | intros _; subst out; reflexivity].
    + split.
      * unfold bind in Hout.
        destruct (zxrio_respond k h (set_arg a msg1) t2) as [[s msg2] t3].
        cbn [fst snd].
        destruct (ZXRIO_OP (m_op got) =? ZXRIO_CLOSE); exact Hout.
      * intros Ha. apply Z.eqb_neq in Has. contradiction.
Qed.

(** X9.  With the invalid handle [zxrio_handler] reads nothing: it runs
    the callback once, on a close message with argument, payload length and
    handle count zero (a message that passes [is_message_valid] whatever
    the stack held), makes no system call of its own and returns [ZX_OK]
    whatever the callback returns. *)
Theorem zxrio_handler_peer_closed (cb : zxrio_cb_t) (stack : zxrio_msg_t)
    (t : trace) :
  let closing :=
    set_hcount 0 (set_datalen 0 (set_arg 0 (set_op ZXRIO_CLOSE stack))) in
  is_message_valid closing = true
  /\ m_op closing = ZXRIO_CLOSE
  /\ zxrio_handler k ZX_HANDLE_INVALID cb stack t = (ZX_OK, snd (cb closing t))
  /\ zxrio_handle_close cb stack t = (ZX_OK, snd (cb closing t)).
Proof.
  cbv zeta.
  pose proof FDIO_CHUNK_SIZE_pos as Hc.
  pose proof FDIO_MAX_HANDLES_nonneg as Hm.
  split; [apply is_message_valid_true; cbn; lia |].
  split; [reflexivity |].
  unfold zxrio_handler. rewrite Z.eqb_refl.
  unfold zxrio_handle_close, bind, ret.
  destruct (cb _ t) as [[a m] t1]. split; reflexivity.
Qed.

(** ** Handles across a transaction *)




(** ** Misc *)


(** ** Ioctl *)

(** The five kinds of ioctl that the code treats apart are distinct. *)
Lemma ioctl_kinds_apart :
  IOCTL_KIND_GET_HANDLE <> IOCTL_KIND_GET_TWO_HANDLES
  /\ IOCTL_KIND_GET_HANDLE <> IOCTL_KIND_GET_THREE_HANDLES
  /\ IOCTL_KIND_GET_HANDLE <> IOCTL_KIND_SET_HANDLE
  /\ IOCTL_KIND_GET_HANDLE <> IOCTL_KIND_SET_TWO_HANDLES
  /\ IOCTL_KIND_GET_TWO_HANDLES <> IOCTL_KIND_GET_THREE_HANDLES
  /\ IOCTL_KIND_GET_TWO_HANDLES <> IOCTL_KIND_SET_HANDLE
  /\ IOCTL_KIND_GET_TWO_HANDLES <> IOCTL_KIND_SET_TWO_HANDLES
  /\ IOCTL_KIND_GET_THREE_HANDLES <> IOCTL_KIND_SET_HANDLE
  /\ IOCTL_KIND_GET_THREE_HANDLES <> IOCTL_KIND_SET_TWO_HANDLES
  /\ IOCTL_KIND_SET_HANDLE <> IOCTL_KIND_SET_TWO_HANDLES.
Proof.
  pose proof ioctl_kinds_distinct as H.
  inversion H as [| a1 l1 N1 H1]; subst.
  inversion H1 as [| a2 l2 N2 H2]; subst.
  inversion H2 as [| a3 l3 N3 H3]; subst.
  inversion H3 as [| a4 l4 N4 H4]; subst.
  cbn [In] in N1, N2, N3, N4.
  repeat split; intros E; rewrite E in *; tauto.
Qed.

(** X11.  [zxrio_ioctl] rejects with [ZX_ERR_INVALID_ARGS], before any
    system call and without touching the connection or the output buffer,
    an input above [FDIO_IOCTL_MAX_INPUT], an output above the chunk size,
    an output buffer too small for the handles that the kind of ioctl
    returns, and an input too small for the handles that it sends. *)
Theorem zxrio_ioctl_rejects_early (rio : zxrio_t) (op : Z) (in_buf : list byte)
    (in_len : Z) (out_buf : list byte) (out_len : Z) (t : trace) :
  let kind := IOCTL_KIND op in
  (in_len >? FDIO_IOCTL_MAX_INPUT) || (out_len >? FDIO_CHUNK_SIZE)
  || (kind =? IOCTL_KIND_GET_HANDLE) && (out_len <? sizeof_zx_handle_t)
  || (kind =? IOCTL_KIND_GET_TWO_HANDLES) && (out_len <? 2 * sizeof_zx_handle_t)
  || (kind =? IOCTL_KIND_GET_THREE_HANDLES)
     && (out_len <? 3 * sizeof_zx_handle_t)
  || (kind =? IOCTL_KIND_SET_HANDLE) && (in_len <? sizeof_zx_handle_t)
  || (kind =? IOCTL_KIND_SET_TWO_HANDLES) && (in_len <? 2 * sizeof_zx_handle_t)
  = true ->
  zxrio_ioctl k rio op in_buf in_len out_buf out_len t =
  (ZX_ERR_INVALID_ARGS, rio, out_buf, t).
Proof.
  cbv zeta. intros Hrej.
  pose proof ioctl_kinds_apart as
    (D12 & D13 & D14 & D15 & D23 & D24 & D25 & D34 & D35 & D45).
  unfold zxrio_ioctl.
  destruct ((in_len >? FDIO_IOCTL_MAX_INPUT) || (out_len >? FDIO_CHUNK_SIZE));
    [reflexivity |].
  cbn [orb] in Hrej.
  destruct (IOCTL_KIND op =? IOCTL_KIND_GET_HANDLE) eqn:K1.
  { apply Z.eqb_eq in K1.
    destruct (out_len <? sizeof_zx_handle_t); [reflexivity |].
    exfalso. rewrite K1 in Hrej.
    rewrite (proj2 (Z.eqb_neq _ _) D12), (proj2 (Z.eqb_neq _ _) D13),
      (proj2 (Z.eqb_neq _ _) D14), (proj2 (Z.eqb_neq _ _) D15) in Hrej.
    discriminate. }
  destruct (IOCTL_KIND op =? IOCTL_KIND_GET_TWO_HANDLES) eqn:K2.
  { apply Z.eqb_eq in K2.
    destruct (out_len <? 2 * sizeof_zx_handle_t); [reflexivity |].
    exfalso. rewrite K2 in Hrej.
    rewrite (proj2 (Z.eqb_neq _ _) D23), (proj2 (Z.eqb_neq _ _) D24),
      (proj2 (Z.eqb_neq _ _) D25) in Hrej.
    discriminate. }
  destruct (IOCTL_KIND op =? IOCTL_KIND_GET_THREE_HANDLES) eqn:K3.
  { apply Z.eqb_eq in K3.
    destruct (out_len <? 3 * sizeof_zx_handle_t); [reflexivity |].
    exfalso. rewrite K3 in Hrej.
    rewrite (proj2 (Z.eqb_neq _ _) D34), (proj2 (Z.eqb_neq _ _) D35) in Hrej.
    discriminate. }
  destruct (IOCTL_KIND op =? IOCTL_KIND_SET_HANDLE) eqn:K4.
  { apply Z.eqb_eq in K4.
    destruct (in_len <? sizeof_zx_handle_t); [reflexivity |].
    exfalso. rewrite K4 in Hrej.
    rewrite (proj2 (Z.eqb_neq _ _) D45) in Hrej.
    discriminate. }
  destruct (IOCTL_KIND op =? IOCTL_KIND_SET_TWO_HANDLES) eqn:K5.
  { destruct (in_len <? 2 * sizeof_zx_handle_t); [reflexivity |].
    discriminate. }
  discriminate.
Qed.







(** ** Service helpers *)

(** What [zxrio_connect] does, by the test that decides. *)
Lemma zxrio_connect_run (svc cnxn op flags mode : Z) (name : list byte)
    (t : trace) :
  zxrio_connect k svc cnxn op flags mode name t =
  if strlen name >=? PATH_MAX
  then (ZX_ERR_BAD_PATH, t ++ [ev_handle_close cnxn])
  else if negb (Z.land flags ZX_FS_FLAG_DESCRIBE =? 0)
  then (ZX_ERR_INVALID_ARGS, t ++ [ev_handle_close cnxn])
  else
    let req := connect_request cnxn op flags mode name in
    let w := k_channel_write k t svc req
               (to_uint32 (ZXRIO_HDR_SZ + m_datalen req)) [cnxn] in
    if w <? 0
    then (w, t ++ [connect_event svc cnxn op flags mode name;
                   ev_handle_close cnxn])
    else (ZX_OK, t ++ [connect_event svc cnxn op flags mode name]).
Proof.
  unfold zxrio_connect.
  destruct (strlen name >=? PATH_MAX); [reflexivity |].
  destruct (negb (Z.land flags ZX_FS_FLAG_DESCRIBE =? 0)); [reflexivity |].
  run_calls. cbv zeta. unfold connect_event.
  change (firstn 1 (m_handle _)) with [cnxn].
  fold (connect_request cnxn op flags mode name).
  destruct (k_channel_write _ _ _ _ _ _ <? 0); cbv beta iota;
    rewrite <- ?app_assoc; reflexivity.
Qed.

(** [zxrio_connect] never returns a positive value, and it closes [cnxn]
    exactly when it fails. *)
Lemma zxrio_connect_closes_on_failure (svc cnxn op flags mode : Z)
    (name : list byte) (t : trace) :
  let out := zxrio_connect k svc cnxn op flags mode name t in
  fst out <= 0
  /\ closed_handles (snd out) =
     closed_handles t ++ (if fst out <? 0 then [cnxn] else []).
Proof.
  cbv zeta. rewrite zxrio_connect_run. cbv zeta.
  pose proof ZX_ERR_BAD_PATH_neg as Hb.
  pose proof ZX_ERR_INVALID_ARGS_neg as Hi.
  pose proof ZX_OK_zero as H0.
  destruct (strlen name >=? PATH_MAX).
  { cbn [fst snd]. rewrite closed_handles_app.
    replace (ZX_ERR_BAD_PATH <? 0) with true by (symmetry; now apply Z.ltb_lt).
    split; [lia | reflexivity]. }
  destruct (negb _).
  { cbn [fst snd]. rewrite closed_handles_app.
    replace (ZX_ERR_INVALID_ARGS <? 0) with true
      by (symmetry; now apply Z.ltb_lt).
    split; [lia | reflexivity]. }
  destruct (k_channel_write _ _ _ _ _ _ <? 0) eqn:Hw; cbn [fst snd];
    rewrite closed_handles_app.
  - rewrite Hw. apply Z.ltb_lt in Hw. split; [lia | reflexivity].
  - replace (ZX_OK <? 0) with false by (symmetry; apply Z.ltb_ge; lia).
    split; [lia | reflexivity].
Qed.

(** The rights that the service helpers ask for never trigger the
    rejection of the describe flag. *)
Lemma service_rights_pipelined :
  negb (Z.land service_rights ZX_FS_FLAG_DESCRIBE =? 0) = false.
Proof.
  unfold service_rights. rewrite rights_without_describe. reflexivity.
Qed.

(** X14.  [fdio_service_connect_at] always consumes [h] and never returns a
    positive value: [h] is closed exactly when the function fails.  It
    writes nothing for a null path, an invalid directory handle or a path
    of [PATH_MAX] bytes or more; otherwise it writes one open request
    carrying [h], with the read and write rights and mode 0755. *)
Theorem fdio_service_connect_at_consumes (dir : Z) (path : option (list byte))
    (h : Z) (t : trace) :
  let out := fdio_service_connect_at k dir path h t in
  fst out <= 0
  /\ closed_handles (snd out) =
     closed_handles t ++ (if fst out <? 0 then [h] else [])
  /\ match path with
     | None => out = (ZX_ERR_INVALID_ARGS, t ++ [ev_handle_close h])
     | Some p =>
         if dir =? ZX_HANDLE_INVALID
         then out = (ZX_ERR_UNAVAILABLE, t ++ [ev_handle_close h])
         else if strlen p >=? PATH_MAX
         then out = (ZX_ERR_BAD_PATH, t ++ [ev_handle_close h])
         else snd out =
              t ++ connect_event dir h ZXRIO_OPEN service_rights mode_0755 p
                :: (if fst out <? 0 then [ev_handle_close h] else [])
     end.
Proof.
  cbv zeta. unfold fdio_service_connect_at.
  pose proof ZX_ERR_INVALID_ARGS_neg as Hi.
  pose proof ZX_ERR_UNAVAILABLE_neg as Hu.
  pose proof ZX_OK_zero as H0.
  destruct path as [p |].
  - destruct (dir =? ZX_HANDLE_INVALID).
    + run_calls. cbn [fst snd]. rewrite closed_handles_app.
      replace (ZX_ERR_UNAVAILABLE <? 0) with true
        by (symmetry; now apply Z.ltb_lt).
      split; [lia | split; reflexivity].
    + pose proof (zxrio_connect_closes_on_failure dir h ZXRIO_OPEN
                    service_rights mode_0755 p t) as [Hle Hcl].
      split; [exact Hle | split; [exact Hcl |]].
      rewrite zxrio_connect_run, service_rights_pipelined. cbv zeta.
      destruct (strlen p >=? PATH_MAX); [reflexivity |].
      destruct (k_channel_write _ _ _ _ _ _ <? 0) eqn:Hw; cbn [fst snd].
      * rewrite Hw. reflexivity.
      * replace (ZX_OK <? 0) with false by (symmetry; apply Z.ltb_ge; lia).
        reflexivity.
  - run_calls. cbn [fst snd]. rewrite closed_handles_app.
    replace (ZX_ERR_INVALID_ARGS <? 0) with true
      by (symmetry; now apply Z.ltb_lt).
    split; [lia | split; reflexivity].
Qed.

(** The empty path is shorter than [PATH_MAX]. *)
Lemma empty_path_fits : (strlen [0] >=? PATH_MAX) = false.
Proof.
  pose proof PATH_MAX_pos. cbn. rewrite Z.geb_leb. apply Z.leb_gt. lia.
Qed.

(** X15.  [fdio_service_clone] leaks no channel end: when the channel is
    created and the clone request cannot be written, both ends are closed
    and the invalid handle is returned; when it is written, nothing is
    closed and the client end is returned.  The request is always sent
    once a channel exists: the empty path and the rights asked for pass the
    tests of [zxrio_connect]. *)
Theorem fdio_service_clone_no_leak (svc : Z) (t : trace) :
  let cc := k_channel_create k t in
  let t1 := t ++ [ev_channel_create] in
  let req :=
    connect_request (cc_out1 cc) ZXRIO_CLONE service_rights mode_0755 [0] in
  let sent :=
    connect_event svc (cc_out1 cc) ZXRIO_CLONE service_rights mode_0755 [0] in
  let w := k_channel_write k t1 svc req
             (to_uint32 (ZXRIO_HDR_SZ + m_datalen req)) [cc_out1 cc] in
  fdio_service_clone k svc t =
  if svc =? ZX_HANDLE_INVALID then (ZX_HANDLE_INVALID, t)
  else if cc_status cc <? 0 then (ZX_HANDLE_INVALID, t1)
  else if w <? 0
  then (ZX_HANDLE_INVALID,
        t1 ++ [sent; ev_handle_close (cc_out1 cc); ev_handle_close (cc_out0 cc)])
  else (cc_out0 cc, t1 ++ [sent]).
Proof.
  cbv zeta. unfold fdio_service_clone.
  destruct (svc =? ZX_HANDLE_INVALID); [reflexivity |].
  unfold bind at 1. unfold zx_channel_create at 1.
  unfold bind, history, emit, ret. cbv beta iota.
  destruct (cc_status (k_channel_create k t) <? 0); [reflexivity |].
  rewrite zxrio_connect_run, empty_path_fits, service_rights_pipelined.
  cbv zeta.
  pose proof ZX_OK_zero as H0.
  destruct (k_channel_write _ _ _ _ _ _ <? 0) eqn:Hw; cbv beta iota.
  - rewrite Hw. unfold zx_handle_close, emit.
    rewrite <- !app_assoc. reflexivity.
  - replace (ZX_OK <? 0) with false by (symmetry; apply Z.ltb_ge; lia).
    reflexivity.
Qed.

(** X16.  [fdio_service_clone_to] sends nothing and closes nothing when
    [srv] is the invalid handle; otherwise it always consumes [srv], which
    is closed exactly when the function fails, and with a valid [svc] the
    clone request is always written. *)
Theorem fdio_service_clone_to_consumes (svc srv : Z) (t : trace) :
  let out := fdio_service_clone_to k svc srv t in
  fst out <= 0
  /\ (if srv =? ZX_HANDLE_INVALID then out = (ZX_ERR_INVALID_ARGS, t)
      else
        closed_handles (snd out) =
        closed_handles t ++ (if fst out <? 0 then [srv] else [])
        /\ (if svc =? ZX_HANDLE_INVALID
            then out = (ZX_ERR_INVALID_ARGS, t ++ [ev_handle_close srv])
            else snd out =
                 t ++ connect_event svc srv ZXRIO_CLONE service_rights
                        mode_0755 [0]
                   :: (if fst out <? 0 then [ev_handle_close srv] else []))).
Proof.
  cbv zeta. unfold fdio_service_clone_to.
  pose proof ZX_ERR_INVALID_ARGS_neg as Hi.
  pose proof ZX_OK_zero as H0.
  destruct (srv =? ZX_HANDLE_INVALID).
  { cbn [fst snd ret]. split; [unfold ret; cbn; lia | reflexivity]. }
  destruct (svc =? ZX_HANDLE_INVALID).
  { run_calls. cbn [fst snd]. rewrite closed_handles_app.
    replace (ZX_ERR_INVALID_ARGS <? 0) with true
      by (symmetry; now apply Z.ltb_lt).
    split; [lia | split; reflexivity]. }
  pose proof (zxrio_connect_closes_on_failure svc srv ZXRIO_CLONE
                service_rights mode_0755 [0] t) as [Hle Hcl].
  split; [exact Hle | split; [exact Hcl |]].
  rewrite zxrio_connect_run, empty_path_fits, service_rights_pipelined.
  cbv zeta.
  destruct (k_channel_write _ _ _ _ _ _ <? 0) eqn:Hw; cbn [fst snd].
  - rewrite Hw. reflexivity.
  - replace (ZX_OK <? 0) with false by (symmetry; apply Z.ltb_ge; lia).
    reflexivity.
Qed.

(** ** Opening objects *)

(** The branch of [zxrio_getobject] without the describe flag. *)
Lemma zxrio_getobject_paths_some (rio_h op : Z) (p : list byte)
    (flags mode : Z) (info : zxrio_describe_t) (out : Z) (t : trace) :
  strlen p < PATH_MAX ->
  Z.land flags ZX_FS_FLAG_DESCRIBE = 0 ->
  let cc := k_channel_create k t in
  let t1 := t ++ [ev_channel_create] in
  let req := connect_request (cc_out1 cc) ZXRIO_OPEN flags mode p in
  let sent := connect_event rio_h (cc_out1 cc) ZXRIO_OPEN flags mode p in
  let w := k_channel_write k t1 rio_h req
             (to_uint32 (ZXRIO_HDR_SZ + m_datalen req)) [cc_out1 cc] in
  zxrio_getobject k rio_h op (Some p) flags mode info out t =
  if cc_status cc <? 0 then (cc_status cc, info, out, t1)
  else if w <? 0 then
    (w, info, out,
     t1 ++ [sent; ev_handle_close (cc_out1 cc); ev_handle_close (cc_out0 cc)])
  else
    (ZX_OK,
     mk_info (info_op info) ZX_OK FDIO_PROTOCOL_REMOTE ZX_HANDLE_INVALID,
     cc_out0 cc, t1 ++ [sent]).
Proof.
  intros Hlen Hd. cbv zeta. unfold zxrio_getobject.
  assert (Hlen' : (strlen p >=? PATH_MAX) = false)
    by (rewrite Z.geb_leb; apply Z.leb_gt; lia).
  rewrite Hlen', Hd, Z.eqb_refl. cbn [negb].
  unfold bind at 1. unfold zx_channel_create at 1.
  unfold bind, history, emit, ret. cbv beta iota.
  destruct (cc_status (k_channel_create k t) <? 0); [reflexivity |].
  rewrite zxrio_connect_run, Hlen', Hd, Z.eqb_refl. cbn [negb]. cbv zeta.
  pose proof ZX_OK_zero as H0.
  destruct (k_channel_write _ _ _ _ _ _ <? 0) eqn:Hw; cbv beta iota.
  - rewrite Hw. unfold zx_handle_close, emit.
    rewrite <- !app_assoc. reflexivity.
  - replace (ZX_OK <? 0) with false by (symmetry; apply Z.ltb_ge; lia).
    reflexivity.
Qed.

(** X17.  [zxrio_getobject] rejects a null name and a name of [PATH_MAX]
    bytes or more before any system call, leaving [info] and [out] as they
    were.  Without the describe flag it creates a channel and sends one
    end in a request whose op code is [ZXRIO_OPEN] whatever [op] is; if
    that fails both ends are closed and [info] and [out] are untouched,
    otherwise the record is filled in as a remote object without a second
    handle and [out] receives the local end, nothing being closed.  With
    the flag it is [zxrio_sync_open_connection] on a request that carries
    the name. *)
Theorem zxrio_getobject_paths (rio_h op : Z) (name : option (list byte))
    (flags mode : Z) (info : zxrio_describe_t) (out : Z) (t : trace) :
  let res := zxrio_getobject k rio_h op name flags mode info out t in
  match name with
  | None => res = (ZX_ERR_INVALID_ARGS, info, out, t)
  | Some p =>
      if strlen p >=? PATH_MAX then res = (ZX_ERR_BAD_PATH, info, out, t)
      else if Z.land flags ZX_FS_FLAG_DESCRIBE =? 0 then
        let cc := k_channel_create k t in
        let t1 := t ++ [ev_channel_create] in
        let req := connect_request (cc_out1 cc) ZXRIO_OPEN flags mode p in
        let sent := connect_event rio_h (cc_out1 cc) ZXRIO_OPEN flags mode p in
        let w := k_channel_write k t1 rio_h req
                   (to_uint32 (ZXRIO_HDR_SZ + m_datalen req)) [cc_out1 cc] in
        if cc_status cc <? 0 then res = (cc_status cc, info, out, t1)
        else if w <? 0 then
          res = (w, info, out,
                 t1 ++ [sent; ev_handle_close (cc_out1 cc);
                        ev_handle_close (cc_out0 cc)])
        else
          res = (ZX_OK,
                 mk_info (info_op info) ZX_OK FDIO_PROTOCOL_REMOTE
                   ZX_HANDLE_INVALID,
                 cc_out0 cc, t1 ++ [sent])
      else
        let req :=
          set_data (memcpy [] p (strlen p))
            (set_arg2 mode
               (set_arg (to_int32 flags)
                  (set_datalen (to_uint32 (strlen p))
                     (set_op op msg_zero_header)))) in
        let sy := zxrio_sync_open_connection k rio_h req info out t in
        res = (fst (fst (fst (fst sy))), snd (fst (fst sy)), snd (fst sy),
               snd sy)
  end.
Proof.
  cbv zeta. destruct name as [p |]; [| reflexivity].
  destruct (strlen p >=? PATH_MAX) eqn:Hlen.
  { unfold zxrio_getobject. rewrite Hlen. reflexivity. }
  destruct (Z.land flags ZX_FS_FLAG_DESCRIBE =? 0) eqn:Hd.
  - rewrite Z.geb_leb in Hlen. apply Z.leb_gt in Hlen. apply Z.eqb_eq in Hd.
    rewrite (zxrio_getobject_paths_some rio_h op p flags mode info out t)
      by assumption.
    cbv zeta.
    destruct (cc_status (k_channel_create k t) <? 0); [reflexivity |].
    destruct (k_channel_write _ _ _ _ _ _ <? 0); reflexivity.
  - unfold zxrio_getobject. rewrite Hlen, Hd. cbn [negb].
    unfold bind, ret.
    destruct (zxrio_sync_open_connection k rio_h _ info out t)
      as [[[[r m] i] o] t1].
    reflexivity.
Qed.

(** X18.  [zxrio_open_handle_raw] returns [ZX_OK] or a negative status,
    and stores a handle in [*out] only when it returns [ZX_OK]: it is then
    the control channel of an object described as remote.  Any handle that
    came with the description is closed in both cases, and the control
    channel is closed as well when the object is of another type. *)
Theorem zxrio_open_handle_raw_result (h : Z) (path : option (list byte))
    (flags mode out : Z) (info : zxrio_describe_t) (control_channel : Z)
    (t : trace) :
  let g := zxrio_getobject k h ZXRIO_OPEN path flags mode info control_channel t in
  let r := fst (fst (fst g)) in
  let described := snd (fst (fst g)) in
  let channel := snd (fst g) in
  let extra := if info_handle described =? ZX_HANDLE_INVALID
               then [] else [info_handle described] in
  let res := zxrio_open_handle_raw k h path flags mode out info control_channel t in
  (fst (fst res) = ZX_OK \/ fst (fst res) < 0 /\ snd (fst res) = out)
  /\ (if r <? 0 then res = (r, out, snd g)
      else if info_type described =? FDIO_PROTOCOL_REMOTE
      then res = (ZX_OK, channel, snd g ++ map ev_handle_close extra)
      else res = (ZX_ERR_WRONG_TYPE, out,
                  snd g ++ map ev_handle_close (extra ++ [channel]))).
Proof.
  cbv zeta.
  remember (zxrio_open_handle_raw k h path flags mode out info
              control_channel t) as res eqn:Hres.
  unfold zxrio_open_handle_raw in Hres. unfold bind at 1 in Hres.
  destruct (zxrio_getobject k h ZXRIO_OPEN path flags mode info
              control_channel t) as [[[r described] channel] t1].
  cbn [fst snd].
  pose proof ZX_ERR_WRONG_TYPE_neg as Hw.
  destruct (r <? 0) eqn:Hr.
  - apply Z.ltb_lt in Hr. unfold ret in Hres. subst res. cbn [fst snd].
    split; [right; split; [exact Hr | reflexivity] | reflexivity].
  - destruct (info_type described =? FDIO_PROTOCOL_REMOTE);
      destruct (info_handle described =? ZX_HANDLE_INVALID);
      cbn [negb] in Hres;
      unfold bind, ret, zx_handle_close, emit in Hres; subst res;
      cbn [fst snd map app]; rewrite <- ?app_assoc, ?app_nil_r;
      cbn [app];
      (split; [first [left; reflexivity | right; split; [exact Hw | reflexivity]]
              | reflexivity]).
Qed.

(** X19.  An open without the describe flag that gets its channel and
    writes its request always succeeds through [zxrio_open_handle_raw],
    whatever the uninitialised locals held: it returns the local end of the
    new channel and closes nothing. *)
Theorem zxrio_open_handle_raw_pipelined (h : Z) (p : list byte)
    (flags mode out : Z) (info : zxrio_describe_t) (control_channel : Z)
    (t : trace) :
  let cc := k_channel_create k t in
  let t1 := t ++ [ev_channel_create] in
  let req := connect_request (cc_out1 cc) ZXRIO_OPEN flags mode p in
  let sent := connect_event h (cc_out1 cc) ZXRIO_OPEN flags mode p in
  strlen p < PATH_MAX ->
  Z.land flags ZX_FS_FLAG_DESCRIBE = 0 ->
  0 <= cc_status cc ->
  0 <= k_channel_write k t1 h req
         (to_uint32 (ZXRIO_HDR_SZ + m_datalen req)) [cc_out1 cc] ->
  zxrio_open_handle_raw k h (Some p) flags mode out info control_channel t =
  (ZX_OK, cc_out0 cc, t1 ++ [sent]).
Proof.
  cbv zeta. intros Hlen Hd Hcc Hw.
  pose proof (zxrio_getobject_paths_some h ZXRIO_OPEN p flags mode info
                control_channel t Hlen Hd) as Hg.
  cbv zeta in Hg.
  replace (cc_status (k_channel_create k t) <? 0) with false in Hg
    by (symmetry; apply Z.ltb_ge; lia).
  match type of Hg with
  | context [if ?c then _ else _] =>
      replace c with false in Hg by (symmetry; apply Z.ltb_ge; lia)
  end.
  unfold zxrio_open_handle_raw. unfold bind at 1. rewrite Hg.
  pose proof ZX_OK_zero as H0.
  replace (ZX_OK <? 0) with false by (symmetry; apply Z.ltb_ge; lia).
  cbn [info_type info_handle]. rewrite !Z.eqb_refl. cbn [negb].
  unfold bind, ret. reflexivity.
Qed.

(** ** Creating and unwrapping the local object *)

(** X20.  [fdio_remote_create] either fails to allocate, and closes both
    handles, or makes no system call and yields a connection from which
    [zxrio_unwrap] gives back the handles it was created with: both when
    the second is not zero, and only the first otherwise, each typed
    [PA_FDIO_REMOTE], with the count of handles as the value. *)
Theorem fdio_remote_create_unwrap (calloc_ok : bool) (h e : Z) (t : trace) :
  match fdio_remote_create calloc_ok h e t with
  | (None, t') =>
      calloc_ok = false /\ t' = t ++ [ev_handle_close h; ev_handle_close e]
  | (Some rio, t') =>
      calloc_ok = true /\ t' = t /\ rio_txid rio = 1
      /\ zxrio_unwrap rio =
         (if e =? 0 then (1, [h], [PA_FDIO_REMOTE])
          else (2, [h; e], [PA_FDIO_REMOTE; PA_FDIO_REMOTE]))
      /\ fst (fst (zxrio_unwrap rio)) =
         Z.of_nat (length (snd (fst (zxrio_unwrap rio))))
  end.
Proof.
  unfold fdio_remote_create. destruct calloc_ok; cbn [negb].
  - unfold ret. unfold zxrio_unwrap. cbn [rio_h rio_h2 rio_txid].
    destruct (e =? 0); cbn [negb fst snd length]; repeat split.
  - run_calls. rewrite <- app_assoc. split; reflexivity.
Qed.

(** ** Clone *)

(** A describe exchange that returns [ZX_OK] hands out the local end of
    the channel it created and has closed nothing. *)
Lemma zxrio_sync_open_connection_ok (rio_h : Z) (msg : zxrio_msg_t)
    (info : zxrio_describe_t) (out : Z) (t : trace) :
  let sy := zxrio_sync_open_connection k rio_h msg info out t in
  fst (fst (fst (fst sy))) = ZX_OK ->
  snd (fst sy) = cc_out0 (k_channel_create k t)
  /\ closed_handles (snd sy) = closed_handles t.
Proof.
  cbv zeta. pose proof ZX_OK_zero as H0.
  unfold zxrio_sync_open_connection. run_calls.
  destruct (cc_status (k_channel_create k t) <? 0) eqn:Hc.
  { cbn [fst snd]. apply Z.ltb_lt in Hc. lia. }
  destruct (k_channel_write _ _ _ _ _ _ <? 0) eqn:Hw.
  { cbn [fst snd]. apply Z.ltb_lt in Hw. lia. }
  destruct (rr_status _ =? ZX_OK) eqn:Hr; cbv beta iota; rewrite Hr;
    cbn [negb].
  2: { cbn [fst snd]. apply Z.eqb_neq in Hr. intros H. contradiction. }
  match goal with
  | |- context [if negb (?r =? ZX_OK) then _ else _] =>
      destruct (r =? ZX_OK) eqn:Hfin
  end; cbn [negb].
  - cbn [fst snd]. intros _. split; [reflexivity |].
    rewrite !closed_handles_app. cbn. now rewrite !app_nil_r.
  - apply Z.eqb_neq in Hfin.
    destruct (negb (info_handle _ =? ZX_HANDLE_INVALID)); cbn [fst snd];
      intros H; contradiction.
Qed.

(** X21.  [zxrio_sync_open_connection] leaks no end of the channel it
    creates.  If the channel cannot be created nothing else happens.
    Otherwise either it returns [ZX_OK], stores the local end in [*out] and
    has closed nothing, or it returns another status and has closed the
    local end; when the request could not be written it has closed the
    remote end as well, and sent nothing more. *)
Theorem zxrio_sync_open_connection_no_leak (rio_h : Z) (msg : zxrio_msg_t)
    (info : zxrio_describe_t) (out : Z) (t : trace) :
  let cc := k_channel_create k t in
  let t1 := t ++ [ev_channel_create] in
  let req :=
    set_hcount 1 (set_handle (store_handles [cc_out1 cc] (m_handle msg)) msg) in
  let w := k_channel_write k t1 rio_h req
             (to_uint32 (ZXRIO_HDR_SZ + m_datalen req))
             [cc_out1 cc] in
  let sy := zxrio_sync_open_connection k rio_h msg info out t in
  let r := fst (fst (fst (fst sy))) in
  if cc_status cc <? 0 then sy = (cc_status cc, msg, info, out, t1)
  else if w <? 0 then
    r = w /\ snd (fst sy) = out
    /\ snd sy = t1 ++ [ev_channel_write rio_h req
                         (to_uint32 (ZXRIO_HDR_SZ + m_datalen req))
                         [cc_out1 cc];
                       ev_handle_close (cc_out1 cc);
                       ev_handle_close (cc_out0 cc)]
  else
    (r = ZX_OK /\ snd (fst sy) = cc_out0 cc
     /\ closed_handles (snd sy) = closed_handles t)
    \/ (r <> ZX_OK /\ In (cc_out0 cc) (closed_handles (snd sy))).
Proof.
  cbv zeta. pose proof ZX_OK_zero as H0.
  unfold zxrio_sync_open_connection. run_calls.
  destruct (cc_status (k_channel_create k t) <? 0); [reflexivity |].
  cbn [m_hcount set_hcount Z.to_nat Pos.to_nat Pos.iter_op Nat.add].
  destruct (k_channel_write _ _ _ _ _ _ <? 0) eqn:Hw.
  { cbn [fst snd]. rewrite <- !app_assoc. repeat split. }
  destruct (rr_status _ =? ZX_OK) eqn:Hr; cbv beta iota; rewrite Hr;
    cbn [negb].
  2: { right. cbn [fst snd]. apply Z.eqb_neq in Hr. split; [exact Hr |].
       rewrite !closed_handles_app. cbn [closed_handles].
       rewrite !in_app_iff. right. left. reflexivity. }
  match goal with
  | |- context [if negb (?r =? ZX_OK) then _ else _] =>
      destruct (r =? ZX_OK) eqn:Hfin
  end; cbn [negb].
  - left. cbn [fst snd]. apply Z.eqb_eq in Hfin.
    split; [exact Hfin | split; [reflexivity |]].
    rewrite !closed_handles_app. cbn. now rewrite !app_nil_r.
  - right. apply Z.eqb_neq in Hfin.
    destruct (negb (info_handle _ =? ZX_HANDLE_INVALID)); cbn [fst snd];
      (split; [exact Hfin |]);
      rewrite !closed_handles_app; cbn [closed_handles];
      rewrite !in_app_iff; right; left; reflexivity.
Qed.

(** X22.  [zxrio_clone] is a describe exchange for the empty path with
    the op code [ZXRIO_CLONE].  When the exchange fails with a negative
    status the arrays are untouched; otherwise the value is the number of
    handles stored, one or two: the channel first and then the handle that
    came with the description, if any, each typed [PA_FDIO_REMOTE].  When
    the exchange returns [ZX_OK], the channel stored is the local end of
    the channel created, and nothing has been closed. *)
Theorem zxrio_clone_result (rio : zxrio_t) (handles types : list Z)
    (info : zxrio_describe_t) (h : Z) (t : trace) :
  let req :=
    set_data (memcpy [] [0] 0)
      (set_arg2 0
         (set_arg (to_int32 ZX_FS_FLAG_DESCRIBE)
            (set_datalen (to_uint32 0) (set_op ZXRIO_CLONE msg_zero_header)))) in
  let sy := zxrio_sync_open_connection k (rio_h rio) req info h t in
  let r := fst (fst (fst (fst sy))) in
  let described := snd (fst (fst sy)) in
  let channel := snd (fst sy) in
  let out := zxrio_clone k rio handles types info h t in
  snd out = snd sy
  /\ (if r <? 0 then fst out = (r, handles, types)
      else if info_handle described =? ZX_HANDLE_INVALID
      then fst out = (1, channel :: skipn 1 handles,
                      PA_FDIO_REMOTE :: skipn 1 types)
      else fst out = (2, channel :: info_handle described :: skipn 2 handles,
                      PA_FDIO_REMOTE :: PA_FDIO_REMOTE :: skipn 2 types))
  /\ (r = ZX_OK ->
      channel = cc_out0 (k_channel_create k t)
      /\ closed_handles (snd out) = closed_handles t).
Proof.
  cbv zeta.
  pose proof (zxrio_sync_open_connection_ok (rio_h rio)
                (set_data (memcpy [] [0] 0)
                   (set_arg2 0
                      (set_arg (to_int32 ZX_FS_FLAG_DESCRIBE)
                         (set_datalen (to_uint32 0)
                            (set_op ZXRIO_CLONE msg_zero_header)))))
                info h t) as Hok.
  cbv zeta in Hok.
  remember (zxrio_clone k rio handles types info h t) as out eqn:Hout.
  unfold zxrio_clone, zxrio_getobject in Hout.
  rewrite empty_path_fits, Z.land_diag in Hout.
  replace (ZX_FS_FLAG_DESCRIBE =? 0) with false in Hout
    by (symmetry; apply Z.eqb_neq; apply describe_flag_set).
  cbn [negb strlen Z.eqb] in Hout.
  unfold bind at 1 in Hout. unfold bind at 1 in Hout.
  cbn [m_data msg_zero_header set_op set_datalen set_arg set_arg2] in Hout.
  destruct (zxrio_sync_open_connection k (rio_h rio) _ info h t)
    as [[[[r m] described] channel] t1].
  unfold ret at 1 in Hout. cbn [fst snd] in *.
  destruct (r <? 0).
  - unfold ret in Hout. subst out. cbn [fst snd].
    split; [reflexivity | split; [reflexivity | exact Hok]].
  - destruct (info_handle described =? ZX_HANDLE_INVALID); cbn [negb] in Hout;
      unfold ret in Hout; subst out; cbn [fst snd];
      (split; [reflexivity | split; [| exact Hok]]).
    + reflexivity.
    + unfold store_handles. cbn [length app skipn].
      destruct handles as [| a [| b hs]]; destruct types as [| c [| d ts]];
        reflexivity.
Qed.

(** ** Signal translation *)

(** X23.  Whatever events are asked for, [zxrio_wait_begin] waits on the
    event handle of the connection and always asks for the signal of
    [POLLERR]: every bit of [POLLERR] under the mask, shifted into the
    user signals, is set in the signals it returns. *)
Theorem zxrio_wait_begin_detects_pollerr (rio : zxrio_t) (events : Z) :
  let err := Z.shiftl (Z.land POLLERR POLL_MASK) POLL_SHIFT in
  fst (zxrio_wait_begin rio events) = rio_h2 rio
  /\ Z.land (snd (zxrio_wait_begin rio events)) err = err.
Proof.
  cbv zeta. unfold zxrio_wait_begin. cbn [fst snd].
  split; [reflexivity |].
  apply Z.bits_inj'. intros n Hn.
  rewrite !Z.land_spec, !Z.lor_spec, !Z.shiftl_spec, !Z.land_spec, Z.lor_spec
    by exact Hn.
  destruct (Z.testbit POLLERR (n - POLL_SHIFT));
    destruct (Z.testbit events (n - POLL_SHIFT));
    destruct (Z.testbit POLL_MASK (n - POLL_SHIFT));
    destruct (Z.testbit _ n); reflexivity.
Qed.

(** The peer-closed signal and the shifted poll events share no bit. *)
Lemma peer_closed_apart (x : Z) :
  Z.land (Z.shiftl x POLL_SHIFT) ZX_CHANNEL_PEER_CLOSED = 0.
Proof.
  pose proof peer_closed_low as [Hp Hlt].
  apply Z.bits_inj'. intros n Hn.
  rewrite Z.land_spec, Z.shiftl_spec, Z.bits_0 by exact Hn.
  destruct (Z_lt_ge_dec n POLL_SHIFT) as [Hlo | Hhi].
  - rewrite (Z.testbit_neg_r x) by lia. reflexivity.
  - replace ZX_CHANNEL_PEER_CLOSED
      with (ZX_CHANNEL_PEER_CLOSED mod 2 ^ POLL_SHIFT)
      by (apply Z.mod_small; lia).
    rewrite Z.mod_pow2_bits_high by (unfold POLL_SHIFT in *; lia).
    apply andb_false_r.
Qed.

(** X24.  Signals made by [zxrio_wait_begin] come back from
    [zxrio_wait_end] as the events under the mask, with [POLLERR] added,
    and [POLLRDHUP] exactly when it was asked for: the peer-closed signal,
    which carries it, does not collide with the shifted events. *)
Theorem zxrio_wait_round_trip (rio : zxrio_t) (events : Z) :
  zxrio_wait_end (snd (zxrio_wait_begin rio events)) =
  Z.lor (Z.land (Z.lor POLLERR events) POLL_MASK)
    (if Z.land events POLLRDHUP =? 0 then 0 else POLLRDHUP).
Proof.
  unfold zxrio_wait_end, zxrio_wait_begin. cbn [snd].
  pose proof peer_closed_low as [Hp Hlt].
  set (x := Z.land (Z.lor POLLERR events) POLL_MASK).
  assert (Hshift : forall sig, 0 <= sig < 2 ^ POLL_SHIFT ->
            Z.land (Z.shiftr (Z.lor (Z.shiftl x POLL_SHIFT) sig) POLL_SHIFT)
              POLL_MASK = x).
  { intros sig Hsig.
    rewrite Z.shiftr_lor, Z.shiftr_shiftl_l by (unfold POLL_SHIFT; lia).
    rewrite Z.sub_diag, Z.shiftl_0_r.
    rewrite (Z.shiftr_div_pow2 sig) by (unfold POLL_SHIFT; lia).
    rewrite (Z.div_small sig) by lia.
    rewrite Z.lor_0_r. subst x.
    rewrite <- Z.land_assoc, Z.land_diag. reflexivity. }
  destruct (Z.land events POLLRDHUP =? 0); cbn [negb].
  - rewrite Z.lor_0_r, peer_closed_apart, Z.eqb_refl. cbn [negb].
    rewrite <- (Z.lor_0_r (Z.shiftl x POLL_SHIFT)), Hshift by lia.
    reflexivity.
  - rewrite Z.land_lor_distr_l, peer_closed_apart, Z.lor_0_l, Z.land_diag.
    replace (ZX_CHANNEL_PEER_CLOSED =? 0) with false
      by (symmetry; apply Z.eqb_neq; lia).
    cbn [negb]. rewrite Hshift by lia. reflexivity.
Qed.

(** ** Local objects from handles *)

Section From_handles_properties.

Variable ext : Type.
Variable calloc_ok : trace -> bool.
Variable fdio_service_create : Z -> M (option ext).
Variable fdio_pipe_create : Z -> M (option ext).
Variable fdio_vmofile_create : Z -> Z -> Z -> M (option ext).
Variable fdio_socket_create_new : Z -> Z -> M (option ext).
Variable fdio_socket_create : Z -> Z -> Z -> M (option ext).

(** What [fdio_from_handles] does with a handle count that the protocol
    does not take. *)
Lemma fdio_from_handles_discards (type : Z) (handles : list Z) (hcount : Z)
    (extra : Z * Z) (out : option (fdio_t ext)) (t : trace) :
  accepted_hcount type hcount = false ->
  fdio_from_handles calloc_ok fdio_service_create fdio_pipe_create
    fdio_vmofile_create fdio_socket_create_new fdio_socket_create
    type handles hcount extra out t =
  (if known_protocol type then ZX_ERR_INVALID_ARGS else ZX_ERR_NOT_SUPPORTED,
   out,
   t ++ map ev_handle_close (firstn (Z.to_nat (to_uint32 hcount)) handles)).
Proof.
  unfold accepted_hcount, known_protocol, fdio_from_handles.
  cbn [existsb].
  destruct (type =? FDIO_PROTOCOL_REMOTE); cbn [orb].
  { destruct (hcount =? 1); [discriminate |].
    destruct (hcount =? 2); [discriminate |]. intros _.
    unfold bind, ret. rewrite discard_handles_run. reflexivity. }
  destruct (type =? FDIO_PROTOCOL_SERVICE); cbn [orb].
  { intros ->. cbn [negb]. unfold bind, ret.
    rewrite discard_handles_run. reflexivity. }
  destruct (type =? FDIO_PROTOCOL_PIPE); cbn [orb].
  { intros ->. cbn [negb]. unfold bind, ret.
    rewrite discard_handles_run. reflexivity. }
  destruct (type =? FDIO_PROTOCOL_VMOFILE); cbn [orb].
  { intros ->. cbn [negb]. unfold bind, ret.
    rewrite discard_handles_run. reflexivity. }
  destruct ((type =? FDIO_PROTOCOL_SOCKET_CONNECTED)
            || (type =? FDIO_PROTOCOL_SOCKET)) eqn:Hs.
  { rewrite orb_false_r, Hs.
    destruct WITH_NEW_SOCKET.
    - intros ->. cbn [negb]. unfold bind, ret.
      rewrite discard_handles_run. reflexivity.
    - destruct (hcount =? 1); [discriminate |].
      destruct (hcount =? 2); [discriminate |]. intros _.
      unfold bind, ret. rewrite discard_handles_run. reflexivity. }
  rewrite orb_false_r, Hs. intros _.
  unfold bind, ret. rewrite discard_handles_run. reflexivity.
Qed.

(** X25.  When the handle count is not one that the protocol takes, or
    the protocol is not known, [fdio_from_handles] calls no constructor: it
    closes the [hcount] handles it was given, leaves [*out] as it was, and
    returns [ZX_ERR_INVALID_ARGS] for a known protocol and
    [ZX_ERR_NOT_SUPPORTED] otherwise. *)
Theorem fdio_from_handles_rejects (type : Z) (handles : list Z) (hcount : Z)
    (extra : Z * Z) (out : option (fdio_t ext)) (t : trace) :
  accepted_hcount type hcount = false ->
  fdio_from_handles calloc_ok fdio_service_create fdio_pipe_create
    fdio_vmofile_create fdio_socket_create_new fdio_socket_create
    type handles hcount extra out t =
  (if known_protocol type then ZX_ERR_INVALID_ARGS else ZX_ERR_NOT_SUPPORTED,
   out,
   t ++ map ev_handle_close (firstn (Z.to_nat (to_uint32 hcount)) handles)).
Proof. apply fdio_from_handles_discards. Qed.

(** X26.  For the remote protocol with one or two handles
    [fdio_from_handles] wraps the handles without a system call, and
    [zxrio_unwrap] on the object gives them back, provided the second one
    is not zero; when the allocation fails it closes them (and the zero
    handle in place of a missing second one) and leaves [*out] as it
    was. *)
Theorem fdio_from_handles_remote (h e : Z) (rest : list Z) (two : bool)
    (extra : Z * Z) (out : option (fdio_t ext)) (t : trace) :
  let hcount := if two then 2 else 1 in
  let second := if two then e else 0 in
  fdio_from_handles calloc_ok fdio_service_create fdio_pipe_create
    fdio_vmofile_create fdio_socket_create_new fdio_socket_create
    FDIO_PROTOCOL_REMOTE (h :: e :: rest) hcount extra out t =
  (if calloc_ok t
   then (ZX_OK, Some (fdio_remote ext (mk_rio h second 1)), t)
   else (ZX_ERR_NO_RESOURCES, out,
         t ++ [ev_handle_close h; ev_handle_close second]))
  /\ zxrio_unwrap (mk_rio h second 1) =
     (if second =? 0 then (1, [h], [PA_FDIO_REMOTE])
      else (hcount, firstn (Z.to_nat hcount) (h :: e :: rest),
            [PA_FDIO_REMOTE; PA_FDIO_REMOTE])).
Proof.
  cbv zeta. split.
  - unfold fdio_from_handles. rewrite Z.eqb_refl.
    destruct two; cbn [Z.eqb Pos.eqb nth];
      unfold bind, history, fdio_remote_create;
      destruct (calloc_ok t); cbn [negb]; run_calls;
      rewrite <- ?app_assoc; reflexivity.
  - unfold zxrio_unwrap. cbn [rio_h rio_h2].
    destruct two.
    + destruct (e =? 0); reflexivity.
    + reflexivity.
Qed.

(** X27.  An open without the describe flag that gets its channel and
    writes its request makes, through [zxrio_open], a remote object
    around the local end of the new channel, without an event handle and
    with the transaction id 1, whatever the description of the
    uninitialised local held; nothing is closed unless the allocation
    fails, when the local end is closed. *)
Theorem zxrio_open_pipelined (rio : zxrio_t) (p : list byte) (flags mode : Z)
    (out : option (fdio_t ext)) (info : zxrio_describe_t)
    (control_channel : Z) (extra : Z * Z) (t : trace) :
  let cc := k_channel_create k t in
  let t1 := t ++ [ev_channel_create] in
  let req := connect_request (cc_out1 cc) ZXRIO_OPEN flags mode p in
  let sent := connect_event (rio_h rio) (cc_out1 cc) ZXRIO_OPEN flags mode p in
  strlen p < PATH_MAX ->
  Z.land flags ZX_FS_FLAG_DESCRIBE = 0 ->
  0 <= cc_status cc ->
  0 <= k_channel_write k t1 (rio_h rio) req
         (to_uint32 (ZXRIO_HDR_SZ + m_datalen req)) [cc_out1 cc] ->
  zxrio_open k calloc_ok fdio_service_create fdio_pipe_create
    fdio_vmofile_create fdio_socket_create_new fdio_socket_create
    rio (Some p) flags mode out info control_channel extra t =
  (if calloc_ok (t1 ++ [sent])
   then (ZX_OK, Some (fdio_remote ext (mk_rio (cc_out0 cc) 0 1)), t1 ++ [sent])
   else (ZX_ERR_NO_RESOURCES, out,
         t1 ++ [sent; ev_handle_close (cc_out0 cc); ev_handle_close 0])).
Proof.
  cbv zeta. intros Hlen Hd Hcc Hw.
  pose proof (zxrio_getobject_paths_some (rio_h rio) ZXRIO_OPEN p flags mode
                info control_channel t Hlen Hd) as Hg.
  cbv zeta in Hg.
  replace (cc_status (k_channel_create k t) <? 0) with false in Hg
    by (symmetry; apply Z.ltb_ge; lia).
  match type of Hg with
  | context [if ?c then _ else _] =>
      replace c with false in Hg by (symmetry; apply Z.ltb_ge; lia)
  end.
  unfold zxrio_open, zxrio_open_handle. unfold bind at 1. rewrite Hg.
  pose proof ZX_OK_zero as H0.
  replace (ZX_OK <? 0) with false by (symmetry; apply Z.ltb_ge; lia).
  cbn [info_type info_handle]. rewrite Z.eqb_refl. cbn [negb].
  unfold fdio_from_handles. rewrite Z.eqb_refl.
  cbn [Z.eqb Pos.eqb nth].
  unfold bind, history, fdio_remote_create.
  destruct (calloc_ok _); cbn [negb]; run_calls;
    rewrite <- ?app_assoc; reflexivity.
Qed.

Variable fdio_bind_to_fd : option (fdio_t ext) -> Z -> Z -> M Z.
Variable fdio_close : option (fdio_t ext) -> M unit.
Variable fdio_release : option (fdio_t ext) -> M unit.

(** X28.  [fdio_create_fd] binds no descriptor when it fails early.  For
    a handle type other than remote, pipe and socket it returns
    [ZX_ERR_IO] and closes the [hcount] handles, once each.  For one of
    these types with a handle count that the protocol does not take it
    returns [ZX_ERR_INVALID_ARGS], leaves [*fd_out] as it was, and passes
    each handle to [zx_handle_close] twice: in [fdio_from_handles] and
    again after the label [fail]. *)
Theorem fdio_create_fd_failures (handles types : list Z) (hcount fd_out : Z)
    (io : option (fdio_t ext)) (t : trace) :
  let kind := PA_HND_TYPE (nth 0 types 0) in
  let typed :=
    if kind =? PA_FDIO_REMOTE then Some FDIO_PROTOCOL_REMOTE
    else if kind =? PA_FDIO_PIPE then Some FDIO_PROTOCOL_PIPE
    else if kind =? PA_FDIO_SOCKET then Some FDIO_PROTOCOL_SOCKET_CONNECTED
    else None in
  let closes := map ev_handle_close (firstn (Z.to_nat hcount) handles) in
  let out :=
    fdio_create_fd calloc_ok fdio_service_create fdio_pipe_create
      fdio_vmofile_create fdio_socket_create_new fdio_socket_create
      fdio_bind_to_fd fdio_close fdio_release
      handles types hcount fd_out io t in
  0 <= hcount < 2 ^ 31 ->
  match typed with
  | None => out = (ZX_ERR_IO, fd_out, t ++ closes)
  | Some type =>
      accepted_hcount type hcount = false ->
      out = (ZX_ERR_INVALID_ARGS, fd_out, t ++ closes ++ closes)
  end.
Proof.
  cbv zeta. intros Hh.
  assert (Ei : to_int32 hcount = hcount).
  { unfold to_int32. rewrite Z.mod_small by lia.
    replace (hcount <? 2 ^ 31) with true by (symmetry; apply Z.ltb_lt; lia).
    reflexivity. }
  assert (Eu : to_uint32 hcount = hcount)
    by (unfold to_uint32; apply Z.mod_small; lia).
  assert (Hne : negb (ZX_ERR_INVALID_ARGS =? ZX_OK) = true).
  { apply negb_true_iff, Z.eqb_neq.
    pose proof ZX_ERR_INVALID_ARGS_neg. pose proof ZX_OK_zero. lia. }
  assert (Hrej : forall type,
            known_protocol type = true ->
            accepted_hcount type hcount = false ->
            (x <- fdio_from_handles calloc_ok fdio_service_create
                    fdio_pipe_create fdio_vmofile_create
                    fdio_socket_create_new fdio_socket_create
                    type handles (to_int32 hcount) (0, 0) io ;;
             (let (r, io0) := x in
              if negb (r =? ZX_OK)
              then close_each handles hcount ;;; ret (r, fd_out)
              else
                fd <- fdio_bind_to_fd io0 (-1) 0 ;;
                (if fd <? 0
                 then fdio_close io0 ;;; fdio_release io0 ;;;
                      ret (ZX_ERR_BAD_STATE, fd_out)
                 else ret (ZX_OK, fd)))) t =
            (ZX_ERR_INVALID_ARGS, fd_out,
             t ++ map ev_handle_close (firstn (Z.to_nat hcount) handles)
               ++ map ev_handle_close (firstn (Z.to_nat hcount) handles))).
  { intros type Hk Hacc. unfold bind at 1. rewrite Ei.
    rewrite (fdio_from_handles_discards type handles hcount (0, 0) io t Hacc).
    rewrite Hk, Hne, Eu. unfold bind, ret, close_each.
    rewrite discard_handles_from_run, <- app_assoc. reflexivity. }
  unfold fdio_create_fd.
  destruct (PA_HND_TYPE (nth 0 types 0) =? PA_FDIO_REMOTE).
  { apply Hrej. unfold known_protocol. cbn [existsb].
    now rewrite Z.eqb_refl. }
  destruct (PA_HND_TYPE (nth 0 types 0) =? PA_FDIO_PIPE).
  { apply Hrej. unfold known_protocol. cbn [existsb].
    rewrite Z.eqb_refl. now rewrite !orb_true_r. }
  destruct (PA_HND_TYPE (nth 0 types 0) =? PA_FDIO_SOCKET).
  { apply Hrej. unfold known_protocol. cbn [existsb].
    rewrite Z.eqb_refl. now rewrite !orb_true_r. }
  unfold bind, ret, close_each. rewrite discard_handles_from_run.
  reflexivity.
Qed.

End From_handles_properties.

End More_properties.

(** * The further theorems at concrete inputs *)



(** X3 on three bytes and a peer that takes one byte per transaction: at
    most three bytes are reported and at most one transaction is made. *)
Lemma chunked_transfer_bounded_witness :
  let k := replying_kernel (fun _ => 1) (fun _ => []) [] in
  let w := write_common k ZXRIO_WRITE (mk_rio 5 0 1) [1; 2; 3] 3 0 [] in
  0 <= 3
  /\ fst (fst w) <= 3
  /\ count_calls (snd w) - count_calls [] <= ceil_div 3 FDIO_CHUNK_SIZE.
Proof.
  cbv zeta.
  assert (Hlen : 0 <= 3) by lia.
  split; [exact Hlen |].
  exact (proj1 (@chunked_transfer_bounded zircon
                  (replying_kernel (fun _ => 1) (fun _ => []) [])
                  ZXRIO_WRITE (mk_rio 5 0 1) [1; 2; 3] 3 0 [] Hlen)).
Defined.

(** X6 on a message that holds four handles, one more than a message may
    carry: the four are closed, and the reply goes out with no handle, no
    payload and the status [ZX_ERR_INTERNAL]. *)
Lemma zxrio_respond_reply_witness :
  let k := replying_kernel (fun _ => 0) (fun _ => []) [] in
  let msg := set_handle [31; 32; 33; 34] (set_hcount 4 msg_zero_header) in
  let out := zxrio_respond k 9 msg [] in
  0 <= m_hcount msg <= Z.of_nat (length (m_handle msg))
  /\ is_message_valid msg = false
  /\ closed_handles (snd out) = [31; 32; 33; 34]
  /\ m_hcount (snd (fst out)) = 0
  /\ m_arg (snd (fst out)) = ZX_ERR_INTERNAL.
Proof.
  cbv zeta.
  assert (Hin : 0 <= m_hcount
                       (set_handle [31; 32; 33; 34]
                          (set_hcount 4 msg_zero_header))
                <= Z.of_nat
                     (length
                        (m_handle
                           (set_handle [31; 32; 33; 34]
                              (set_hcount 4 msg_zero_header)))))
    by (cbn; lia).
  split; [exact Hin |].
  split; [reflexivity |].
  destruct (@zxrio_respond_reply zircon zircon_more
              (replying_kernel (fun _ => 0) (fun _ => []) []) 9
              (set_handle [31; 32; 33; 34] (set_hcount 4 msg_zero_header))
              [] Hin) as (_ & _ & _ & _ & _ & _ & Hclosed).
  split; [rewrite Hclosed; reflexivity |].
  split; reflexivity.
Defined.


(** X11 on a "get two handles" ioctl with an output buffer of four
    bytes. *)
Lemma zxrio_ioctl_rejects_early_witness :
  let k := replying_kernel (fun _ => 0) (fun _ => []) [] in
  zxrio_ioctl k (mk_rio 5 0 1) 2097152 [] 0 [1; 1; 1; 1] 4 [] =
  (ZX_ERR_INVALID_ARGS, mk_rio 5 0 1, [1; 1; 1; 1], []).
Proof.
  cbv zeta.
  apply (@zxrio_ioctl_rejects_early zircon
           (replying_kernel (fun _ => 0) (fun _ => []) [])
           (mk_rio 5 0 1) 2097152 [] 0 [1; 1; 1; 1] 4 []).
  vm_compute. reflexivity.
Defined.


(** X19 on the path ["foo"] with the read and write rights: the local end
    100 of the new channel is returned and nothing is closed. *)
Lemma zxrio_open_handle_raw_pipelined_witness :
  let k := replying_kernel (fun _ => 0) (fun _ => []) [] in
  zxrio_open_handle_raw k 3 (Some [102; 111; 111; 0]) 3 0 0 (mk_info 9 9 9 9) 9
    [] =
  (ZX_OK, 100,
   [ev_channel_create;
    connect_event 3 101 ZXRIO_OPEN 3 0 [102; 111; 111; 0]]).
Proof.
  cbv zeta.
  apply (@zxrio_open_handle_raw_pipelined zircon zircon_more
           (replying_kernel (fun _ => 0) (fun _ => []) [])
           3 [102; 111; 111; 0] 3 0 0 (mk_info 9 9 9 9) 9 []).
  - vm_compute. reflexivity.
  - reflexivity.
  - vm_compute. discriminate.
  - vm_compute. discriminate.
Defined.

(** X25 on the pipe protocol with two handles: both are closed. *)
Lemma fdio_from_handles_rejects_witness :
  let none1 : Z -> M (option unit) := fun _ => ret None in
  let none2 : Z -> Z -> M (option unit) := fun _ _ => ret None in
  let none3 : Z -> Z -> Z -> M (option unit) := fun _ _ _ => ret None in
  fdio_from_handles (fun _ => true) none1 none1 none3 none2 none3
    FDIO_PROTOCOL_PIPE [7; 8] 2 (0, 0) None [] =
  (ZX_ERR_INVALID_ARGS, None, [ev_handle_close 7; ev_handle_close 8]).
Proof.
  cbv zeta.
  etransitivity.
  - apply (@fdio_from_handles_rejects zircon zircon_more unit (fun _ => true)
             (fun _ => ret None) (fun _ => ret None) (fun _ _ _ => ret None)
             (fun _ _ => ret None) (fun _ _ _ => ret None)
             FDIO_PROTOCOL_PIPE [7; 8] 2 (0, 0) None []).
    reflexivity.
  - vm_compute. reflexivity.
Defined.

(** X27 on the path ["foo"] with the read and write rights: a remote
    object around the local end 100 of the new channel. *)
Lemma zxrio_open_pipelined_witness :
  let k := replying_kernel (fun _ => 0) (fun _ => []) [] in
  let none1 : Z -> M (option unit) := fun _ => ret None in
  let none2 : Z -> Z -> M (option unit) := fun _ _ => ret None in
  let none3 : Z -> Z -> Z -> M (option unit) := fun _ _ _ => ret None in
  zxrio_open k (fun _ => true) none1 none1 none3 none2 none3
    (mk_rio 3 0 1) (Some [102; 111; 111; 0]) 3 0 None (mk_info 9 9 9 9) 9
    (0, 0) [] =
  (ZX_OK, Some (fdio_remote unit (mk_rio 100 0 1)),
   [ev_channel_create;
    connect_event 3 101 ZXRIO_OPEN 3 0 [102; 111; 111; 0]]).
Proof.
  cbv zeta.
  apply (@zxrio_open_pipelined zircon zircon_more
           (replying_kernel (fun _ => 0) (fun _ => []) []) unit
           (fun _ => true)
           (fun _ => ret None) (fun _ => ret None) (fun _ _ _ => ret None)
           (fun _ _ => ret None) (fun _ _ _ => ret None)
           (mk_rio 3 0 1) [102; 111; 111; 0] 3 0 None (mk_info 9 9 9 9) 9
           (0, 0) []).
  - vm_compute. reflexivity.
  - reflexivity.
  - vm_compute. discriminate.
  - vm_compute. discriminate.
Defined.

(** X28 on three handles of the remote type: the call fails and each of
    the handles 7, 8 and 9 is passed to [zx_handle_close] twice. *)
Lemma fdio_create_fd_failures_witness :
  let none1 : Z -> M (option unit) := fun _ => ret None in
  let none2 : Z -> Z -> M (option unit) := fun _ _ => ret None in
  let none3 : Z -> Z -> Z -> M (option unit) := fun _ _ _ => ret None in
  fdio_create_fd (fun _ => true) none1 none1 none3 none2 none3
    (fun _ _ _ => ret 3) (fun _ => ret tt) (fun _ => ret tt)
    [7; 8; 9] [PA_FDIO_REMOTE] 3 (-1) None [] =
  (ZX_ERR_INVALID_ARGS, -1, map ev_handle_close [7; 8; 9; 7; 8; 9]).
Proof.
  cbv zeta.
  assert (Hh : 0 <= 3 < 2 ^ 31) by lia.
  pose proof (@fdio_create_fd_failures zircon zircon_more unit (fun _ => true)
                (fun _ => ret None) (fun _ => ret None)
                (fun _ _ _ => ret None) (fun _ _ => ret None)
                (fun _ _ _ => ret None)
                (fun _ _ _ => ret 3) (fun _ => ret tt) (fun _ => ret tt)
                [7; 8; 9] [PA_FDIO_REMOTE] 3 (-1) None [] Hh) as H.
  cbv zeta in H.
  change (PA_HND_TYPE (nth 0 [PA_FDIO_REMOTE] 0) =? PA_FDIO_REMOTE)
    with true in H.
  cbv beta iota in H.
  etransitivity; [apply H; reflexivity | reflexivity].
Defined.

